(** * Recommendation scoring pipeline of the ML service

    A shallow embedding of [services/recommendation_engine.py],
    [services/filter_analyzer.py], [services/personality_classifier.py],
    the metrics of [evaluation/evaluator.py] and the constants of
    [config.py].

    Conventions of the embedding.
    - Python [float] values are read as real numbers ([R]); [0.5 ** x] is
      [Rpower (1/2) x] and [x ** 0.5] is [sqrt x].  Rounding is not modelled.
    - Python [int] values (ids, counts, limits) are [Z].
    - A [dict] whose iteration order is observable (the score table, the
      category tables) is an association list kept in insertion order.
    - A dictionary row is a record of optional fields: [None] stands for a
      key that is absent (or bound to [None]); the one field whose absent
      and null states the code tells apart, [category_id], has three states.
    - The wall clock read by [get_days_ago] is an explicit argument [now]. *)

From Stdlib Require Import String.
From Stdlib Require Import Reals Lra Lia ZArith List Bool Permutation Sorted.
Import ListNotations.

Open Scope R_scope.

(** ** Python helpers *)

Module Py.

(** Truthiness of an integer and of an optional integer ([if product_id]). *)
Definition truthy_int (z : Z) : bool := negb (Z.eqb z 0).

Definition truthy_opt_int (o : option Z) : bool :=
  match o with Some z => truthy_int z | None => false end.

(** Comparisons on floats as booleans. *)
Definition ltb (x y : R) : bool := if Rlt_dec x y then true else false.
Definition leb (x y : R) : bool := if Rle_dec x y then true else false.
Definition eqb (x y : R) : bool := if Req_dec_T x y then true else false.

Definition truthy_float (x : R) : bool := negb (eqb x 0).

(** [x in xs] for a list or set of integers. *)
Definition mem (x : Z) (xs : list Z) : bool := existsb (Z.eqb x) xs.

(** [len(set(xs))]. *)
Definition len_set (xs : list Z) : Z := Z.of_nat (length (nodup Z.eq_dec xs)).

(** [a or b] on optional values whose non-[None] inhabitants are truthy. *)
Definition or_else {A : Type} (a b : option A) : option A :=
  match a with Some _ => a | None => b end.

(** [sum(xs)] and [sum(xs) / len(xs)]. *)
Definition sum (xs : list R) : R := fold_left Rplus xs 0.
Definition mean (xs : list R) : R := sum xs / INR (length xs).

(** An insertion-ordered dictionary with integer-like keys. *)
Section Dict.
Context {K V : Type} (keq : K -> K -> bool).

Fixpoint lookup (k : K) (d : list (K * V)) : option V :=
  match d with
  | [] => None
  | (k', v) :: d' => if keq k k' then Some v else lookup k d'
  end.

Definition has_key (k : K) (d : list (K * V)) : bool :=
  match lookup k d with Some _ => true | None => false end.

(** [d[k] = f(d.get(k))]: rewrite in place when the key is bound, append
    a new binding at the end otherwise. *)
Fixpoint upsert (k : K) (f : option V -> V) (d : list (K * V)) : list (K * V) :=
  match d with
  | [] => [(k, f None)]
  | (k', v) :: d' =>
      if keq k k' then (k', f (Some v)) :: d' else (k', v) :: upsert k f d'
  end.

(** Rewrite the value of a key that is bound; nothing happens otherwise. *)
Fixpoint adjust (k : K) (f : V -> V) (d : list (K * V)) : list (K * V) :=
  match d with
  | [] => []
  | (k', v) :: d' =>
      if keq k k' then (k', f v) :: d' else (k', v) :: adjust k f d'
  end.

End Dict.

(** [sorted(items, key=key, reverse=True)]: stable, descending. *)
Section SortDesc.
Context {A : Type} (key : A -> R).

Fixpoint insert_desc (x : A) (l : list A) : list A :=
  match l with
  | [] => [x]
  | y :: l' => if ltb (key x) (key y) then y :: insert_desc x l' else x :: l
  end.

Definition sorted_desc (l : list A) : list A := fold_right insert_desc [] l.

End SortDesc.

(** [enumerate(xs)] starting at index [i]. *)
Fixpoint enumerate_from {A : Type} (i : nat) (xs : list A) : list (nat * A) :=
  match xs with
  | [] => []
  | x :: xs' => (i, x) :: enumerate_from (S i) xs'
  end.

Definition enumerate {A : Type} (xs : list A) : list (nat * A) := enumerate_from 0 xs.

(** [xs[:k]]: a negative [k] counts from the end. *)
Definition take {A : Type} (k : Z) (xs : list A) : list A :=
  if (0 <=? k)%Z then firstn (Z.to_nat k) xs
  else firstn (length xs - Z.to_nat (- k)) xs.

End Py.

(** ** config.py: the constants the pipeline reads *)

Module Settings.

Definition recommendation_alpha_default : R := 4 / 10.
Definition alpha_sparse_collab_threshold : R := 5 / 100.
Definition alpha_sparse_collab_boost : R := 2 / 10.
Definition alpha_new_user_threshold : Z := 10.
Definition alpha_new_user_boost : R := 15 / 100.

Definition decay_half_life_purchases : R := 30.
Definition decay_half_life_views : R := 7.
Definition decay_half_life_wishlist : R := 14.

Definition diversity_max_per_category : Z := 3.
Definition diversity_min_categories : Z := 3.

Definition session_boost_weight : R := 3 / 10.

Definition category_affinity_top_n : nat := 5.
Definition category_affinity_boost : R := 4 / 10.
Definition category_affinity_top_boost : R := 3 / 10.

Definition price_preference_boost : R := 15 / 100.
Definition price_preference_penalty : R := 1 / 10.

Definition filter_signal_weight : R := 3 / 10.
Definition filter_min_samples : nat := 3.
Definition filter_category_max_weight : Z := 5.
Definition filter_category_affinity_weight : R := 15 / 10.

End Settings.

(** ** Timestamps *)

(** A timestamp value found in a row: a datetime (or an ISO string that
    parses to one), given as microseconds since the epoch in UTC, or a value
    [datetime.fromisoformat] rejects. *)
Inductive timestamp : Type :=
| Datetime (us : Z)
| Unparsable.

Definition us_per_day : Z := 86400000000.

(** ** models/schemas.py *)

Module Schemas.

Inductive PersonalityType : Type :=
| ADVENTUROUS_PREMIUM
| CAUTIOUS_VALUE_SEEKER
| LOYAL_ENTHUSIAST
| BARGAIN_HUNTER
| QUALITY_FOCUSED
| TREND_FOLLOWER
| PRACTICAL_SHOPPER
| IMPULSE_BUYER.

(** The reason shown with a recommendation.  Each constructor stands for one
    text: the entries of [REASON_TEMPLATES] the engine uses, its two literal
    reasons, and the fallback of the diversity selector.  [CategoryAffinity c]
    is the text built from the name of category [c]. *)
Inductive Reason : Type :=
| Bestseller
| BasedOnSimilarUsers
| SimilarToViewed
| MatchesStyle (personality_type : PersonalityType)
| FromWishlist
| ViewedRecently
| RelatedToBrowsing
| CategoryAffinity (category : Z)
| PriceMatch
| RecommendedForYou.

(** [RecommendationItem], without the display strings [name],
    [category_name] and [image_url], which are copied from the product row. *)
Record RecommendationItem : Type := {
  product_id : Z;
  score : R;
  reason : Reason;
  category_id : option Z;
  price : option R
}.

Inductive InteractionType : Type :=
| VIEW
| CLICK
| ADD_TO_CART
| PURCHASE
| WISHLIST
| REVIEW.

End Schemas.

(** ** services/filter_analyzer.py *)

Module FilterAnalyzer.

(** The [filter_context] dictionary of an interaction's metadata.
    [fc_other_keys] records that the dictionary binds some key besides the
    three read here, which makes it truthy on its own. *)
Record filter_context : Type := {
  fc_min_price : option R;
  fc_max_price : option R;
  fc_category_id : option Z;
  fc_other_keys : bool
}.

(** The [metadata] dictionary of an interaction. *)
Record metadata : Type := {
  md_filter_context : option filter_context
}.

(** A logged interaction, as far as the analyzer reads it. *)
Record interaction : Type := {
  i_metadata : option metadata
}.

(** [bool(filter_context)]: a dictionary is truthy when it is not empty. *)
Definition truthy_context (c : filter_context) : bool :=
  match fc_min_price c, fc_max_price c, fc_category_id c with
  | None, None, None => fc_other_keys c
  | _, _, _ => true
  end.

Fixpoint extract_filter_interactions (interactions : list (option interaction))
  : list (interaction * filter_context) :=
  match interactions with
  | [] => []
  | None :: rest => extract_filter_interactions rest
  | Some i :: rest =>
      match i_metadata i with
      | Some md =>
          match md_filter_context md with
          | Some ctx =>
              if truthy_context ctx
              then (i, ctx) :: extract_filter_interactions rest
              else extract_filter_interactions rest
          | None => extract_filter_interactions rest
          end
      | None => extract_filter_interactions rest
      end
  end.

(** The values of one optional key over the filter data, in order. *)
Definition collect {A : Type} (f : filter_context -> option A)
  (filter_data : list (interaction * filter_context)) : list A :=
  flat_map (fun item => match f (snd item) with Some v => [v] | None => [] end)
           filter_data.

Definition average_or_none (xs : list R) : option R :=
  match xs with [] => None | _ => Some (Py.mean xs) end.

Definition extract_price_signals (interactions : list (option interaction))
  : option R * option R :=
  let filter_data := extract_filter_interactions interactions in
  if Nat.ltb (length filter_data) Settings.filter_min_samples then (None, None)
  else
    let min_prices := collect fc_min_price filter_data in
    let max_prices := collect fc_max_price filter_data in
    (average_or_none min_prices, average_or_none max_prices).

(** [category_counts[int(category_id)] += 1] over the filter data. *)
Definition extract_category_signals (interactions : list (option interaction))
  : list (Z * Z) :=
  fold_left
    (fun counts item =>
       match fc_category_id (snd item) with
       | Some c =>
           if Py.truthy_int c
           then Py.upsert Z.eqb c
                  (fun o => (match o with Some n => n | None => 0 end + 1)%Z) counts
           else counts
       | None => counts
       end)
    (extract_filter_interactions interactions) [].

Definition platform_max : R := 500.

(** The sensitivity contributed by one filter context, if any. *)
Definition context_sensitivity (ctx : filter_context) : option R :=
  match fc_min_price ctx, fc_max_price ctx with
  | Some min_val, Some max_val =>
      let range_width := max_val - min_val in
      let normalized_width := Rmin (range_width / platform_max) 1 in
      Some (1 - normalized_width)
  | None, Some max_val =>
      let sensitivity := 1 - Rmin (max_val / platform_max) 1 in
      Some (Rmin (8 / 10) (sensitivity + 2 / 10))
  | Some _, None => Some (3 / 10)
  | None, None => None
  end.

Definition calculate_price_sensitivity_signal
  (interactions : list (option interaction)) : option R :=
  let filter_data := extract_filter_interactions interactions in
  if Nat.ltb (length filter_data) Settings.filter_min_samples then None
  else
    let signals := collect context_sensitivity filter_data in
    average_or_none signals.

(** [max(counts.values())] of a non-empty table. *)
Definition max_count (counts : list (Z * Z)) : Z :=
  match counts with
  | [] => 0%Z
  | (_, n) :: rest => fold_left (fun m kv => Z.max m (snd kv)) rest n
  end.

Definition calculate_filter_based_category_affinity
  (interactions : list (option interaction)) (max_weight : option Z)
  : list (Z * R) :=
  let max_weight :=
    match max_weight with
    | Some w => w
    | None => Settings.filter_category_max_weight
    end in
  let category_counts := extract_category_signals interactions in
  match category_counts with
  | [] => []
  | _ =>
      let capped_max := Z.min (max_count category_counts) max_weight in
      map (fun kv =>
             (fst kv, IZR (Z.min (snd kv) max_weight) / IZR (Z.max capped_max 1)))
          category_counts
  end.

Definition blend_price_ranges (purchase_min purchase_max : R)
  (filter_min filter_max : option R) (filter_weight : option R) : R * R :=
  let filter_weight :=
    match filter_weight with
    | Some w => w
    | None => Settings.filter_signal_weight
    end in
  let purchase_weight := 1 - filter_weight in
  match filter_min, filter_max with
  | None, None => (purchase_min, purchase_max)
  | _, _ =>
      let blended_min :=
        match filter_min with
        | Some fmin => purchase_weight * purchase_min + filter_weight * fmin
        | None => purchase_min
        end in
      let blended_max :=
        match filter_max with
        | Some fmax => purchase_weight * purchase_max + filter_weight * fmax
        | None => purchase_max
        end in
      (blended_min, blended_max)
  end.

End FilterAnalyzer.

(** ** services/personality_classifier.py *)

Module PersonalityClassifier.

Import Schemas.

(** The five keys of a dimension dictionary. *)
Inductive dimension : Type :=
| price_sensitivity
| exploration_tendency
| sentiment_tendency
| purchase_frequency
| decision_speed.

(** [DIMENSION_WEIGHTS], in the order the dictionary lists them. *)
Definition DIMENSION_WEIGHTS : list (dimension * R) :=
  [ (price_sensitivity, 25 / 100);
    (exploration_tendency, 20 / 100);
    (sentiment_tendency, 15 / 100);
    (purchase_frequency, 20 / 100);
    (decision_speed, 20 / 100) ].

Definition mk_profile (ps et st pf ds : R) (d : dimension) : R :=
  match d with
  | price_sensitivity => ps
  | exploration_tendency => et
  | sentiment_tendency => st
  | purchase_frequency => pf
  | decision_speed => ds
  end.

(** [PERSONALITY_PROFILES], in the order the dictionary lists them. *)
Definition PERSONALITY_PROFILES : list (PersonalityType * (dimension -> R)) :=
  [ (ADVENTUROUS_PREMIUM, mk_profile (2/10) (9/10) (7/10) (6/10) (8/10));
    (CAUTIOUS_VALUE_SEEKER, mk_profile (9/10) (3/10) (5/10) (4/10) (2/10));
    (LOYAL_ENTHUSIAST, mk_profile (4/10) (3/10) (8/10) (7/10) (6/10));
    (BARGAIN_HUNTER, mk_profile 1 (7/10) (5/10) (5/10) (9/10));
    (QUALITY_FOCUSED, mk_profile (3/10) (5/10) (6/10) (4/10) (3/10));
    (TREND_FOLLOWER, mk_profile (5/10) (8/10) (7/10) (7/10) (7/10));
    (PRACTICAL_SHOPPER, mk_profile (6/10) (4/10) (5/10) (3/10) (5/10));
    (IMPULSE_BUYER, mk_profile (4/10) (9/10) (6/10) (8/10) 1) ].

(** A dimension dictionary: the value bound to each of the five keys, if any. *)
Definition dimensions : Type := dimension -> option R.

(** [dimensions.get(dim_name, 0.5)]. *)
Definition get_dimension (dims : dimensions) (d : dimension) : R :=
  match dims d with Some v => v | None => 5 / 10 end.

(** The inner loop of [classify] followed by [distance ** 0.5]. *)
Definition profile_distance (dims : dimensions) (profile : dimension -> R) : R :=
  let distance :=
    fold_left
      (fun distance dw =>
         let user_value := get_dimension dims (fst dw) in
         let profile_value := profile (fst dw) in
         distance + snd dw * Rabs (user_value - profile_value) ^ 2)
      DIMENSION_WEIGHTS 0 in
  sqrt distance.

(** One iteration of the outer loop; [None] is [float("inf")]. *)
Definition classify_step (dims : dimensions)
  (best : PersonalityType * option R)
  (entry : PersonalityType * (dimension -> R)) : PersonalityType * option R :=
  let distance := profile_distance dims (snd entry) in
  match snd best with
  | None => (fst entry, Some distance)
  | Some best_score =>
      if Py.ltb distance best_score then (fst entry, Some distance) else best
  end.

Definition classify (dims : dimensions) : PersonalityType * R :=
  let best := fold_left (classify_step dims) PERSONALITY_PROFILES
                (PRACTICAL_SHOPPER, None) in
  let confidence :=
    match snd best with
    | Some best_score => Rmax 0 (Rmin 1 (1 - best_score))
    | None => 0
    end in
  (fst best, confidence).

(** The aggregated purchase statistics read by the frequency dimension. *)
Record purchase_stats : Type := {
  first_purchase : option timestamp;
  last_purchase : option timestamp;
  total_orders : Z
}.

(** The bucket of an average number of days between orders. *)
Definition frequency_bucket (avg_days_between : R) : R :=
  if Py.leb avg_days_between 7 then 1
  else if Py.leb avg_days_between 14 then 8 / 10
  else if Py.leb avg_days_between 30 then 6 / 10
  else if Py.leb avg_days_between 60 then 4 / 10
  else if Py.leb avg_days_between 90 then 2 / 10
  else 1 / 10.

(** [None] is the [ValueError] of [datetime.fromisoformat]. *)
Definition _calculate_purchase_frequency (stats : purchase_stats) : option R :=
  match first_purchase stats, last_purchase stats with
  | Some first, Some last =>
      if (total_orders stats <? 2)%Z then Some (3 / 10)
      else
        match first, last with
        | Datetime f, Datetime l =>
            (* [(last_purchase - first_purchase).days] *)
            let total_days := ((l - f) / us_per_day)%Z in
            if (total_days <=? 0)%Z then Some (5 / 10)
            else
              let avg_days_between :=
                IZR total_days / IZR (total_orders stats - 1) in
              Some (frequency_bucket avg_days_between)
        | _, _ => None
        end
  | _, _ => Some (3 / 10)
  end.

(** *** The other dimensions *)

(** A purchase row, as far as the classifier reads it. *)
Record purchase : Type := {
  discount_applied : bool;
  paid_price : option R;
  original_price : option R;
  bought_product : option Z
}.

(** A review row, as far as the classifier reads it. *)
Record review : Type := {
  review_rating : option R
}.

(** An interaction row: the keys read by the decision-speed dimension, and
    the view of the same row the filter analyzer takes. *)
Record interaction_row : Type := {
  interaction_type : option InteractionType;
  duration_seconds : option R;
  filter_view : FilterAnalyzer.interaction
}.

(** The purchase-statistics dictionary; the keys read by the frequency
    dimension are those of [purchase_stats]. *)
Record stats_row : Type := {
  avg_item_price : option R;
  unique_categories : option Z;
  frequency_stats : purchase_stats
}.

(** [p.get("discount_applied") or p.get("product_price", 0) <
    p.get("original_price", p.get("product_price", 0))]. *)
Definition discounted (p : purchase) : bool :=
  let product_price := match paid_price p with Some x => x | None => 0 end in
  discount_applied p
  || Py.ltb product_price
       (match original_price p with Some x => x | None => product_price end).

Definition _calculate_price_sensitivity (purchases : list purchase)
  (stats : stats_row) : R :=
  match purchases, avg_item_price stats with
  | [], _ => 5 / 10
  | _, None => 5 / 10
  | _, Some avg_price =>
      if Py.truthy_float avg_price then
        let platform_avg := 50 in
        let sensitivity := 1 - Rmin (avg_price / (platform_avg * 2)) 1 in
        let discount_purchases := length (filter discounted purchases) in
        let discount_ratio := INR discount_purchases / INR (length purchases) in
        let sensitivity := (sensitivity + discount_ratio) / 2 in
        Rmax 0 (Rmin 1 sensitivity)
      else 5 / 10
  end.

Definition _blend_price_sensitivity_with_filters (purchase_sensitivity : R)
  (interactions : list interaction_row) : R :=
  let filter_sensitivity :=
    FilterAnalyzer.calculate_price_sensitivity_signal
      (map (fun i => Some (filter_view i)) interactions) in
  match filter_sensitivity with
  | None => purchase_sensitivity
  | Some filter_sensitivity =>
      let filter_weight := Settings.filter_signal_weight in
      let purchase_weight := 1 - filter_weight in
      let blended :=
        purchase_weight * purchase_sensitivity + filter_weight * filter_sensitivity in
      Rmax 0 (Rmin 1 blended)
  end.

Definition option_Z_eq_dec (a b : option Z) : {a = b} + {a <> b}.
Proof. decide equality. apply Z.eq_dec. Defined.

Definition _calculate_exploration_tendency (purchases : list purchase)
  (stats : stats_row) : R :=
  match purchases with
  | [] => 5 / 10
  | _ =>
      let unique_categories :=
        match unique_categories stats with Some n => n | None => 1%Z end in
      let total_purchases := length purchases in
      let diversity := Rmin (IZR unique_categories / 10) 1 in
      let product_ids := map bought_product purchases in
      let unique_products := length (nodup option_Z_eq_dec product_ids) in
      let novelty := INR unique_products / INR total_purchases in
      (diversity + novelty) / 2
  end.

Definition _calculate_sentiment_tendency (reviews : list review) : R :=
  match reviews with
  | [] => 5 / 10
  | _ =>
      let total_rating :=
        Py.sum (map (fun r => match review_rating r with Some x => x | None => 3 end)
                    reviews) in
      let avg_rating := total_rating / INR (length reviews) in
      (avg_rating - 1) / 4
  end.

(** The durations kept by the loop of [_calculate_decision_speed]. *)
Definition view_times (interactions : list interaction_row) : list R :=
  flat_map
    (fun i =>
       match interaction_type i with
       | Some VIEW =>
           let duration := match duration_seconds i with Some x => x | None => 0 end in
           if Py.ltb 0 duration then [duration] else []
       | _ => []
       end)
    interactions.

(** The bucket of an average view time, in seconds. *)
Definition speed_bucket (avg_view_time : R) : R :=
  if Py.leb avg_view_time 30 then 1
  else if Py.leb avg_view_time 60 then 7 / 10
  else if Py.leb avg_view_time 180 then 5 / 10
  else if Py.leb avg_view_time 300 then 3 / 10
  else 1 / 10.

Definition _calculate_decision_speed (interactions : list interaction_row)
  (purchases : list purchase) : R :=
  match interactions with
  | [] => 5 / 10
  | _ =>
      match view_times interactions with
      | [] => 5 / 10
      | times => speed_bucket (Py.mean times)
      end
  end.

(** [None] is the exception of [_calculate_purchase_frequency]. *)
Definition calculate_dimensions (user_id : Z) (purchases : list purchase)
  (reviews : list review) (interactions : list interaction_row)
  (stats : stats_row) : option dimensions :=
  let purchase_price_sensitivity := _calculate_price_sensitivity purchases stats in
  let price_sensitivity_value :=
    _blend_price_sensitivity_with_filters purchase_price_sensitivity interactions in
  let exploration := _calculate_exploration_tendency purchases stats in
  let sentiment := _calculate_sentiment_tendency reviews in
  match _calculate_purchase_frequency (frequency_stats stats) with
  | None => None
  | Some frequency =>
      let speed := _calculate_decision_speed interactions purchases in
      Some (fun d =>
              Some (mk_profile price_sensitivity_value exploration sentiment
                      frequency speed d))
  end.

End PersonalityClassifier.

(** ** services/recommendation_engine.py *)

Module RecommendationEngine.
Import Schemas.

(** *** Rows *)

(** A dictionary field whose absent and null states are told apart. *)
Inductive field (A : Type) : Type :=
| Absent
| Null
| Val (a : A).
Arguments Absent {A}.
Arguments Null {A}.
Arguments Val {A} a.

(** [row.get(key)]. *)
Definition get {A : Type} (f : field A) : option A :=
  match f with Val a => Some a | _ => None end.

(** A product row ([all_products], [popular_products], [content_similar],
    [session_products]).  [image_url] records whether the row carries a
    non-empty image URL; [similarity] is the key ["score"] of a
    content-similarity row. *)
Record product_row : Type := {
  id : option Z;
  alt_product_id : option Z;
  p_category_id : field Z;
  p_price : option R;
  is_new : option bool;
  is_on_sale : option bool;
  discount : option R;
  rating : option R;
  avg_rating : option R;
  popularity : option Z;
  order_count : option Z;
  image_url : bool;
  similarity : option R
}.

(** [product.get("id", product.get("product_id"))]. *)
Definition id_first (p : product_row) : option Z :=
  Py.or_else (id p) (alt_product_id p).

(** [product.get("product_id", product.get("id"))]. *)
Definition product_id_first (p : product_row) : option Z :=
  Py.or_else (alt_product_id p) (id p).

Record purchase_row : Type := {
  pu_category_id : option Z;
  purchase_date : option timestamp;
  ordered_at : option timestamp;
  product_price : option R;
  pu_price : option R
}.

Record wishlist_row : Type := {
  w_product_id : option Z;
  w_category_id : option Z;
  added_at : option timestamp
}.

Record view_row : Type := {
  v_product_id : option Z;
  v_category_id : option Z;
  created_at : option timestamp;
  v_timestamp : option timestamp
}.

Record review_row : Type := {
  r_product_id : option Z;
  r_rating : option R
}.

(** The user's personality profile document. *)
Record profile : Type := {
  personality_type : option PersonalityType
}.

(** *** Alpha *)

Definition calculate_adaptive_alpha (has_personality_profile : bool)
  (interaction_count : Z) (collaborative_coverage : R) : R * bool :=
  if negb has_personality_profile then (0, true)
  else
    let alpha := Settings.recommendation_alpha_default in
    let alpha :=
      if Py.ltb collaborative_coverage Settings.alpha_sparse_collab_threshold
      then alpha + Settings.alpha_sparse_collab_boost else alpha in
    let alpha :=
      if (interaction_count <? Settings.alpha_new_user_threshold)%Z
      then alpha + Settings.alpha_new_user_boost else alpha in
    let alpha := Rmax (1 / 10) (Rmin (9 / 10) alpha) in
    (alpha, true).

(** *** Time decay *)

(** [None] is the [ZeroDivisionError] of [days_ago / half_life]. *)
Definition calculate_time_decay (days_ago half_life : R) : option R :=
  if Py.ltb days_ago 0 then Some 1
  else if Py.eqb half_life 0 then None
  else Some (Rpower (1 / 2) (days_ago / half_life)).

(** The decay factor at one of the configured half-lives, none of which is
    zero (see [configured_decay_defined]). *)
Definition decay_factor (days_ago half_life : R) : R :=
  match calculate_time_decay days_ago half_life with
  | Some decay => decay
  | None => 1
  end.

(** [now] is the reading of [datetime.now(timezone.utc)]. *)
Definition get_days_ago (now : Z) (ts : option timestamp) : R :=
  match ts with
  | None => 0
  | Some Unparsable => 0
  | Some (Datetime t) => Rmax 0 (IZR (now - t) / 1000000 / 86400)
  end.

(** *** Category affinity *)

(** [category_scores[cat_id] += weight; total_weight += weight]. *)
Definition add_weight (cat_id : Z) (weight : R) (acc : list (Z * R) * R)
  : list (Z * R) * R :=
  (Py.upsert Z.eqb cat_id
     (fun o => match o with Some s => s | None => 0 end + weight) (fst acc),
   snd acc + weight).

(** One iteration of the three history loops: [base] is the weight of the
    signal and [half_life] its half-life. *)
Definition history_step (now : Z) (base half_life : R)
  (cat_id : option Z) (ts : option timestamp) (acc : list (Z * R) * R)
  : list (Z * R) * R :=
  match cat_id with
  | Some c =>
      if Py.truthy_int c then
        let days_ago := get_days_ago now ts in
        let decay := decay_factor days_ago half_life in
        add_weight c (base * decay) acc
      else acc
  | None => acc
  end.

Definition max_value (scores : list (Z * R)) : R :=
  match scores with
  | [] => 1
  | (_, s) :: rest => fold_left (fun m kv => Rmax m (snd kv)) rest s
  end.

(** The loop over the purchases (weight 3). *)
Definition add_purchases (now : Z) (purchases : list (option purchase_row))
  (acc : list (Z * R) * R) : list (Z * R) * R :=
  fold_left
    (fun acc p =>
       match p with
       | None => acc
       | Some p =>
           history_step now 3 Settings.decay_half_life_purchases
             (pu_category_id p) (Py.or_else (purchase_date p) (ordered_at p)) acc
       end)
    purchases acc.

(** The loop over the wishlist (weight 2). *)
Definition add_wishlist (now : Z) (wishlist : list (option wishlist_row))
  (acc : list (Z * R) * R) : list (Z * R) * R :=
  fold_left
    (fun acc w =>
       match w with
       | None => acc
       | Some w =>
           history_step now 2 Settings.decay_half_life_wishlist
             (w_category_id w) (added_at w) acc
       end)
    wishlist acc.

(** The loop over the views (weight 1). *)
Definition add_views (now : Z) (views : list (option view_row))
  (acc : list (Z * R) * R) : list (Z * R) * R :=
  fold_left
    (fun acc v =>
       match v with
       | None => acc
       | Some v =>
           history_step now 1 Settings.decay_half_life_views
             (v_category_id v) (Py.or_else (created_at v) (v_timestamp v)) acc
       end)
    views acc.

(** The filter category selections (weight 1.5 on the normalized affinity). *)
Definition add_filter_selections
  (interactions : list (option FilterAnalyzer.interaction))
  (acc : list (Z * R) * R) : list (Z * R) * R :=
  match interactions with
  | [] => acc
  | _ =>
      let filter_affinity :=
        FilterAnalyzer.calculate_filter_based_category_affinity interactions None in
      let filter_weight := Settings.filter_category_affinity_weight in
      fold_left
        (fun acc ca => add_weight (fst ca) (filter_weight * snd ca) acc)
        filter_affinity acc
  end.

Definition calculate_category_affinity (now : Z)
  (purchases : list (option purchase_row)) (views : list (option view_row))
  (wishlist : list (option wishlist_row))
  (interactions : list (option FilterAnalyzer.interaction)) : list (Z * R) :=
  let acc : list (Z * R) * R := ([], 0) in
  let acc := add_purchases now purchases acc in
  let acc := add_wishlist now wishlist acc in
  let acc := add_views now views acc in
  let acc := add_filter_selections interactions acc in
  let category_scores := fst acc in
  let total_weight := snd acc in
  if Py.ltb 0 total_weight then
    let max_score := max_value category_scores in
    map (fun cs => (fst cs, snd cs / max_score)) category_scores
  else [].

(** *** Price preference *)

(** A float that may be [float("inf")]. *)
Inductive bound : Type :=
| Finite (x : R)
| Infinity.

(** Ascending sort, as [numpy.percentile] orders its input. *)
Fixpoint insert_asc (x : R) (l : list R) : list R :=
  match l with
  | [] => [x]
  | y :: l' => if Py.leb x y then x :: l else y :: insert_asc x l'
  end.

Definition sort_asc (l : list R) : list R := fold_right insert_asc [] l.

(** [numpy.percentile(prices, q)] with its default linear interpolation: the
    value at the fractional position [(n - 1) * q / 100] of the sorted data. *)
Definition percentile (prices : list R) (q : Z) : R :=
  let sorted := sort_asc prices in
  let position := ((Z.of_nat (length sorted) - 1) * q)%Z in
  let lower := Z.to_nat (position / 100) in
  let upper := Nat.min (S lower) (length sorted - 1) in
  let fraction := IZR (position mod 100) / 100 in
  let a := nth lower sorted 0 in
  let b := nth upper sorted 0 in
  a + (b - a) * fraction.

(** The prices kept by the first loop of [calculate_price_preference]. *)
Definition purchase_prices (purchases : list (option purchase_row)) : list R :=
  flat_map
    (fun p =>
       match p with
       | None => []
       | Some p =>
           let price :=
             match product_price p with
             | Some x => if Py.truthy_float x then Some x else pu_price p
             | None => pu_price p
             end in
           match price with
           | Some x => if Py.truthy_float x && Py.ltb 0 x then [x] else []
           | None => []
           end
       end)
    purchases.

Definition calculate_price_preference (purchases : list (option purchase_row))
  (interactions : list (option FilterAnalyzer.interaction)) : R * bound :=
  let prices := purchase_prices purchases in
  if Nat.ltb (length prices) 3 then (0, Infinity)
  else
    let p25 := percentile prices 25 in
    let p75 := percentile prices 75 in
    let purchase_min := p25 * (8 / 10) in
    let purchase_max := p75 * (12 / 10) in
    match interactions with
    | [] => (purchase_min, Finite purchase_max)
    | _ =>
        let '(filter_min, filter_max) :=
          FilterAnalyzer.extract_price_signals interactions in
        match filter_min, filter_max with
        | None, None => (purchase_min, Finite purchase_max)
        | _, _ =>
            let '(blended_min, blended_max) :=
              FilterAnalyzer.blend_price_ranges purchase_min purchase_max
                filter_min filter_max None in
            (blended_min, Finite blended_max)
        end
    end.

Definition score_price_preference (product_price preferred_min : R)
  (preferred_max : bound) : R :=
  match preferred_max with
  | Infinity => 0
  | Finite preferred_max =>
      if Py.leb preferred_min product_price && Py.leb product_price preferred_max
      then Settings.price_preference_boost
      else if Py.ltb product_price (preferred_min * (5 / 10))
              || Py.ltb (preferred_max * 2) product_price
      then - Settings.price_preference_penalty
      else 0
  end.

(** *** Personality boost *)

Definition default {A : Type} (d : A) (o : option A) : A :=
  match o with Some a => a | None => d end.

Definition bonus (condition : bool) (amount : R) : R :=
  if condition then amount else 0.

(** The score of one product under a personality type, before the cap. *)
Definition personality_score_of (t : PersonalityType) (product : product_row) : R :=
  let price := default 0 (p_price product) in
  let is_new := default false (is_new product) in
  let is_on_sale :=
    default (Py.ltb 0 (default 0 (discount product))) (is_on_sale product) in
  let rating := default (default (35 / 10) (avg_rating product)) (rating product) in
  let popularity := default (default 0%Z (order_count product)) (popularity product) in
  let score := 5 / 10 in
  match t with
  | ADVENTUROUS_PREMIUM =>
      score + bonus is_new (3 / 10) + bonus (Py.ltb 50 price) (2 / 10)
  | CAUTIOUS_VALUE_SEEKER =>
      score + bonus (Py.leb 4 rating) (3 / 10) + bonus is_on_sale (2 / 10)
  | BARGAIN_HUNTER =>
      score + bonus is_on_sale (4 / 10) + bonus (Py.ltb price 30) (2 / 10)
  | QUALITY_FOCUSED =>
      score + bonus (Py.leb (45 / 10) rating) (4 / 10) + bonus (Py.ltb 40 price) (1 / 10)
  | TREND_FOLLOWER =>
      score + bonus (Py.truthy_int popularity && (100 <? popularity)%Z) (3 / 10)
            + bonus is_new (2 / 10)
  | IMPULSE_BUYER =>
      score + bonus is_new (2 / 10) + bonus is_on_sale (2 / 10)
            + bonus (image_url product) (1 / 10)
  | LOYAL_ENTHUSIAST =>
      score + bonus (Py.leb 4 rating) (2 / 10)
  | PRACTICAL_SHOPPER =>
      score + bonus (Py.leb (35 / 10) rating && Py.ltb price 50) (3 / 10)
  end.

Definition _get_personality_product_boost (t : PersonalityType)
  (products : list (option product_row)) : list (Z * R) :=
  fold_left
    (fun boost_scores product =>
       match product with
       | None => boost_scores
       | Some product =>
           match id_first product with
           | Some product_id =>
               if Py.truthy_int product_id
               then Py.upsert Z.eqb product_id
                      (fun _ => Rmin (personality_score_of t product) 1) boost_scores
               else boost_scores
           | None => boost_scores
           end
       end)
    products [].

(** *** The score table *)

(** The value bound to a product id in [product_scores].  The key
    ["primary_reason"] is left out: it is written and logged, never read
    for the result. *)
Record entry : Type := {
  e_score : R;
  behavioral_score : R;
  personality_score : R;
  reasons : list Reason;
  product : option product_row
}.

(** The factory of the [defaultdict]. *)
Definition new_entry : entry :=
  {| e_score := 0; behavioral_score := 0; personality_score := 0;
     reasons := []; product := None |}.

Definition set_score (x : R) (e : entry) : entry :=
  {| e_score := x; behavioral_score := behavioral_score e;
     personality_score := personality_score e; reasons := reasons e;
     product := product e |}.

Definition add_score (x : R) (e : entry) : entry := set_score (e_score e + x) e.

Definition add_behavioral (x : R) (e : entry) : entry :=
  {| e_score := e_score e; behavioral_score := behavioral_score e + x;
     personality_score := personality_score e; reasons := reasons e;
     product := product e |}.

Definition add_personality (x : R) (e : entry) : entry :=
  {| e_score := e_score e; behavioral_score := behavioral_score e;
     personality_score := personality_score e + x; reasons := reasons e;
     product := product e |}.

Definition append_reason (r : Reason) (e : entry) : entry :=
  {| e_score := e_score e; behavioral_score := behavioral_score e;
     personality_score := personality_score e; reasons := reasons e ++ [r];
     product := product e |}.

Definition prepend_reason (r : Reason) (e : entry) : entry :=
  {| e_score := e_score e; behavioral_score := behavioral_score e;
     personality_score := personality_score e; reasons := r :: reasons e;
     product := product e |}.

(** [if data["product"] is None: data["product"] = p]. *)
Definition fill_product (p : product_row) (e : entry) : entry :=
  {| e_score := e_score e; behavioral_score := behavioral_score e;
     personality_score := personality_score e; reasons := reasons e;
     product := match product e with Some q => Some q | None => Some p end |}.

Definition table : Type := list (Z * entry).

(** [product_scores[product_id]] followed by the in-place changes [f]. *)
Definition touch (product_id : Z) (f : entry -> entry) (scores : table) : table :=
  Py.upsert Z.eqb product_id (fun o => f (default new_entry o)) scores.

(** [product_id and product_id not in purchased_ids and product_id not in
    negative_ids]. *)
Definition eligible (purchased_ids negative_ids : list Z) (product_id : Z) : bool :=
  Py.truthy_int product_id
  && negb (Py.mem product_id purchased_ids)
  && negb (Py.mem product_id negative_ids).

Definition nonempty {A : Type} (l : list A) : bool :=
  match l with [] => false | _ => true end.

(** *** The arguments of [get_recommendations]

    An optional list or dictionary that the code reads through [x or []] or
    through its truthiness is given as the list itself, [None] being []. *)
Record request : Type := {
  user_id : Z;
  limit : Z;
  user_profile : option profile;
  purchased_product_ids : list Z;
  wishlist_ids : list Z;
  viewed_ids : list Z;
  reviews : list (option review_row);
  collaborative_scores : list (Z * R);
  content_similar : list (option product_row);
  popular_products : list (option product_row);
  all_products : list (option product_row);
  purchases : list (option purchase_row);
  wishlist : list (option wishlist_row);
  views : list (option view_row);
  negative_feedback_ids : list Z;
  session_product_ids : list Z;
  session_products : list (option product_row);
  alpha : option R;
  all_interactions : list (option FilterAnalyzer.interaction)
}.

(** The ids of the reviews rated 2 or lower ([rating] defaults to 3). *)
Definition negative_reviewed_of (reviews : list (option review_row)) : list Z :=
  nodup Z.eq_dec
    (flat_map
       (fun review =>
          match review with
          | None => []
          | Some review =>
              let rating := default 3 (r_rating review) in
              if Py.leb 4 rating then []
              else if Py.leb rating 2
              then match r_product_id review with Some pid => [pid] | None => [] end
              else []
          end)
       reviews).

(** *** Cold start *)

Definition popular_step (purchased_ids negative_ids : list Z)
  (scores : table) (ip : nat * option product_row) : table :=
  match snd ip with
  | None => scores
  | Some product =>
      match id_first product with
      | Some product_id =>
          if eligible purchased_ids negative_ids product_id then
            let score := 1 - INR (fst ip) * (5 / 100) in
            Py.upsert Z.eqb product_id
              (fun _ => {| e_score := score; behavioral_score := score;
                           personality_score := 0; reasons := [Bestseller];
                           product := Some product |})
              scores
          else scores
      | None => scores
      end
  end.

Definition score_popular (purchased_ids negative_ids : list Z)
  (popular_products : list (option product_row)) (scores : table) : table :=
  fold_left (popular_step purchased_ids negative_ids)
    (Py.enumerate popular_products) scores.

(** *** Behavioural and personality signals *)

Definition score_collaborative (purchased_ids negative_ids : list Z)
  (collaborative_scores : list (Z * R)) (scores : table) : table :=
  fold_left
    (fun scores pc =>
       if eligible purchased_ids negative_ids (fst pc)
       then touch (fst pc)
              (fun e => append_reason BasedOnSimilarUsers (add_behavioral (snd pc) e))
              scores
       else scores)
    collaborative_scores scores.

Definition score_content (purchased_ids negative_ids : list Z)
  (content_similar : list (option product_row)) (scores : table) : table :=
  fold_left
    (fun scores ip =>
       match snd ip with
       | None => scores
       | Some product =>
           match product_id_first product with
           | Some product_id =>
               if eligible purchased_ids negative_ids product_id then
                 let content_score :=
                   default (1 - INR (fst ip) * (1 / 10)) (similarity product) in
                 touch product_id
                   (fun e => fill_product product
                               (append_reason SimilarToViewed
                                  (add_behavioral content_score e)))
                   scores
               else scores
           | None => scores
           end
       end)
    (Py.enumerate content_similar) scores.

Definition score_personality (purchased_ids negative_ids : list Z)
  (personality_type : PersonalityType) (all_products : list (option product_row))
  (scores : table) : table :=
  let personality_boost :=
    _get_personality_product_boost personality_type all_products in
  fold_left
    (fun scores pb =>
       if negb (Py.mem (fst pb) purchased_ids) && negb (Py.mem (fst pb) negative_ids)
       then touch (fst pb)
              (fun e => append_reason (MatchesStyle personality_type)
                          (add_personality (snd pb) e))
              scores
       else scores)
    personality_boost scores.

(** [any(p.get("product_id", p.get("id")) == product_id for p in content_similar if p)]. *)
Definition in_content (product_id : Z) (content_similar : list (option product_row)) : bool :=
  existsb
    (fun p =>
       match p with
       | Some p =>
           match product_id_first p with
           | Some k => Z.eqb k product_id
           | None => false
           end
       | None => false
       end)
    content_similar.

Definition blend_entry (alpha_used : R) (collaborative_scores : list (Z * R))
  (content_similar : list (option product_row)) (pd : Z * entry) : Z * entry :=
  let product_id := fst pd in
  let data := snd pd in
  let behavioral := behavioral_score data in
  let personality := personality_score data in
  let behavioral_count :=
    ((if Py.has_key Z.eqb product_id collaborative_scores then 1 else 0)
     + (if in_content product_id content_similar then 1 else 0))%nat in
  let behavioral :=
    if Nat.ltb 1 behavioral_count then behavioral / INR behavioral_count
    else behavioral in
  (product_id, set_score (alpha_used * personality + (1 - alpha_used) * behavioral) data).

(** *** Additive boosts *)

Definition boost_wishlist (now : Z) (purchased_ids negative_ids wishlist_set : list Z)
  (wishlist : list (option wishlist_row)) (all_products : list (option product_row))
  (scores : table) : table :=
  if nonempty wishlist then
    fold_left
      (fun scores w =>
         match w with
         | None => scores
         | Some w =>
             match w_product_id w with
             | Some product_id =>
                 if eligible purchased_ids negative_ids product_id then
                   let days_ago := get_days_ago now (added_at w) in
                   let decay := decay_factor days_ago Settings.decay_half_life_wishlist in
                   touch product_id
                     (fun e => append_reason FromWishlist (add_score (4 / 10 * decay) e))
                     scores
                 else scores
             | None => scores
             end
         end)
      wishlist scores
  else if nonempty wishlist_set && nonempty all_products then
    fold_left
      (fun scores product =>
         match product with
         | None => scores
         | Some product =>
             match id_first product with
             | Some product_id =>
                 if eligible purchased_ids negative_ids product_id
                    && Py.mem product_id wishlist_set
                 then touch product_id
                        (fun e => fill_product product
                                    (append_reason FromWishlist (add_score (4 / 10) e)))
                        scores
                 else scores
             | None => scores
             end
         end)
      all_products scores
  else scores.

(** The table [viewed_products_decay]: the highest decay per viewed product. *)
Definition viewed_products_decay (now : Z)
  (purchased_ids negative_ids negative_reviewed : list Z)
  (views : list (option view_row)) : list (Z * R) :=
  fold_left
    (fun table v =>
       match v with
       | None => table
       | Some v =>
           match v_product_id v with
           | Some product_id =>
               if eligible purchased_ids negative_ids product_id
                  && negb (Py.mem product_id negative_reviewed)
               then
                 let days_ago :=
                   get_days_ago now (Py.or_else (created_at v) (v_timestamp v)) in
                 let decay := decay_factor days_ago Settings.decay_half_life_views in
                 Py.upsert Z.eqb product_id
                   (fun o =>
                      match o with
                      | Some old => if Py.ltb old decay then decay else old
                      | None => decay
                      end)
                   table
               else table
           | None => table
           end
       end)
    views [].

Definition boost_views (now : Z)
  (purchased_ids negative_ids negative_reviewed viewed_set : list Z)
  (views : list (option view_row)) (all_products : list (option product_row))
  (scores : table) : table :=
  if nonempty views then
    fold_left
      (fun scores pd =>
         touch (fst pd)
           (fun e => append_reason ViewedRecently (add_score (2 / 10 * snd pd) e))
           scores)
      (viewed_products_decay now purchased_ids negative_ids negative_reviewed views)
      scores
  else if nonempty viewed_set && nonempty all_products then
    fold_left
      (fun scores product =>
         match product with
         | None => scores
         | Some product =>
             match id_first product with
             | Some product_id =>
                 if eligible purchased_ids negative_ids product_id
                    && Py.mem product_id viewed_set
                    && negb (Py.mem product_id negative_reviewed)
                 then touch product_id
                        (fun e => fill_product product
                                    (append_reason ViewedRecently (add_score (2 / 10) e)))
                        scores
                 else scores
             | None => scores
             end
         end)
      all_products scores
  else scores.

Definition opt_eqb (a b : option Z) : bool :=
  match a, b with
  | Some x, Some y => Z.eqb x y
  | None, None => true
  | _, _ => false
  end.

(** [x in s] for a set that may hold [None]. *)
Definition opt_mem (x : option Z) (s : list (option Z)) : bool :=
  existsb (opt_eqb x) s.

(** The categories of the session products. *)
Definition session_categories_of (session_ids : list Z)
  (session_products all_products : list (option product_row)) : list (option Z) :=
  if nonempty session_products then
    flat_map
      (fun sp =>
         match sp with
         | Some sp =>
             let cat_id := get (p_category_id sp) in
             if Py.truthy_opt_int cat_id then [cat_id] else []
         | None => []
         end)
      session_products
  else
    flat_map
      (fun sp =>
         match sp with
         | Some sp =>
             match id_first sp with
             | Some sp_id =>
                 if Py.mem sp_id session_ids then [get (p_category_id sp)] else []
             | None => []
             end
         | None => []
         end)
      all_products.

Definition boost_session (purchased_ids negative_ids session_ids : list Z)
  (session_products all_products : list (option product_row))
  (scores : table) : table :=
  if nonempty session_ids && nonempty all_products then
    let session_boost_weight := Settings.session_boost_weight in
    let session_categories :=
      session_categories_of session_ids session_products all_products in
    fold_left
      (fun scores product =>
         match product with
         | None => scores
         | Some product =>
             let category_id := get (p_category_id product) in
             match id_first product with
             | Some product_id =>
                 if eligible purchased_ids negative_ids product_id
                    && negb (Py.mem product_id session_ids)
                    && opt_mem category_id session_categories
                 then touch product_id
                        (fun e => append_reason RelatedToBrowsing
                                    (add_score session_boost_weight e))
                        scores
                 else scores
             | None => scores
             end
         end)
      all_products scores
  else scores.

Definition boost_category_affinity (purchased_ids negative_ids : list Z)
  (category_affinity : list (Z * R)) (top_category_ids : list Z)
  (top_category_id : option Z) (all_products : list (option product_row))
  (scores : table) : table :=
  if nonempty category_affinity && nonempty all_products then
    fold_left
      (fun scores product =>
         match product with
         | None => scores
         | Some product =>
             match id_first product, get (p_category_id product) with
             | Some product_id, Some category_id =>
                 if eligible purchased_ids negative_ids product_id
                    && Py.truthy_int category_id
                    && Py.mem category_id top_category_ids
                 then touch product_id
                        (fun e =>
                           let e :=
                             prepend_reason (CategoryAffinity category_id)
                               (add_score Settings.category_affinity_boost e) in
                           if opt_eqb (Some category_id) top_category_id
                           then add_score Settings.category_affinity_top_boost e
                           else e)
                        scores
                 else scores
             | _, _ => scores
             end
         end)
      all_products scores
  else scores.

Definition boost_price (purchased_ids negative_ids : list Z)
  (price_min : R) (price_max : bound) (all_products : list (option product_row))
  (scores : table) : table :=
  match price_max with
  | Infinity => scores
  | Finite _ =>
      if nonempty all_products then
        fold_left
          (fun scores product =>
             match product with
             | None => scores
             | Some product =>
                 match id_first product, p_price product with
                 | Some product_id, Some price =>
                     if eligible purchased_ids negative_ids product_id
                        && Py.truthy_float price
                     then
                       let price_score :=
                         score_price_preference price price_min price_max in
                       if Py.eqb price_score 0 then scores
                       else touch product_id
                              (fun e =>
                                 let e := add_score price_score e in
                                 if Py.ltb 0 price_score
                                 then append_reason PriceMatch e else e)
                              scores
                     else scores
                 | _, _ => scores
                 end
             end)
          all_products scores
      else scores
  end.

Definition penalize_negative_reviews (negative_reviewed : list Z)
  (scores : table) : table :=
  fold_left
    (fun scores product_id => Py.adjust Z.eqb product_id (add_score (- (5 / 10))) scores)
    negative_reviewed scores.

(** *** Product data *)

(** The dictionary [product_map]: the last row of each id wins. *)
Definition product_map_of (all_products : list (option product_row))
  : list (Z * product_row) :=
  fold_left
    (fun m p =>
       match p with
       | Some p =>
           match id_first p with
           | Some k => if Py.truthy_int k then Py.upsert Z.eqb k (fun _ => p) m else m
           | None => m
           end
       | None => m
       end)
    all_products [].

Definition merge_product_data (all_products : list (option product_row))
  (scores : table) : table :=
  if nonempty all_products then
    let product_map := product_map_of all_products in
    map (fun pd =>
           match product (snd pd), Py.lookup Z.eqb (fst pd) product_map with
           | None, Some p => (fst pd, fill_product p (snd pd))
           | _, _ => pd
           end)
        scores
  else scores.

(** *** Diversity *)

(** The category under which the selector counts an entry:
    [product.get("category_id", 0) if product else 0], where [None] is the
    null category of a row. *)
Definition category_key (data : entry) : option Z :=
  match product data with
  | None => Some 0%Z
  | Some p =>
      match p_category_id p with
      | Absent => Some 0%Z
      | Null => None
      | Val c => Some c
      end
  end.

Definition make_item (product_id : Z) (data : entry) : RecommendationItem :=
  let category_id := category_key data in
  {| product_id := product_id;
     score := Rmin (Rmax (e_score data) 0) 1;
     reason := match reasons data with r :: _ => r | [] => RecommendedForYou end;
     category_id := if Py.truthy_opt_int category_id then category_id else None;
     price :=
       match product data with
       | Some p =>
           match p_price p with
           | Some x => if Py.truthy_float x then Some x else None
           | None => None
           end
       | None => None
       end |}.

(** The local state of [_apply_diversity]. *)
Record selection : Type := {
  category_counts : list (option Z * Z);
  recommendations : list RecommendationItem;
  selected_categories : list (option Z);
  skipped_for_diversity : list (Z * entry)
}.

Definition count_of (c : option Z) (counts : list (option Z * Z)) : Z :=
  default 0%Z (Py.lookup opt_eqb c counts).

Definition increment (c : option Z) (counts : list (option Z * Z))
  : list (option Z * Z) :=
  Py.upsert opt_eqb c (fun o => (default 0 o + 1)%Z) counts.

Definition set_add (c : option Z) (s : list (option Z)) : list (option Z) :=
  if opt_mem c s then s else s ++ [c].

Definition len {A : Type} (l : list A) : Z := Z.of_nat (length l).

(** First pass: the loop stops at the first candidate met with the output
    already full. *)
Fixpoint first_pass (limit : Z) (sorted_products : list (Z * entry))
  (st : selection) : selection :=
  match sorted_products with
  | [] => st
  | (product_id, data) :: rest =>
      if (len (recommendations st) >=? limit)%Z then st
      else
        let category_id := category_key data in
        if (count_of category_id (category_counts st)
            >=? Settings.diversity_max_per_category)%Z
        then first_pass limit rest
               {| category_counts := category_counts st;
                  recommendations := recommendations st;
                  selected_categories := selected_categories st;
                  skipped_for_diversity :=
                    skipped_for_diversity st ++ [(product_id, data)] |}
        else first_pass limit rest
               {| category_counts := increment category_id (category_counts st);
                  recommendations :=
                    recommendations st ++ [make_item product_id data];
                  selected_categories := set_add category_id (selected_categories st);
                  skipped_for_diversity := skipped_for_diversity st |}
  end.

(** The loop of the second pass over the skipped candidates. *)
Fixpoint second_pass (limit : Z) (skipped : list (Z * entry))
  (st : selection) : selection :=
  match skipped with
  | [] => st
  | (product_id, data) :: rest =>
      if (len (recommendations st) >=? limit)%Z then st
      else
        let category_id := category_key data in
        if negb (opt_mem category_id (selected_categories st))
        then second_pass limit rest
               {| category_counts := increment category_id (category_counts st);
                  recommendations :=
                    recommendations st ++ [make_item product_id data];
                  selected_categories := set_add category_id (selected_categories st);
                  skipped_for_diversity := skipped_for_diversity st |}
        else second_pass limit rest st
  end.

Definition _apply_diversity (sorted_products : list (Z * entry)) (limit : Z)
  : list RecommendationItem :=
  let st :=
    first_pass limit sorted_products
      {| category_counts := []; recommendations := [];
         selected_categories := []; skipped_for_diversity := [] |} in
  let st :=
    if (len (selected_categories st) <? Settings.diversity_min_categories)%Z
       && (len (recommendations st) <? limit)%Z
    then second_pass limit (skipped_for_diversity st) st
    else st in
  recommendations st.

(** *** get_recommendations *)

(** [sorted(category_affinity.items(), key=..., reverse=True)[:top_n]]. *)
Definition top_categories_of (category_affinity : list (Z * R)) : list (Z * R) :=
  firstn Settings.category_affinity_top_n (Py.sorted_desc snd category_affinity).

(** [bool(user_profile and user_profile.get("personality_type"))], with the
    type when there is one. *)
Definition profile_type (rq : request) : option PersonalityType :=
  match user_profile rq with
  | Some up => personality_type up
  | None => None
  end.

Definition has_personality (rq : request) : bool :=
  match profile_type rq with Some _ => true | None => false end.

(** [len(purchased_ids) + len(wishlist_set) + len(viewed_set)]. *)
Definition interaction_count (rq : request) : Z :=
  (Py.len_set (purchased_product_ids rq) + Py.len_set (wishlist_ids rq)
   + Py.len_set (viewed_ids rq))%Z.

(** [len(collaborative_scores or {}) / max(total_products, 1)]. *)
Definition collab_coverage (rq : request) : R :=
  let total_products := len (all_products rq) in
  IZR (len (collaborative_scores rq)) / IZR (Z.max total_products 1).

(** The pair [(alpha_used, alpha_adaptive)]. *)
Definition choose_alpha (rq : request) : R * bool :=
  match alpha rq with
  | Some alpha => (Rmax 0 (Rmin 1 alpha), false)
  | None =>
      calculate_adaptive_alpha (has_personality rq) (interaction_count rq)
        (collab_coverage rq)
  end.

(** [not has_collaborative and not has_content and not has_interactions]. *)
Definition cold_start (rq : request) : bool :=
  let has_collaborative := nonempty (collaborative_scores rq) in
  let has_content := nonempty (content_similar rq) in
  let has_interactions :=
    nonempty (wishlist_ids rq) || nonempty (viewed_ids rq)
    || nonempty (purchased_product_ids rq) in
  negb has_collaborative && negb has_content && negb has_interactions.

(** The category affinity computed before scoring. *)
Definition affinity_of (now : Z) (rq : request) : list (Z * R) :=
  if nonempty (purchases rq) || nonempty (wishlist rq) || nonempty (views rq)
  then calculate_category_affinity now (purchases rq) (views rq) (wishlist rq)
         (all_interactions rq)
  else [].

(** The [else] branch of the cold-start test: the score table of the
    hybrid strategy. *)
Definition hybrid_scores (now : Z) (rq : request) (alpha_used : R) : table :=
  let purchased_ids := purchased_product_ids rq in
  let wishlist_set := wishlist_ids rq in
  let viewed_set := viewed_ids rq in
  let negative_ids := negative_feedback_ids rq in
  let session_ids := session_product_ids rq in
  let negative_reviewed := negative_reviewed_of (reviews rq) in
  let category_affinity := affinity_of now rq in
  let price_range :=
    calculate_price_preference (purchases rq) (all_interactions rq) in
  let top_categories := top_categories_of category_affinity in
  let top_category_ids := map fst top_categories in
  let top_category_id :=
    match top_categories with c :: _ => Some (fst c) | [] => None end in
  let scores : table := [] in
  let scores :=
    if nonempty (collaborative_scores rq) && Py.ltb alpha_used 1
    then score_collaborative purchased_ids negative_ids (collaborative_scores rq) scores
    else scores in
  let scores :=
    if nonempty (content_similar rq) && Py.ltb alpha_used 1
    then score_content purchased_ids negative_ids (content_similar rq) scores
    else scores in
  let scores :=
    match profile_type rq with
    | Some t =>
        if Py.ltb 0 alpha_used
        then score_personality purchased_ids negative_ids t (all_products rq) scores
        else scores
    | None => scores
    end in
  let scores :=
    map (blend_entry alpha_used (collaborative_scores rq) (content_similar rq)) scores in
  let scores :=
    boost_wishlist now purchased_ids negative_ids wishlist_set (wishlist rq)
      (all_products rq) scores in
  let scores :=
    boost_views now purchased_ids negative_ids negative_reviewed viewed_set
      (views rq) (all_products rq) scores in
  let scores :=
    boost_session purchased_ids negative_ids session_ids (session_products rq)
      (all_products rq) scores in
  let scores :=
    boost_category_affinity purchased_ids negative_ids category_affinity
      top_category_ids top_category_id (all_products rq) scores in
  let scores :=
    boost_price purchased_ids negative_ids (fst price_range) (snd price_range)
      (all_products rq) scores in
  penalize_negative_reviews negative_reviewed scores.

(** The table [product_scores] when the sort is reached. *)
Definition product_scores_of (now : Z) (rq : request) : table :=
  let scores :=
    if cold_start rq
    then score_popular (purchased_product_ids rq) (negative_feedback_ids rq)
           (popular_products rq) []
    else hybrid_scores now rq (fst (choose_alpha rq)) in
  merge_product_data (all_products rq) scores.

Definition get_recommendations (now : Z) (rq : request)
  : list RecommendationItem * string * R * bool :=
  let strategy := if cold_start rq then "popular"%string else "hybrid"%string in
  let product_scores := product_scores_of now rq in
  let sorted_products := Py.sorted_desc (fun pd => e_score (snd pd)) product_scores in
  let recommendations := _apply_diversity sorted_products (limit rq) in
  (recommendations, strategy, fst (choose_alpha rq), snd (choose_alpha rq)).

(** *** get_similar_products *)

(** A [RecommendationItem] whose reason is the literal ["Similar product"];
    as in [RecommendationItem], the display strings are left out. *)
Record SimilarItem : Type := {
  similar_product_id : Z;
  similar_score : R;
  similar_category_id : option Z;
  similar_price : option R
}.

(** The construction of the item of one row.  [None] is the validation
    error of the model: its [product_id] must be an integer and its [score]
    lie between 0 and 1. *)
Definition similar_item_of (product : product_row) : option SimilarItem :=
  match product_id_first product with
  | Some pid =>
      let score := default (5 / 10) (similarity product) in
      if Py.leb 0 score && Py.leb score 1
      then Some {| similar_product_id := pid;
                   similar_score := score;
                   similar_category_id := get (p_category_id product);
                   similar_price := p_price product |}
      else None
  | None => None
  end.

(** The loop over [similar_products[:limit]]. *)
Fixpoint collect_similar (product_id : Z) (window : list product_row)
  : option (list SimilarItem) :=
  match window with
  | [] => Some []
  | product :: rest =>
      if opt_eqb (product_id_first product) (Some product_id)
      then collect_similar product_id rest
      else
        match similar_item_of product with
        | Some item =>
            match collect_similar product_id rest with
            | Some items => Some (item :: items)
            | None => None
            end
        | None => None
        end
  end.

Definition get_similar_products (product_id : Z) (similar_products : list product_row)
  (limit : Z) : option (list SimilarItem) :=
  collect_similar product_id (Py.take limit similar_products).

(** *** calculate_collaborative_scores *)

(** A purchase row, as far as the collaborative filter reads it. *)
Record bought_row : Type := {
  bought_id : option Z
}.

Definition option_Z_eq_dec (a b : option Z) : {a = b} + {a <> b}.
Proof. decide equality. apply Z.eq_dec. Defined.

(** [set(p.get("product_id") for p in purchases if p is not None)]. *)
Definition product_set (purchases : list (option bought_row)) : list (option Z) :=
  nodup option_Z_eq_dec
    (flat_map (fun p => match p with Some p => [bought_id p] | None => [] end)
              purchases).

(** The Jaccard similarity of two sets of products. *)
Definition jaccard (user_products other_products : list (option Z)) : R :=
  let intersection :=
    length (filter (fun x => opt_mem x other_products) user_products) in
  let union := length (nodup option_Z_eq_dec (user_products ++ other_products)) in
  if Nat.ltb 0 union then INR intersection / INR union else 0.

(** One similar user: the accumulator holds [product_counts] and
    [total_weight]. *)
Definition collaborative_step (user_products : list (option Z))
  (acc : list (Z * R) * R) (other : Z * list (option bought_row))
  : list (Z * R) * R :=
  let purchases := snd other in
  let other_products := product_set purchases in
  let similarity := jaccard user_products other_products in
  if Py.ltb (1 / 10) similarity then
    let total_weight := snd acc + similarity in
    let product_counts :=
      fold_left
        (fun counts purchase =>
           match purchase with
           | Some purchase =>
               match bought_id purchase with
               | Some product_id =>
                   if Py.truthy_int product_id
                      && negb (opt_mem (Some product_id) user_products)
                   then Py.upsert Z.eqb product_id
                          (fun o => default 0 o + similarity) counts
                   else counts
               | None => counts
               end
           | None => counts
           end)
        purchases (fst acc) in
    (product_counts, total_weight)
  else acc.

Definition calculate_collaborative_scores (user_id : Z)
  (user_purchases : list (option bought_row))
  (similar_users_purchases : list (Z * list (option bought_row)))
  : list (Z * R) :=
  let user_products := product_set user_purchases in
  let acc :=
    fold_left (collaborative_step user_products) similar_users_purchases ([], 0) in
  let product_counts := fst acc in
  let total_weight := snd acc in
  if Py.ltb 0 total_weight
  then map (fun ps => (fst ps, snd ps / total_weight)) product_counts
  else [].

End RecommendationEngine.

(** ** evaluation/evaluator.py *)

Module Evaluator.
Import Schemas.
Import RecommendationEngine.






(** [len(set(rec_ids[:k]) & holdout_set)]. *)
Definition hits_at (rec_ids holdout_ids : list Z) (k : Z) : nat :=
  length (filter (fun x => Py.mem x holdout_ids)
                 (nodup Z.eq_dec (Py.take k rec_ids))).

Record metrics : Type := {
  precision : R;
  recall : R;
  f1 : R
}.

(** The body of the loop over [k_values]. *)
Definition metrics_at (rec_ids holdout_ids : list Z) (k : Z) : metrics :=
  let hits := hits_at rec_ids holdout_ids k in
  let precision := if (0 <? k)%Z then INR hits / IZR k else 0 in
  let holdout_size := length (nodup Z.eq_dec holdout_ids) in
  let recall :=
    if Nat.ltb 0 holdout_size then INR hits / INR holdout_size else 0 in
  let f1 :=
    if Py.ltb 0 (precision + recall)
    then 2 * precision * recall / (precision + recall) else 0 in
  {| precision := precision; recall := recall; f1 := f1 |}.


End Evaluator.
(** * Specification-side definitions and example inputs *)

Import Schemas.
Import RecommendationEngine.

Section ClassifierSpec.
Import PersonalityClassifier.

(** The weighted Euclidean distance of the specification:
    [sqrt (sum_i w_i * (d_i - c_i)^2)] with the five fixed weights. *)
Definition weighted_distance (dims : dimensions) (c : dimension -> R) : R :=
  sqrt (25 / 100 * (get_dimension dims price_sensitivity - c price_sensitivity) ^ 2
        + 20 / 100 * (get_dimension dims exploration_tendency - c exploration_tendency) ^ 2
        + 15 / 100 * (get_dimension dims sentiment_tendency - c sentiment_tendency) ^ 2
        + 20 / 100 * (get_dimension dims purchase_frequency - c purchase_frequency) ^ 2
        + 20 / 100 * (get_dimension dims decision_speed - c decision_speed) ^ 2).

(** The dimensions of the worked example. *)
Definition example_dimensions : dimensions :=
  fun d => Some (mk_profile (9 / 10) (3 / 10) (5 / 10) (4 / 10) (2 / 10) d).

(** Four orders placed within one hour. *)
Definition same_day_stats : purchase_stats :=
  {| first_purchase := Some (Datetime 1700000000000000);
     last_purchase := Some (Datetime 1700003600000000);
     total_orders := 4 |}.

End ClassifierSpec.

Section FilterExamples.
Import FilterAnalyzer.

(** An interaction whose filter context selects category [c] and nothing else. *)
Definition category_filter_event (c : Z) : option interaction :=
  Some {| i_metadata :=
            Some {| md_filter_context :=
                      Some {| fc_min_price := None; fc_max_price := None;
                              fc_category_id := Some c; fc_other_keys := false |} |} |}.

(** A log with a single filter event, on category 7. *)
Definition one_category_filter : list (option interaction) :=
  [category_filter_event 7].

End FilterExamples.

Section PriceExamples.

Definition purchase_at (price : R) : option purchase_row :=
  Some {| pu_category_id := None; purchase_date := None; ordered_at := None;
          product_price := Some price; pu_price := None |}.

(** The purchases of the worked example: $20, $25, $30 and $100. *)
Definition example_purchases : list (option purchase_row) :=
  [purchase_at 20; purchase_at 25; purchase_at 30; purchase_at 100].

(** The figures the worked example states, each within half a unit: a 75th
    percentile of 51.25 and a buffered range of [19, 61.5]. *)
Definition stated_price_example : Prop :=
  Rabs (percentile [20; 25; 30; 100] 75 - 5125 / 100) <= 1 / 2
  /\ exists lo hi,
       calculate_price_preference example_purchases [] = (lo, Finite hi)
       /\ Rabs (lo - 19) <= 1 / 2
       /\ Rabs (hi - 615 / 10) <= 1 / 2.

(** The range of [calculate_price_preference] as the specification words it:
    the 25th to 75th percentile with the 0.8 and 1.2 buffers, each bound
    blended 70/30 with the filter-derived bound when there is one. *)
Definition spec_price_range (prices : list R) (filter_min filter_max : option R)
  : R * bound :=
  let lo := 8 / 10 * percentile prices 25 in
  let hi := 12 / 10 * percentile prices 75 in
  (match filter_min with Some f => 7 / 10 * lo + 3 / 10 * f | None => lo end,
   Finite (match filter_max with Some f => 7 / 10 * hi + 3 / 10 * f | None => hi end)).

End PriceExamples.

Section DiversityExamples.

(** A product row that carries an id, a category and nothing else. *)
Definition plain_product (pid category : Z) : product_row :=
  {| id := Some pid; alt_product_id := None; p_category_id := Val category;
     p_price := None; is_new := None; is_on_sale := None; discount := None;
     rating := None; avg_rating := None; popularity := None; order_count := None;
     image_url := false; similarity := None |}.

(** A scored candidate of the given category. *)
Definition candidate (pid : Z) (score : R) (category : Z) : Z * entry :=
  (pid,
   {| e_score := score; behavioral_score := score; personality_score := 0;
      reasons := [BasedOnSimilarUsers];
      product := Some (plain_product pid category) |}).

(** Five candidates in descending score order: three of category 1, then
    one of category 2 and one of category 3. *)
Definition three_category_candidates : list (Z * entry) :=
  [ candidate 1 (9 / 10) 1; candidate 2 (8 / 10) 1; candidate 3 (7 / 10) 1;
    candidate 4 (6 / 10) 2; candidate 5 (5 / 10) 3 ].

(** The distinct values of a list of categories, in order of appearance. *)
Definition distinct_categories (cs : list (option Z)) : list (option Z) :=
  fold_left (fun seen c => set_add c seen) cs [].

(** The recommendation carries category id [c]. *)
Definition in_category (c : Z) (it : RecommendationItem) : bool :=
  opt_eqb (category_id it) (Some c).

(** What the first pass maintains: a counted category is a selected one, and
    every skipped candidate belongs to a selected category. *)
Definition pass_invariant (st : selection) : Prop :=
  (forall c, (1 <= count_of c (category_counts st))%Z -> In c (selected_categories st))
  /\ Forall (fun kd => In (category_key (snd kd)) (selected_categories st))
       (skipped_for_diversity st).

End DiversityExamples.

Section AlphaSpec.

Definition clamp (lo hi x : R) : R := Rmax lo (Rmin hi x).

(** The alpha rule as the specification words it: the pair of the alpha used
    and of the flag telling whether it was computed adaptively. *)
Definition spec_alpha (supplied : option R) (has_profile : bool)
  (coverage : R) (interactions : Z) : R * bool :=
  match supplied with
  | Some a => (clamp 0 1 a, false)
  | None =>
      if has_profile then
        (clamp (1 / 10) (9 / 10)
           (4 / 10
            + (if Rlt_dec coverage (5 / 100) then 2 / 10 else 0)
            + (if Z_lt_dec interactions 10 then 15 / 100 else 0)),
         true)
      else (0, true)
  end.

End AlphaSpec.

Section Exclusion.

(** A product id that is neither purchased nor marked "not interested". *)
Definition allowed (purchased_ids negative_ids : list Z) (k : Z) : Prop :=
  Py.mem k purchased_ids = false /\ Py.mem k negative_ids = false.

(** Every key of a table satisfies [Q]. *)
Definition keys_satisfy {V : Type} (Q : Z -> Prop) (d : list (Z * V)) : Prop :=
  Forall (fun kv => Q (fst kv)) d.

End Exclusion.

Section ExclusionExample.

Definition empty_request : request :=
  {| user_id := 1; limit := 10; user_profile := None;
     purchased_product_ids := []; wishlist_ids := []; viewed_ids := [];
     reviews := []; collaborative_scores := []; content_similar := [];
     popular_products := []; all_products := []; purchases := [];
     wishlist := []; views := []; negative_feedback_ids := [];
     session_product_ids := []; session_products := []; alpha := None;
     all_interactions := [] |}.

(** Product 1 was purchased and has the strongest collaborative score;
    product 2 is the only other collaboratively scored product. *)
Definition purchased_favourite_request : request :=
  {| user_id := 1; limit := 10; user_profile := None;
     purchased_product_ids := [1%Z]; wishlist_ids := [1%Z]; viewed_ids := [1%Z];
     reviews := [];
     collaborative_scores := [(1%Z, 9 / 10); (2%Z, 5 / 10)];
     content_similar := [Some (plain_product 1 1)];
     popular_products := [];
     all_products := [Some (plain_product 1 1); Some (plain_product 2 1)];
     purchases := []; wishlist := []; views := []; negative_feedback_ids := [];
     session_product_ids := []; session_products := []; alpha := None;
     all_interactions := [] |}.

Definition no_item : RecommendationItem :=
  {| product_id := 0; score := 0; reason := RecommendedForYou;
     category_id := None; price := None |}.

End ExclusionExample.

Section ColdStartSpec.

(** [s] keeps some of the elements of [l], in the order of [l]. *)
Inductive subsequence {A : Type} : list A -> list A -> Prop :=
| subsequence_nil : subsequence [] []
| subsequence_skip (x : A) (s l : list A) :
    subsequence s l -> subsequence s (x :: l)
| subsequence_take (x : A) (s l : list A) :
    subsequence s l -> subsequence (x :: s) (x :: l).

(** The table entry of the popular product [p] met at 0-based rank [i]. *)
Definition popular_entry (i : nat) (p : product_row) : entry :=
  {| e_score := 1 - INR i * (5 / 100);
     behavioral_score := 1 - INR i * (5 / 100);
     personality_score := 0; reasons := [Bestseller]; product := Some p |}.

(** The popular products that carry a non-zero id outside the negative
    feedback, each with the entry of its rank; ranks count from [n]. *)
Definition ranked_from (negative_ids : list Z) (n : nat)
  (popular_products : list (option product_row)) : table :=
  flat_map
    (fun ip =>
       match snd ip with
       | Some p =>
           match id_first p with
           | Some k =>
               if eligible [] negative_ids k
               then [(k, popular_entry (fst ip) p)] else []
           | None => []
           end
       | None => []
       end)
    (Py.enumerate_from n popular_products).

Definition ranked_popular (negative_ids : list Z)
  (popular_products : list (option product_row)) : table :=
  ranked_from negative_ids 0 popular_products.

(** The recommendation expected for a ranked popular product: its score is
    [1 - 0.05 * i], raised to 0 when negative. *)
Definition popular_item (kd : Z * entry) : RecommendationItem :=
  {| product_id := fst kd;
     score := Rmax 0 (e_score (snd kd));
     reason := Bestseller;
     category_id :=
       match product (snd kd) with
       | Some p =>
           match p_category_id p with
           | Val c => if Py.truthy_int c then Some c else None
           | _ => None
           end
       | None => None
       end;
     price :=
       match product (snd kd) with
       | Some p =>
           match p_price p with
           | Some x => if Py.truthy_float x then Some x else None
           | None => None
           end
       | None => None
       end |}.

(** The cold-start example as stated: the output lists every non-excluded
    popular product, in input order, with the score [1 - 0.05 * i] of its rank. *)
Definition stated_cold_start_output (now : Z) (rq : request) : Prop :=
  map (fun it => (product_id it, score it))
      (fst (fst (fst (get_recommendations now rq))))
  = map (fun kd => (fst kd, e_score (snd kd)))
      (ranked_popular (negative_feedback_ids rq) (popular_products rq)).

(** Twenty-two popular products with ids 1 to 22: the first four share
    category 1, each other product has a category of its own. *)
Definition popular_22 : list (option product_row) :=
  map (fun n => let k := Z.of_nat n in
                Some (plain_product k (if (k <=? 4)%Z then 1%Z else k)))
      (seq 1 22).

(** A user without any history asking for 22 recommendations. *)
Definition cold_request : request :=
  {| user_id := 1; limit := 22; user_profile := None;
     purchased_product_ids := []; wishlist_ids := []; viewed_ids := [];
     reviews := []; collaborative_scores := []; content_similar := [];
     popular_products := popular_22; all_products := []; purchases := [];
     wishlist := []; views := []; negative_feedback_ids := [];
     session_product_ids := []; session_products := []; alpha := None;
     all_interactions := [] |}.

End ColdStartSpec.

Section ClockSpec.

(** The timestamps the engine passes to [get_days_ago]: one per purchase,
    wishlist and view row. *)
Definition timestamps_of (rq : request) : list (option timestamp) :=
  flat_map (fun p => match p with
                     | Some p => [Py.or_else (purchase_date p) (ordered_at p)]
                     | None => []
                     end) (purchases rq)
  ++ flat_map (fun w => match w with
                        | Some w => [added_at w]
                        | None => []
                        end) (wishlist rq)
  ++ flat_map (fun v => match v with
                        | Some v => [Py.or_else (created_at v) (v_timestamp v)]
                        | None => []
                        end) (views rq).

(** A user whose only signal is product 1 on the wishlist, added at the
    epoch. *)
Definition wishlist_request : request :=
  {| user_id := 1; limit := 10; user_profile := None;
     purchased_product_ids := []; wishlist_ids := [1%Z]; viewed_ids := [];
     reviews := []; collaborative_scores := []; content_similar := [];
     popular_products := []; all_products := []; purchases := [];
     wishlist := [Some {| w_product_id := Some 1%Z; w_category_id := None;
                          added_at := Some (Datetime 0) |}];
     views := []; negative_feedback_ids := [];
     session_product_ids := []; session_products := []; alpha := None;
     all_interactions := [] |}.

(** Fourteen days after the epoch, in microseconds. *)
Definition fourteen_days : Z := 1209600000000.

(** The same user, the wishlist row carrying no date. *)
Definition undated_wishlist_request : request :=
  {| user_id := 1; limit := 10; user_profile := None;
     purchased_product_ids := []; wishlist_ids := [1%Z]; viewed_ids := [];
     reviews := []; collaborative_scores := []; content_similar := [];
     popular_products := []; all_products := []; purchases := [];
     wishlist := [Some {| w_product_id := Some 1%Z; w_category_id := None;
                          added_at := None |}];
     views := []; negative_feedback_ids := [];
     session_product_ids := []; session_products := []; alpha := None;
     all_interactions := [] |}.

End ClockSpec.

Section TableSpec.

(** The keys of a table are pairwise distinct and none is zero. *)
Definition well_keyed {V : Type} (d : list (Z * V)) : Prop :=
  NoDup (map fst d) /\ keys_satisfy (fun k => k <> 0%Z) d.

End TableSpec.

Section FilterSpec.
Import FilterAnalyzer.




(** A filter context whose two price bounds, when both are set, are in
    order. *)
Definition ordered_bounds (item : interaction * filter_context) : Prop :=
  match fc_min_price (snd item), fc_max_price (snd item) with
  | Some lo, Some hi => lo <= hi
  | _, _ => True
  end.

(** Three filter events with the price range [10, 60]. *)
Definition ranged_events : list (option interaction) :=
  let event :=
    Some {| i_metadata :=
              Some {| md_filter_context :=
                        Some {| fc_min_price := Some 10; fc_max_price := Some 60;
                                fc_category_id := None; fc_other_keys := false |} |} |} in
  [event; event; event].

End FilterSpec.

Section AffinitySpec.



End AffinitySpec.

Section SimilarSpec.

(** A row of the vector search: product [pid] with similarity [s]. *)
Definition similar_row (pid : Z) (s : R) : product_row :=
  {| id := Some pid; alt_product_id := None; p_category_id := Absent;
     p_price := None; is_new := None; is_on_sale := None; discount := None;
     rating := None; avg_rating := None; popularity := None; order_count := None;
     image_url := false; similarity := Some s |}.

(** The request with another profile document. *)
Definition with_profile (up : option profile) (rq : request) : request :=
  {| user_id := user_id rq; limit := limit rq; user_profile := up;
     purchased_product_ids := purchased_product_ids rq;
     wishlist_ids := wishlist_ids rq; viewed_ids := viewed_ids rq;
     reviews := reviews rq; collaborative_scores := collaborative_scores rq;
     content_similar := content_similar rq;
     popular_products := popular_products rq; all_products := all_products rq;
     purchases := purchases rq; wishlist := wishlist rq; views := views rq;
     negative_feedback_ids := negative_feedback_ids rq;
     session_product_ids := session_product_ids rq;
     session_products := session_products rq; alpha := alpha rq;
     all_interactions := all_interactions rq |}.

(** The request with another supplied [alpha]. *)
Definition with_alpha (a : option R) (rq : request) : request :=
  {| user_id := user_id rq; limit := limit rq; user_profile := user_profile rq;
     purchased_product_ids := purchased_product_ids rq;
     wishlist_ids := wishlist_ids rq; viewed_ids := viewed_ids rq;
     reviews := reviews rq; collaborative_scores := collaborative_scores rq;
     content_similar := content_similar rq;
     popular_products := popular_products rq; all_products := all_products rq;
     purchases := purchases rq; wishlist := wishlist rq; views := views rq;
     negative_feedback_ids := negative_feedback_ids rq;
     session_product_ids := session_product_ids rq;
     session_products := session_products rq; alpha := a;
     all_interactions := all_interactions rq |}.


(** The user bought product [k], according to the rows [purchases]. *)
Definition bought (purchases : list (option bought_row)) (k : Z) : Prop :=
  exists p, In (Some p) purchases /\ bought_id p = Some k.

End SimilarSpec.

Section CollaborativeSpec.

(** The product ids of a purchase list, one per row that carries one. *)
Definition bought_ids (purchases : list (option bought_row)) : list Z :=
  flat_map
    (fun p =>
       match p with
       | Some p => match bought_id p with Some k => [k] | None => [] end
       | None => []
       end)
    purchases.

(** A purchase row of product [k]. *)
Definition bought_of (k : Z) : option bought_row := Some {| bought_id := Some k |}.

End CollaborativeSpec.

Section EvaluatorSpec.
Import Evaluator.




End EvaluatorSpec.

Section DimensionSpec.
Import PersonalityClassifier.

(** One discounted purchase of product 1, one 4-star review and four
    orders placed within the hour. *)
Definition example_purchase : purchase :=
  {| discount_applied := true; paid_price := Some 20; original_price := Some 25;
     bought_product := Some 1%Z |}.

Definition example_review : review := {| review_rating := Some 4 |}.

Definition example_stats : stats_row :=
  {| avg_item_price := Some 20; unique_categories := Some 2%Z;
     frequency_stats := same_day_stats |}.

(** The dimensions computed for that user. *)
Definition example_user_dimensions : dimensions :=
  match calculate_dimensions 1 [example_purchase] [example_review] [] example_stats with
  | Some dims => dims
  | None => fun _ => None
  end.

(** The purchase statistics of [n] orders between two parsed dates. *)
Definition orders_between (first last n : Z) : purchase_stats :=
  {| first_purchase := Some (Datetime first);
     last_purchase := Some (Datetime last);
     total_orders := n |}.

(** A logged filter event seen as a classifier interaction row. *)
Definition filter_row (i : option FilterAnalyzer.interaction) : list interaction_row :=
  match i with
  | Some i => [{| interaction_type := None; duration_seconds := None; filter_view := i |}]
  | None => []
  end.

End DimensionSpec.

Section SelectorSpec.

(** The number of candidates whose category key is [c]. *)
Definition occurrences (c : option Z) (l : list (Z * entry)) : nat :=
  length (filter (fun kd => opt_eqb (category_key (snd kd)) c) l).

(** [b] does not score higher than [a]. *)
Definition not_ranked_above (a b : RecommendationItem) : Prop := score b <= score a.

(** Three candidates of category 1. *)
Definition one_category_candidates : list (Z * entry) :=
  [ candidate 1 (9 / 10) 1; candidate 2 (8 / 10) 1; candidate 3 (7 / 10) 1 ].

End SelectorSpec.

Section ColdStartSelection.

(** The selection the amended cold-start claim describes: going through the
    candidates in order, stop once [limit] of them are listed; list a
    candidate unless [cap] listed ones already share its category. *)
Fixpoint capped_selection (cap limit : Z) (listed candidates : list (Z * entry))
  : list (Z * entry) :=
  match candidates with
  | [] => listed
  | kd :: rest =>
      if (limit <=? Z.of_nat (length listed))%Z then listed
      else if (cap <=? Z.of_nat (occurrences (category_key (snd kd)) listed))%Z
      then capped_selection cap limit listed rest
      else capped_selection cap limit (listed ++ [kd]) rest
  end.

(** The cold-start output as amended: the ranked popular products that
    pass the limit and the category cap, each with the score
    [max(0, 1 - 0.05 * i)] of its rank. *)
Definition expected_cold_start_output (rq : request) : list RecommendationItem :=
  map popular_item
    (capped_selection Settings.diversity_max_per_category (limit rq) []
       (ranked_popular (negative_feedback_ids rq) (popular_products rq))).

(** A user without any history; the popular list names product 1 at rank 0
    and again at rank 2. *)
Definition repeated_popular_request : request :=
  {| user_id := 1; limit := 10; user_profile := None;
     purchased_product_ids := []; wishlist_ids := []; viewed_ids := [];
     reviews := []; collaborative_scores := []; content_similar := [];
     popular_products :=
       [Some (plain_product 1 1); Some (plain_product 2 2); Some (plain_product 1 1)];
     all_products := []; purchases := [];
     wishlist := []; views := []; negative_feedback_ids := [];
     session_product_ids := []; session_products := []; alpha := None;
     all_interactions := [] |}.

End ColdStartSelection.

(** * Properties *)

(** ** Deciding float comparisons *)

Lemma ltb_true (x y : R) : x < y -> Py.ltb x y = true.
Proof. intros H. unfold Py.ltb. destruct (Rlt_dec x y); [reflexivity | contradiction]. Qed.

Lemma ltb_false (x y : R) : y <= x -> Py.ltb x y = false.
Proof. intros H. unfold Py.ltb. destruct (Rlt_dec x y); [lra | reflexivity]. Qed.

Lemma leb_true (x y : R) : x <= y -> Py.leb x y = true.
Proof. intros H. unfold Py.leb. destruct (Rle_dec x y); [reflexivity | contradiction]. Qed.

Lemma leb_false (x y : R) : y < x -> Py.leb x y = false.
Proof. intros H. unfold Py.leb. destruct (Rle_dec x y); [lra | reflexivity]. Qed.

Lemma eqb_true (x y : R) : x = y -> Py.eqb x y = true.
Proof. intros H. unfold Py.eqb. destruct (Req_dec_T x y); [reflexivity | contradiction]. Qed.

Lemma eqb_false (x y : R) : x <> y -> Py.eqb x y = false.
Proof. intros H. unfold Py.eqb. destruct (Req_dec_T x y); [contradiction | reflexivity]. Qed.

Lemma ltb_spec (x y : R) : Py.ltb x y = true <-> x < y.
Proof.
  unfold Py.ltb. destruct (Rlt_dec x y); split; intros; try easy.
Qed.

Lemma leb_spec (x y : R) : Py.leb x y = true <-> x <= y.
Proof.
  unfold Py.leb. destruct (Rle_dec x y); split; intros; try easy.
Qed.

(** Settle every comparison of the goal whose outcome linear arithmetic
    decides. *)
Ltac settle_cmp :=
  repeat match goal with
  | |- context [Py.ltb ?x ?y] =>
      first [ rewrite (ltb_true x y) by lra | rewrite (ltb_false x y) by lra ]
  | |- context [Py.leb ?x ?y] =>
      first [ rewrite (leb_true x y) by lra | rewrite (leb_false x y) by lra ]
  | |- context [Py.eqb ?x ?y] =>
      first [ rewrite (eqb_true x y) by lra | rewrite (eqb_false x y) by lra ]
  | |- context [Rmax ?x ?y] =>
      first [ rewrite (Rmax_left x y) by lra | rewrite (Rmax_right x y) by lra ]
  | |- context [Rmin ?x ?y] =>
      first [ rewrite (Rmin_left x y) by lra | rewrite (Rmin_right x y) by lra ]
  end.

(** ** Time decay *)

Section TimeDecay.

Lemma ln_half_neg : ln (1 / 2) < 0.
Proof.
  rewrite <- ln_1. apply ln_increasing; lra.
Qed.

Lemma pow_half_0 : Rpower (1 / 2) 0 = 1.
Proof. apply Rpower_O. lra. Qed.

Lemma pow_half_1 : Rpower (1 / 2) 1 = 1 / 2.
Proof. apply Rpower_1. lra. Qed.

Lemma pow_half_antitone (x y : R) : x <= y -> Rpower (1 / 2) y <= Rpower (1 / 2) x.
Proof.
  intros Hxy. unfold Rpower.
  destruct (Req_dec x y) as [-> | Hne]; [lra |].
  left. apply exp_increasing.
  pose proof ln_half_neg. nra.
Qed.

Lemma pow_half_le_1 (x : R) : 0 <= x -> Rpower (1 / 2) x <= 1.
Proof.
  intros Hx. pose proof (pow_half_antitone 0 x Hx) as H.
  now rewrite pow_half_0 in H.
Qed.

Lemma calculate_time_decay_defined (d h : R) :
  h <> 0 ->
  calculate_time_decay d h = Some (if Py.ltb d 0 then 1 else Rpower (1 / 2) (d / h)).
Proof.
  intros Hh. unfold calculate_time_decay.
  destruct (Py.ltb d 0); [reflexivity |].
  now rewrite eqb_false.
Qed.

(** The configured half-lives are not zero, so the engine's calls never
    divide by zero. *)
Lemma configured_decay_defined (d : R) :
  calculate_time_decay d Settings.decay_half_life_purchases <> None
  /\ calculate_time_decay d Settings.decay_half_life_wishlist <> None
  /\ calculate_time_decay d Settings.decay_half_life_views <> None.
Proof.
  unfold Settings.decay_half_life_purchases, Settings.decay_half_life_wishlist,
    Settings.decay_half_life_views.
  repeat split; rewrite calculate_time_decay_defined by lra; discriminate.
Qed.

(** C9: for a half-life [h > 0] the decay is [0.5 ^ (d / h)] for [d >= 0] and
    [1] for every [d <= 0]; so it is [1] at [d = 0], [0.5] at [d = h], and it
    does not increase when the elapsed days increase. *)
Theorem time_decay_law (h : R) (Hh : 0 < h) :
  (forall d, 0 <= d -> calculate_time_decay d h = Some (Rpower (1 / 2) (d / h)))
  /\ (forall d, d <= 0 -> calculate_time_decay d h = Some 1)
  /\ calculate_time_decay 0 h = Some 1
  /\ calculate_time_decay h h = Some (1 / 2)
  /\ (forall d1 d2, d1 <= d2 ->
        exists x1 x2,
          calculate_time_decay d1 h = Some x1
          /\ calculate_time_decay d2 h = Some x2
          /\ x2 <= x1).
Proof.
  assert (Hne : h <> 0) by lra.
  assert (Hpos : forall d, 0 <= d ->
            calculate_time_decay d h = Some (Rpower (1 / 2) (d / h))).
  { intros d Hd. rewrite calculate_time_decay_defined by assumption.
    now rewrite ltb_false. }
  assert (Hneg : forall d, d <= 0 -> calculate_time_decay d h = Some 1).
  { intros d Hd. destruct (Req_dec d 0) as [-> | Hd0].
    - rewrite Hpos by lra.
      replace (0 / h) with 0 by (field; assumption). now rewrite pow_half_0.
    - rewrite calculate_time_decay_defined by assumption.
      rewrite ltb_true by lra. reflexivity. }
  split; [exact Hpos |]. split; [exact Hneg |].
  split; [apply Hneg; lra |].
  split.
  { rewrite Hpos by lra.
    replace (h / h) with 1 by (field; assumption). now rewrite pow_half_1. }
  intros d1 d2 Hle.
  destruct (Rlt_dec d1 0) as [H1 | H1].
  - exists 1. rewrite (Hneg d1) by lra.
    destruct (Rlt_dec d2 0) as [H2 | H2].
    + exists 1. rewrite (Hneg d2) by lra. repeat split; lra.
    + exists (Rpower (1 / 2) (d2 / h)). rewrite (Hpos d2) by lra.
      repeat split. apply pow_half_le_1.
      apply Rmult_le_pos; [lra |]. left. now apply Rinv_0_lt_compat.
  - exists (Rpower (1 / 2) (d1 / h)), (Rpower (1 / 2) (d2 / h)).
    rewrite (Hpos d1), (Hpos d2) by lra. repeat split.
    apply pow_half_antitone. unfold Rdiv.
    apply Rmult_le_compat_r; [| assumption].
    left. now apply Rinv_0_lt_compat.
Qed.

Lemma time_decay_law_witness :
  0 < 14
  /\ calculate_time_decay 0 14 = Some 1
  /\ calculate_time_decay 14 14 = Some (1 / 2).
Proof.
  assert (H14 : 0 < 14) by lra.
  split; [exact H14 |].
  destruct (time_decay_law 14 H14) as (_ & _ & H0 & Hh & _).
  split; assumption.
Defined.

End TimeDecay.

(** ** Personality classifier *)

Section Classifier.
Import PersonalityClassifier.

Lemma profile_distance_weighted (dims : dimensions) (c : dimension -> R) :
  profile_distance dims c = weighted_distance dims c.
Proof.
  unfold profile_distance, weighted_distance, DIMENSION_WEIGHTS.
  cbn [fold_left fst snd]. rewrite !pow2_abs. f_equal. ring.
Qed.

Lemma weighted_distance_nonneg (dims : dimensions) (c : dimension -> R) :
  0 <= weighted_distance dims c.
Proof. apply sqrt_pos. Qed.

Lemma classify_step_some (dims : dimensions) (t0 : PersonalityType) (d0 : R)
  (t : PersonalityType) (q : dimension -> R) :
  classify_step dims (t0, Some d0) (t, q)
  = if Py.ltb (profile_distance dims q) d0
    then (t, Some (profile_distance dims q)) else (t0, Some d0).
Proof. reflexivity. Qed.

(** The outer loop keeps a profile of least distance among those seen. *)
Lemma classify_loop_min (dims : dimensions)
  (l : list (PersonalityType * (dimension -> R))) :
  forall t0 p0,
  exists p,
    snd (fold_left (classify_step dims) l (t0, Some (profile_distance dims p0)))
      = Some (profile_distance dims p)
    /\ (p = p0
        /\ fst (fold_left (classify_step dims) l (t0, Some (profile_distance dims p0))) = t0
        \/ In (fst (fold_left (classify_step dims) l
                      (t0, Some (profile_distance dims p0))), p) l)
    /\ profile_distance dims p <= profile_distance dims p0
    /\ (forall t q, In (t, q) l -> profile_distance dims p <= profile_distance dims q).
Proof.
  induction l as [| [t q] l IH]; intros t0 p0.
  - exists p0. cbn. repeat split; try lra; auto. intros ? ? [].
  - cbn [fold_left]. rewrite classify_step_some.
    destruct (Py.ltb (profile_distance dims q) (profile_distance dims p0)) eqn:Hlt.
    + apply ltb_spec in Hlt.
      destruct (IH t q) as (p & Hs & Hin & Hle & Hall).
      exists p. split; [exact Hs |]. split.
      { right. destruct Hin as [[-> Hf] | Hin]; [left; now rewrite Hf | now right]. }
      split; [lra |].
      intros t' q' [Heq | Hin']; [inversion Heq; subst; lra | eauto].
    + assert (Hge : profile_distance dims p0 <= profile_distance dims q).
      { destruct (Rlt_dec (profile_distance dims q) (profile_distance dims p0)) as [H | H];
          [apply ltb_true in H; congruence | lra]. }
      destruct (IH t0 p0) as (p & Hs & Hin & Hle & Hall).
      exists p. split; [exact Hs |]. split.
      { destruct Hin as [[-> Hf] | Hin]; [left; now split | right; now right]. }
      split; [lra |].
      intros t' q' [Heq | Hin']; [inversion Heq; subst; lra | eauto].
Qed.

Lemma classify_min (dims : dimensions) :
  exists profile,
    In (fst (classify dims), profile) PERSONALITY_PROFILES
    /\ (forall t q, In (t, q) PERSONALITY_PROFILES ->
          weighted_distance dims profile <= weighted_distance dims q)
    /\ snd (classify dims) = Rmax 0 (1 - weighted_distance dims profile).
Proof.
  unfold classify.
  remember PERSONALITY_PROFILES as profiles eqn:Hp.
  unfold PERSONALITY_PROFILES in Hp.
  destruct profiles as [| [t1 p1] rest]; [discriminate |].
  cbn [fold_left].
  change (classify_step dims (PRACTICAL_SHOPPER, None) (t1, p1))
    with (t1, Some (profile_distance dims p1)).
  destruct (classify_loop_min dims rest t1 p1) as (p & Hs & Hin & Hle & Hall).
  exists p. rewrite Hs.
  split; [| split].
  - destruct Hin as [[-> Hf] | Hin]; [left; now rewrite Hf | now right].
  - intros t q [Heq | Hin'].
    + inversion Heq; subst. rewrite <- !profile_distance_weighted. exact Hle.
    + rewrite <- !profile_distance_weighted. eauto.
  - cbn [snd]. rewrite (profile_distance_weighted dims p).
    pose proof (weighted_distance_nonneg dims p).
    rewrite (Rmin_right 1) by lra. reflexivity.
Qed.



(** C10: with at least two orders whose first and last purchase are less
    than a day apart, the purchase-frequency dimension is 0.5, which is
    neither the default 0.3 nor the value of any frequency bucket. *)
Theorem same_day_purchase_frequency (stats : purchase_stats) (f l : Z)
  (Hfirst : first_purchase stats = Some (Datetime f))
  (Hlast : last_purchase stats = Some (Datetime l))
  (Horders : (2 <= total_orders stats)%Z)
  (Hdays : ((l - f) / us_per_day <= 0)%Z) :
  _calculate_purchase_frequency stats = Some (5 / 10)
  /\ 5 / 10 <> 3 / 10
  /\ (forall avg_days_between, frequency_bucket avg_days_between <> 5 / 10)
  /\ (forall avg_days_between,
        In (frequency_bucket avg_days_between)
           [1; 8 / 10; 6 / 10; 4 / 10; 2 / 10; 1 / 10]).
Proof.
  assert (Hb : forall a, In (frequency_bucket a) [1; 8 / 10; 6 / 10; 4 / 10; 2 / 10; 1 / 10]).
  { intros a. unfold frequency_bucket. cbn [In].
    repeat match goal with
           | |- context [if ?b then _ else _] => destruct b; [tauto |]
           end.
    tauto. }
  split; [| split; [lra | split; [| exact Hb]]].
  - unfold _calculate_purchase_frequency. rewrite Hfirst, Hlast.
    replace (total_orders stats <? 2)%Z with false by (symmetry; apply Z.ltb_ge; lia).
    replace ((l - f) / us_per_day <=? 0)%Z with true by (symmetry; apply Z.leb_le; lia).
    reflexivity.
  - intros a. specialize (Hb a). cbn [In] in Hb.
    intuition lra.
Qed.

Lemma same_day_purchase_frequency_witness :
  _calculate_purchase_frequency same_day_stats = Some (5 / 10).
Proof.
  refine (proj1 (same_day_purchase_frequency same_day_stats
                   1700000000000000 1700003600000000 eq_refl eq_refl _ _)).
  - cbn. lia.
  - vm_compute. discriminate.
Defined.

End Classifier.

(** ** Filter analyzer *)

Section FilterSignals.
Import FilterAnalyzer.

(** Below the sample threshold the two price methods report no signal. *)
Lemma price_signals_need_samples (interactions : list (option interaction)) :
  (length (extract_filter_interactions interactions) < Settings.filter_min_samples)%nat ->
  extract_price_signals interactions = (None, None)
  /\ calculate_price_sensitivity_signal interactions = None.
Proof.
  intros Hlen. apply Nat.ltb_lt in Hlen.
  unfold extract_price_signals, calculate_price_sensitivity_signal.
  now rewrite Hlen.
Qed.

(** C4: on a log with a single filter event, which selects category 7,
    [extract_price_signals] and [calculate_price_sensitivity_signal] report no
    signal, but [calculate_filter_based_category_affinity] reports the full
    affinity 1.0 for category 7: it never consults [filter_min_samples]. *)
Theorem category_affinity_ignores_min_samples :
  (length (extract_filter_interactions one_category_filter)
   < Settings.filter_min_samples)%nat
  /\ extract_price_signals one_category_filter = (None, None)
  /\ calculate_price_sensitivity_signal one_category_filter = None
  /\ calculate_filter_based_category_affinity one_category_filter None = [(7%Z, 1)].
Proof.
  assert (Hlen : (length (extract_filter_interactions one_category_filter)
                  < Settings.filter_min_samples)%nat).
  { cbn. unfold Settings.filter_min_samples. lia. }
  split; [exact Hlen |].
  destruct (price_signals_need_samples _ Hlen) as [Hp Hs].
  split; [exact Hp |]. split; [exact Hs |].
  unfold calculate_filter_based_category_affinity, extract_category_signals.
  cbn [one_category_filter category_filter_event extract_filter_interactions
       i_metadata md_filter_context truthy_context fc_min_price fc_max_price
       fc_category_id fold_left snd fst map Py.upsert].
  change (Py.truthy_int 7) with true. cbn [map fst snd].
  change (Z.min (0 + 1) Settings.filter_category_max_weight) with 1%Z.
  change (Z.max (Z.min (max_count [(7%Z, (0 + 1)%Z)])
                   Settings.filter_category_max_weight) 1) with 1%Z.
  repeat f_equal. field.
Qed.

End FilterSignals.

(** ** Price preference *)

Section PricePreference.

Lemma example_prices : purchase_prices example_purchases = [20; 25; 30; 100].
Proof.
  unfold example_purchases, purchase_at, purchase_prices.
  cbn [flat_map product_price pu_price app].
  unfold Py.truthy_float. repeat (progress (settle_cmp; cbn [negb andb app])).
  reflexivity.
Qed.

Lemma example_sorted : sort_asc [20; 25; 30; 100] = [20; 25; 30; 100].
Proof.
  unfold sort_asc.
  repeat (progress (cbn [fold_right insert_asc]; settle_cmp)). reflexivity.
Qed.

Lemma example_p25 : percentile [20; 25; 30; 100] 25 = 2375 / 100.
Proof.
  unfold percentile. rewrite example_sorted.
  change (length [20; 25; 30; 100]) with 4%nat.
  change ((Z.of_nat 4 - 1) * 25)%Z with 75%Z.
  change (Z.to_nat (75 / 100)) with 0%nat.
  change (75 mod 100)%Z with 75%Z.
  cbn [nth Nat.min Nat.sub]. lra.
Qed.

Lemma example_p75 : percentile [20; 25; 30; 100] 75 = 475 / 10.
Proof.
  unfold percentile. rewrite example_sorted.
  change (length [20; 25; 30; 100]) with 4%nat.
  change ((Z.of_nat 4 - 1) * 75)%Z with 225%Z.
  change (Z.to_nat (225 / 100)) with 2%nat.
  change (225 mod 100)%Z with 25%Z.
  cbn [nth Nat.min Nat.sub]. lra.
Qed.

Lemma example_range :
  calculate_price_preference example_purchases [] = (19, Finite 57).
Proof.
  unfold calculate_price_preference. rewrite example_prices.
  change (Nat.ltb (length [20; 25; 30; 100]) 3) with false. cbv iota.
  rewrite example_p25, example_p75.
  apply (f_equal2 pair); [lra | apply (f_equal Finite); lra].
Qed.

(** C7 (counterexample): the worked example's 75th percentile and upper
    bound are not those of the code, which computes 47.5 and 57, not 51.25
    and 61.5. *)
Lemma stated_price_example_fails : ~ stated_price_example.
Proof.
  unfold stated_price_example. rewrite example_p75. intros [H _].
  unfold Rabs in H. destruct (Rcase_abs (475 / 10 - 5125 / 100)); lra.
Qed.

Lemma price_preference_blend (purchases : list (option purchase_row))
  (interactions : list (option FilterAnalyzer.interaction)) :
  (3 <= length (purchase_prices purchases))%nat ->
  calculate_price_preference purchases interactions
  = spec_price_range (purchase_prices purchases)
      (fst (FilterAnalyzer.extract_price_signals interactions))
      (snd (FilterAnalyzer.extract_price_signals interactions)).
Proof.
  intros Hlen. unfold calculate_price_preference, spec_price_range.
  replace (Nat.ltb (length (purchase_prices purchases)) 3) with false
    by (symmetry; apply Nat.ltb_ge; exact Hlen).
  destruct interactions as [| i rest].
  - cbn. apply (f_equal2 pair); [lra | apply (f_equal Finite); lra].
  - destruct (FilterAnalyzer.extract_price_signals (i :: rest)) as [[fmin |] [fmax |]];
      cbn [fst snd FilterAnalyzer.blend_price_ranges];
      unfold Settings.filter_signal_weight;
      (apply (f_equal2 pair); [lra | apply (f_equal Finite); lra]).
Qed.

(** C7 (amended): fewer than three positively priced purchases give the
    unrestricted range, for which no price is scored; three or more give
    [0.8 * p25, 1.2 * p75], each bound blended 70/30 with the filter-derived
    bound when present; a price inside the range scores +0.15, one below half
    the minimum or above twice the maximum scores -0.1, any other 0; for the
    purchases $20, $25, $30, $100 the percentiles are 23.75 and 47.5, the
    range is [19, 57], a $25 candidate scores +0.15 and a $500 one -0.1. *)
Theorem price_preference_range_and_score :
  (forall purchases interactions,
     (length (purchase_prices purchases) < 3)%nat ->
     calculate_price_preference purchases interactions = (0, Infinity)
     /\ forall price lo, score_price_preference price lo Infinity = 0)
  /\ (forall purchases interactions,
        (3 <= length (purchase_prices purchases))%nat ->
        calculate_price_preference purchases interactions
        = spec_price_range (purchase_prices purchases)
            (fst (FilterAnalyzer.extract_price_signals interactions))
            (snd (FilterAnalyzer.extract_price_signals interactions)))
  /\ (forall price lo hi,
        (lo <= price <= hi ->
         score_price_preference price lo (Finite hi) = 15 / 100)
        /\ (~ lo <= price <= hi -> price < 5 / 10 * lo \/ 2 * hi < price ->
            score_price_preference price lo (Finite hi) = - (1 / 10))
        /\ (~ lo <= price <= hi -> 5 / 10 * lo <= price <= 2 * hi ->
            score_price_preference price lo (Finite hi) = 0))
  /\ percentile (purchase_prices example_purchases) 25 = 2375 / 100
  /\ percentile (purchase_prices example_purchases) 75 = 475 / 10
  /\ calculate_price_preference example_purchases [] = (19, Finite 57)
  /\ score_price_preference 25 19 (Finite 57) = 15 / 100
  /\ score_price_preference 500 19 (Finite 57) = - (1 / 10).
Proof.
  assert (Hscore : forall price lo hi,
            (lo <= price <= hi ->
             score_price_preference price lo (Finite hi) = 15 / 100)
            /\ (~ lo <= price <= hi -> price < 5 / 10 * lo \/ 2 * hi < price ->
                score_price_preference price lo (Finite hi) = - (1 / 10))
            /\ (~ lo <= price <= hi -> 5 / 10 * lo <= price <= 2 * hi ->
                score_price_preference price lo (Finite hi) = 0)).
  { intros price lo hi.
    unfold score_price_preference, Settings.price_preference_boost,
      Settings.price_preference_penalty.
    repeat split.
    - intros [H1 H2]. rewrite !leb_true by assumption. reflexivity.
    - intros Hout Hfar.
      assert (Hin : Py.leb lo price && Py.leb price hi = false).
      { apply andb_false_iff.
        destruct (Rle_dec lo price) as [Ha | Ha];
          [right; apply leb_false; lra | left; apply leb_false; lra]. }
      rewrite Hin.
      assert (Hf : Py.ltb price (lo * (5 / 10)) || Py.ltb (hi * 2) price = true).
      { apply orb_true_iff.
        destruct Hfar; [left | right]; apply ltb_true; lra. }
      rewrite Hf. lra.
    - intros Hout Hnear.
      assert (Hin : Py.leb lo price && Py.leb price hi = false).
      { apply andb_false_iff.
        destruct (Rle_dec lo price) as [Ha | Ha];
          [right; apply leb_false; lra | left; apply leb_false; lra]. }
      rewrite Hin. rewrite !ltb_false by lra. reflexivity. }
  split.
  { intros purchases interactions Hlen. split; [| reflexivity].
    unfold calculate_price_preference.
    apply Nat.ltb_lt in Hlen. now rewrite Hlen. }
  split; [exact price_preference_blend |].
  split; [exact Hscore |].
  rewrite example_prices.
  split; [exact example_p25 |]. split; [exact example_p75 |].
  split; [exact example_range |].
  split.
  - apply (Hscore 25 19 57). lra.
  - apply (Hscore 500 19 57); lra.
Qed.

Lemma price_preference_range_and_score_witness :
  (3 <= length (purchase_prices example_purchases))%nat
  /\ calculate_price_preference example_purchases []
     = spec_price_range (purchase_prices example_purchases) None None
  /\ 19 <= 25 <= 57
  /\ score_price_preference 25 19 (Finite 57) = 15 / 100.
Proof.
  destruct price_preference_range_and_score as (_ & Hrange & Hscore & _).
  assert (Hlen : (3 <= length (purchase_prices example_purchases))%nat).
  { rewrite example_prices. cbn. lia. }
  split; [exact Hlen |].
  split; [exact (Hrange example_purchases [] Hlen) |].
  assert (Hin : 19 <= 25 <= 57) by lra.
  split; [exact Hin |].
  exact (proj1 (Hscore 25 19 57) Hin).
Defined.

End PricePreference.

(** ** Evaluating the engine on concrete inputs *)

(** Unfold everything but the arithmetic of the reals, then settle the
    comparisons. *)
Ltac run_engine :=
  lazy -[Rplus Rminus Rmult Rdiv Rinv Ropp IZR INR Rmin Rmax Rpower sqrt Rabs
         Py.ltb Py.leb Py.eqb Rlt Rle Rge Rgt];
  repeat (progress (settle_cmp; cbv iota)).

(** ** Diversity selector *)

Section Diversity.

(** C2: with five score-sorted candidates of categories 1, 1, 1, 2, 3 and a
    limit of 3, the selector returns the three candidates of category 1: the
    candidates span three categories and the limit leaves room for three, yet
    the output holds a single category. *)
Theorem diversity_misses_min_categories :
  Py.sorted_desc (fun pd => e_score (snd pd)) three_category_candidates
  = three_category_candidates
  /\ distinct_categories
       (map (fun pd => category_key (snd pd)) three_category_candidates)
     = [Some 1%Z; Some 2%Z; Some 3%Z]
  /\ (Settings.diversity_min_categories <= 3)%Z
  /\ map product_id (_apply_diversity three_category_candidates 3) = [1%Z; 2%Z; 3%Z]
  /\ map category_id (_apply_diversity three_category_candidates 3)
     = [Some 1%Z; Some 1%Z; Some 1%Z].
Proof.
  split.
  { unfold three_category_candidates, candidate, Py.sorted_desc.
    repeat (progress (cbn [fold_right Py.insert_desc e_score snd]; settle_cmp)).
    reflexivity. }
  split; [reflexivity |].
  split; [unfold Settings.diversity_min_categories; lia |].
  split; run_engine; reflexivity.
Qed.

End Diversity.

(** ** Alpha *)

Section Alpha.

Lemma calculate_adaptive_alpha_spec (has_profile : bool) (count : Z) (coverage : R) :
  calculate_adaptive_alpha has_profile count coverage
  = spec_alpha None has_profile coverage count.
Proof.
  unfold calculate_adaptive_alpha, spec_alpha, clamp,
    Settings.recommendation_alpha_default, Settings.alpha_sparse_collab_threshold,
    Settings.alpha_sparse_collab_boost, Settings.alpha_new_user_threshold,
    Settings.alpha_new_user_boost, Py.ltb.
  destruct has_profile; cbn [negb]; [| reflexivity].
  destruct (Rlt_dec coverage (5 / 100));
    destruct (Z_lt_dec count 10) as [Hc | Hc];
    [ apply Z.ltb_lt in Hc | apply Z.ltb_nlt in Hc
    | apply Z.ltb_lt in Hc | apply Z.ltb_nlt in Hc ];
    rewrite Hc; apply (f_equal2 pair); try reflexivity; f_equal; f_equal; lra.
Qed.

(** C3: a supplied alpha is clamped to [0, 1] and reported as not adaptive;
    an absent one is 0 without a personality profile and otherwise 0.4, plus
    0.2 when the collaborative coverage is below 0.05, plus 0.15 when the
    interaction count is below 10, clamped to [0.1, 0.9], and reported as
    adaptive.  The coverage divides the number of collaboratively scored
    products by the number of candidates (by 1 when there is none). *)
Theorem alpha_rule (now : Z) (rq : request) :
  (snd (fst (get_recommendations now rq)), snd (get_recommendations now rq))
  = spec_alpha (alpha rq) (has_personality rq) (collab_coverage rq)
      (interaction_count rq)
  /\ 0 <= snd (fst (get_recommendations now rq)) <= 1
  /\ (has_personality rq = true <-> exists up t,
        user_profile rq = Some up /\ personality_type up = Some t)
  /\ collab_coverage rq
     = IZR (Z.of_nat (length (collaborative_scores rq)))
       / IZR (Z.max (Z.of_nat (length (all_products rq))) 1)
  /\ interaction_count rq
     = (Z.of_nat (length (nodup Z.eq_dec (purchased_product_ids rq)))
        + Z.of_nat (length (nodup Z.eq_dec (wishlist_ids rq)))
        + Z.of_nat (length (nodup Z.eq_dec (viewed_ids rq))))%Z.
Proof.
  assert (Heq : (snd (fst (get_recommendations now rq)), snd (get_recommendations now rq))
                = spec_alpha (alpha rq) (has_personality rq) (collab_coverage rq)
                    (interaction_count rq)).
  { cbn [get_recommendations fst snd]. rewrite <- surjective_pairing.
    unfold choose_alpha. destruct (alpha rq) as [a |].
    - reflexivity.
    - apply calculate_adaptive_alpha_spec. }
  split; [exact Heq |]. split.
  - apply (f_equal fst) in Heq. cbn [fst] in Heq. rewrite Heq.
    unfold spec_alpha, clamp.
    destruct (alpha rq) as [a |]; cbn [fst].
    + unfold Rmax, Rmin.
      destruct (Rle_dec 1 a); destruct (Rle_dec 0 _); lra.
    + destruct (has_personality rq); cbn [fst]; [| lra].
      unfold Rmax, Rmin.
      destruct (Rle_dec (9 / 10) _); destruct (Rle_dec (1 / 10) _); lra.
  - split; [| split; reflexivity].
    unfold has_personality, profile_type.
    destruct (user_profile rq) as [up |].
    + destruct (personality_type up) as [t |] eqn:Ht.
      * split; [intros _; now exists up, t | reflexivity].
      * split; [discriminate |].
        intros (up' & t & Hup & Hpt). injection Hup as <-. congruence.
    + split; [discriminate |]. intros (up' & t & Hup & _). discriminate.
Qed.

End Alpha.

(** ** Exclusion of purchased and negative-feedback products *)

Section Exclusion.

Lemma mem_In (k : Z) (l : list Z) : Py.mem k l = true <-> In k l.
Proof.
  unfold Py.mem. rewrite existsb_exists. split.
  - intros (x & Hin & Heq). apply Z.eqb_eq in Heq. now subst.
  - intros Hin. exists k. split; [assumption | apply Z.eqb_refl].
Qed.

Lemma fold_left_invariant {A B : Type} (I : A -> Prop) (step : A -> B -> A)
  (l : list B) :
  (forall acc x, I acc -> I (step acc x)) ->
  forall init, I init -> I (fold_left step l init).
Proof.
  intros Hstep. induction l as [| x l IH]; intros init Hinit; cbn; auto.
Qed.

Section Keys.
Context {V : Type} (Q : Z -> Prop).

Lemma upsert_keys (k : Z) (f : option V -> V) (d : list (Z * V)) :
  keys_satisfy Q d -> Q k -> keys_satisfy Q (Py.upsert Z.eqb k f d).
Proof.
  unfold keys_satisfy. intros Hd Hk.
  induction d as [| [k' v] d IH]; cbn.
  - constructor; [exact Hk | constructor].
  - inversion Hd as [| ? ? Hk' Hd']; subst.
    destruct (Z.eqb k k'); constructor; auto.
Qed.

Lemma adjust_keys (k : Z) (f : V -> V) (d : list (Z * V)) :
  keys_satisfy Q d -> keys_satisfy Q (Py.adjust Z.eqb k f d).
Proof.
  unfold keys_satisfy. intros Hd.
  induction d as [| [k' v] d IH]; cbn; [constructor |].
  inversion Hd as [| ? ? Hk' Hd']; subst.
  destruct (Z.eqb k k'); constructor; auto.
Qed.

Lemma map_keys (f : Z * V -> Z * V) (d : list (Z * V)) :
  (forall kv, fst (f kv) = fst kv) ->
  keys_satisfy Q d -> keys_satisfy Q (map f d).
Proof.
  unfold keys_satisfy. intros Hf Hd.
  induction Hd as [| kv d Hk Hd IH]; cbn; constructor; [now rewrite Hf | exact IH].
Qed.

Lemma insert_desc_keys (key : Z * V -> R) (x : Z * V) (d : list (Z * V)) :
  Q (fst x) -> keys_satisfy Q d -> keys_satisfy Q (Py.insert_desc key x d).
Proof.
  unfold keys_satisfy. intros Hx Hd.
  induction Hd as [| y d Hy Hd IH]; cbn.
  - constructor; [exact Hx | constructor].
  - destruct (Py.ltb (key x) (key y)); constructor; auto.
Qed.

Lemma sorted_desc_keys (key : Z * V -> R) (d : list (Z * V)) :
  keys_satisfy Q d -> keys_satisfy Q (Py.sorted_desc key d).
Proof.
  unfold Py.sorted_desc. intros Hd.
  induction Hd as [| x d Hx Hd IH]; cbn; [constructor |].
  apply insert_desc_keys; assumption.
Qed.

End Keys.

Lemma touch_keys (Q : Z -> Prop) (k : Z) (f : entry -> entry) (scores : table) :
  keys_satisfy Q scores -> Q k -> keys_satisfy Q (touch k f scores).
Proof. unfold touch. apply upsert_keys. Qed.

Section Stages.
Variables purchased_ids negative_ids : list Z.

Local Abbreviation ok := (keys_satisfy (allowed purchased_ids negative_ids)).

Lemma eligible_allowed (k : Z) :
  eligible purchased_ids negative_ids k = true -> allowed purchased_ids negative_ids k.
Proof.
  unfold eligible, allowed. rewrite !andb_true_iff, !negb_true_iff. tauto.
Qed.

Lemma unguarded_allowed (k : Z) :
  negb (Py.mem k purchased_ids) && negb (Py.mem k negative_ids) = true ->
  allowed purchased_ids negative_ids k.
Proof.
  unfold allowed. rewrite !andb_true_iff, !negb_true_iff. tauto.
Qed.

(** Take a loop body apart and close each branch: either the table is
    unchanged or a key that passed the guard is touched. *)
Ltac split_guards :=
  repeat match goal with
  | H : _ && _ = true |- _ => apply andb_true_iff in H; destruct H
  end.

Ltac step_keys :=
  cbv zeta;
  repeat match goal with
  | |- keys_satisfy _ (match ?x with _ => _ end) => destruct x eqn:?
  end;
  try assumption;
  first [ apply touch_keys | apply upsert_keys ];
  try assumption;
  first [ apply unguarded_allowed; assumption
        | split_guards; apply eligible_allowed; assumption ].

Lemma score_popular_keys (popular_products : list (option product_row))
  (scores : table) :
  ok scores -> ok (score_popular purchased_ids negative_ids popular_products scores).
Proof.
  unfold score_popular. apply fold_left_invariant.
  intros acc [i p] Hacc. unfold popular_step. cbn [fst snd]. step_keys.
Qed.

Lemma score_collaborative_keys (collaborative_scores : list (Z * R))
  (scores : table) :
  ok scores ->
  ok (score_collaborative purchased_ids negative_ids collaborative_scores scores).
Proof.
  unfold score_collaborative. apply fold_left_invariant.
  intros acc [k s] Hacc. cbn [fst snd]. step_keys.
Qed.

Lemma score_content_keys (content_similar : list (option product_row))
  (scores : table) :
  ok scores -> ok (score_content purchased_ids negative_ids content_similar scores).
Proof.
  unfold score_content. apply fold_left_invariant.
  intros acc [i p] Hacc. cbn [fst snd]. step_keys.
Qed.

Lemma score_personality_keys (t : PersonalityType)
  (all_products : list (option product_row)) (scores : table) :
  ok scores -> ok (score_personality purchased_ids negative_ids t all_products scores).
Proof.
  unfold score_personality. apply fold_left_invariant.
  intros acc [k s] Hacc. cbn [fst snd]. step_keys.
Qed.

Lemma blend_keys (alpha_used : R) (collaborative_scores : list (Z * R))
  (content_similar : list (option product_row)) (scores : table) :
  ok scores ->
  ok (map (blend_entry alpha_used collaborative_scores content_similar) scores).
Proof. apply map_keys. intros [k e]. reflexivity. Qed.

Lemma boost_wishlist_keys (now : Z) (wishlist_set : list Z)
  (wishlist : list (option wishlist_row)) (all_products : list (option product_row))
  (scores : table) :
  ok scores ->
  ok (boost_wishlist now purchased_ids negative_ids wishlist_set wishlist
        all_products scores).
Proof.
  intros Hs. unfold boost_wishlist.
  destruct (nonempty wishlist);
    [| destruct (nonempty wishlist_set && nonempty all_products); [| exact Hs]];
    (apply fold_left_invariant; [| exact Hs]); intros acc0 row Hacc; step_keys.
Qed.

Lemma viewed_products_decay_keys (now : Z) (negative_reviewed : list Z)
  (views : list (option view_row)) :
  keys_satisfy (allowed purchased_ids negative_ids)
    (viewed_products_decay now purchased_ids negative_ids negative_reviewed views).
Proof.
  unfold viewed_products_decay. apply fold_left_invariant; [| constructor].
  intros acc0 row Hacc. step_keys.
Qed.

Lemma boost_views_keys (now : Z) (negative_reviewed viewed_set : list Z)
  (views : list (option view_row)) (all_products : list (option product_row))
  (scores : table) :
  ok scores ->
  ok (boost_views now purchased_ids negative_ids negative_reviewed viewed_set
        views all_products scores).
Proof.
  intros Hs. unfold boost_views.
  destruct (nonempty views).
  - pose proof (viewed_products_decay_keys now negative_reviewed views) as Hd.
    revert scores Hs.
    induction Hd as [| [k d] l Hk Hd IH]; intros scores Hs; cbn [fold_left]; auto.
    apply IH. apply touch_keys; assumption.
  - destruct (nonempty viewed_set && nonempty all_products); [| exact Hs].
    apply fold_left_invariant; [| exact Hs]. intros acc0 row Hacc. step_keys.
Qed.

Lemma boost_session_keys (session_ids : list Z)
  (session_products all_products : list (option product_row)) (scores : table) :
  ok scores ->
  ok (boost_session purchased_ids negative_ids session_ids session_products
        all_products scores).
Proof.
  intros Hs. unfold boost_session.
  destruct (nonempty session_ids && nonempty all_products); [| exact Hs].
  apply fold_left_invariant; [| exact Hs]. intros acc0 row Hacc. step_keys.
Qed.

Lemma boost_category_affinity_keys (category_affinity : list (Z * R))
  (top_category_ids : list Z) (top_category_id : option Z)
  (all_products : list (option product_row)) (scores : table) :
  ok scores ->
  ok (boost_category_affinity purchased_ids negative_ids category_affinity
        top_category_ids top_category_id all_products scores).
Proof.
  intros Hs. unfold boost_category_affinity.
  destruct (nonempty category_affinity && nonempty all_products); [| exact Hs].
  apply fold_left_invariant; [| exact Hs]. intros acc0 row Hacc. step_keys.
Qed.

Lemma boost_price_keys (price_min : R) (price_max : bound)
  (all_products : list (option product_row)) (scores : table) :
  ok scores ->
  ok (boost_price purchased_ids negative_ids price_min price_max all_products scores).
Proof.
  intros Hs. unfold boost_price.
  destruct price_max; [| exact Hs].
  destruct (nonempty all_products); [| exact Hs].
  apply fold_left_invariant; [| exact Hs]. intros acc0 row Hacc. step_keys.
Qed.

Lemma penalize_keys (negative_reviewed : list Z) (scores : table) :
  ok scores -> ok (penalize_negative_reviews negative_reviewed scores).
Proof.
  unfold penalize_negative_reviews. apply fold_left_invariant.
  intros acc k Hacc. now apply adjust_keys.
Qed.

Lemma merge_keys (all_products : list (option product_row)) (scores : table) :
  ok scores -> ok (merge_product_data all_products scores).
Proof.
  intros Hs. unfold merge_product_data.
  destruct (nonempty all_products); [| exact Hs].
  apply map_keys; [| exact Hs].
  intros [k e]. cbn [fst snd].
  destruct (product e); [reflexivity |].
  destruct (Py.lookup Z.eqb k _); reflexivity.
Qed.

End Stages.

End Exclusion.

(** ** The ids the diversity selector returns *)

Section DiversityIds.
Variable Q : Z -> Prop.

Lemma first_pass_ids (limit : Z) (l : list (Z * entry)) :
  keys_satisfy Q l ->
  forall st,
    Forall (fun it => Q (product_id it)) (recommendations st) ->
    keys_satisfy Q (skipped_for_diversity st) ->
    Forall (fun it => Q (product_id it)) (recommendations (first_pass limit l st))
    /\ keys_satisfy Q (skipped_for_diversity (first_pass limit l st)).
Proof.
  unfold keys_satisfy.
  induction 1 as [| [k d] l Hk Hl IH]; intros st Hr Hs; cbn [first_pass].
  - split; assumption.
  - destruct (len (recommendations st) >=? limit)%Z; [split; assumption |].
    cbv zeta.
    destruct (count_of (category_key d) (category_counts st)
              >=? Settings.diversity_max_per_category)%Z.
    + apply IH; cbn [recommendations skipped_for_diversity]; [assumption |].
      apply Forall_app. split; [assumption | constructor; [exact Hk | constructor]].
    + apply IH; cbn [recommendations skipped_for_diversity]; [| assumption].
      apply Forall_app. split; [assumption | constructor; [exact Hk | constructor]].
Qed.

Lemma second_pass_ids (limit : Z) (l : list (Z * entry)) :
  keys_satisfy Q l ->
  forall st,
    Forall (fun it => Q (product_id it)) (recommendations st) ->
    Forall (fun it => Q (product_id it)) (recommendations (second_pass limit l st)).
Proof.
  unfold keys_satisfy.
  induction 1 as [| [k d] l Hk Hl IH]; intros st Hr; cbn [second_pass].
  - assumption.
  - destruct (len (recommendations st) >=? limit)%Z; [assumption |].
    cbv zeta.
    destruct (negb (opt_mem (category_key d) (selected_categories st))).
    + apply IH; cbn [recommendations].
      apply Forall_app. split; [assumption | constructor; [exact Hk | constructor]].
    + apply IH; assumption.
Qed.

Lemma apply_diversity_ids (l : list (Z * entry)) (limit : Z) :
  keys_satisfy Q l ->
  Forall (fun it => Q (product_id it)) (_apply_diversity l limit).
Proof.
  intros Hl. unfold _apply_diversity.
  destruct (first_pass_ids limit l Hl
              {| category_counts := []; recommendations := [];
                 selected_categories := []; skipped_for_diversity := [] |})
    as [Hr Hs]; [constructor | constructor |].
  cbv zeta.
  match goal with |- context [if ?b then _ else _] => destruct b end.
  - apply second_pass_ids; assumption.
  - assumption.
Qed.

End DiversityIds.

Section ExclusionTheorem.

Lemma hybrid_scores_keys (now : Z) (rq : request) (alpha_used : R) :
  keys_satisfy (allowed (purchased_product_ids rq) (negative_feedback_ids rq))
    (hybrid_scores now rq alpha_used).
Proof.
  unfold hybrid_scores. cbv zeta.
  apply penalize_keys, boost_price_keys, boost_category_affinity_keys,
    boost_session_keys, boost_views_keys, boost_wishlist_keys, blend_keys.
  destruct (profile_type rq) as [t |].
  1: destruct (Py.ltb 0 alpha_used); [apply score_personality_keys |].
  all: destruct (nonempty (content_similar rq) && Py.ltb alpha_used 1);
    [apply score_content_keys |];
    (destruct (nonempty (collaborative_scores rq) && Py.ltb alpha_used 1);
     [apply score_collaborative_keys |]);
    constructor.
Qed.

Lemma product_scores_keys (now : Z) (rq : request) :
  keys_satisfy (allowed (purchased_product_ids rq) (negative_feedback_ids rq))
    (product_scores_of now rq).
Proof.
  unfold product_scores_of. cbv zeta. apply merge_keys.
  destruct (cold_start rq).
  - apply score_popular_keys. constructor.
  - apply hybrid_scores_keys.
Qed.

(** C1: whatever the strategy and the signals, no returned recommendation
    carries a product id listed in [purchased_product_ids] or in
    [negative_feedback_ids]. *)
Theorem excluded_never_recommended (now : Z) (rq : request)
  (item : RecommendationItem)
  (Hitem : In item (fst (fst (fst (get_recommendations now rq))))) :
  ~ In (product_id item) (purchased_product_ids rq)
  /\ ~ In (product_id item) (negative_feedback_ids rq).
Proof.
  cbn [get_recommendations fst] in Hitem.
  pose proof (apply_diversity_ids
                (allowed (purchased_product_ids rq) (negative_feedback_ids rq))
                _ (limit rq)
                (sorted_desc_keys _ (fun pd => e_score (snd pd)) _
                   (product_scores_keys now rq))) as Hall.
  rewrite Forall_forall in Hall. destruct (Hall item Hitem) as [Hp Hn].
  split; intros Hin; apply mem_In in Hin; congruence.
Qed.

Lemma purchased_favourite_output :
  map product_id (fst (fst (fst (get_recommendations 0 purchased_favourite_request))))
  = [2%Z].
Proof. run_engine. reflexivity. Qed.

Lemma excluded_never_recommended_witness :
  In (hd no_item (fst (fst (fst (get_recommendations 0 purchased_favourite_request)))))
     (fst (fst (fst (get_recommendations 0 purchased_favourite_request))))
  /\ ~ In (product_id
             (hd no_item
                (fst (fst (fst (get_recommendations 0 purchased_favourite_request))))))
          (purchased_product_ids purchased_favourite_request)
  /\ ~ In (product_id
             (hd no_item
                (fst (fst (fst (get_recommendations 0 purchased_favourite_request))))))
          (negative_feedback_ids purchased_favourite_request).
Proof.
  assert (Hin : In (hd no_item
                      (fst (fst (fst (get_recommendations 0 purchased_favourite_request)))))
                   (fst (fst (fst (get_recommendations 0 purchased_favourite_request))))).
  { pose proof purchased_favourite_output as Hout.
    destruct (fst (fst (fst (get_recommendations 0 purchased_favourite_request))));
      [discriminate | left; reflexivity]. }
  split; [exact Hin |].
  exact (excluded_never_recommended 0 purchased_favourite_request _ Hin).
Defined.

End ExclusionTheorem.

(** ** The second pass of the diversity selector *)

Section SecondPass.

Lemma opt_eqb_eq (a b : option Z) : opt_eqb a b = true <-> a = b.
Proof.
  destruct a as [x |], b as [y |]; cbn; try (split; congruence).
  rewrite Z.eqb_eq. split; congruence.
Qed.

Lemma opt_mem_In (c : option Z) (s : list (option Z)) :
  opt_mem c s = true <-> In c s.
Proof.
  unfold opt_mem. rewrite existsb_exists. split.
  - intros (x & Hin & Heq). apply opt_eqb_eq in Heq. now subst.
  - intros Hin. exists c. split; [assumption | now apply opt_eqb_eq].
Qed.

Lemma set_add_In (c x : option Z) (s : list (option Z)) :
  In x (set_add c s) <-> x = c \/ In x s.
Proof.
  unfold set_add. destruct (opt_mem c s) eqn:Hm.
  - apply opt_mem_In in Hm. split; [auto | intros [-> | H]; assumption].
  - rewrite in_app_iff. cbn. intuition congruence.
Qed.

Lemma count_of_increment (c x : option Z) (counts : list (option Z * Z)) :
  count_of x (increment c counts)
  = if opt_eqb x c then (count_of c counts + 1)%Z else count_of x counts.
Proof.
  assert (Hrefl : forall a, opt_eqb a a = true) by (intros a; now apply opt_eqb_eq).
  unfold count_of, increment.
  induction counts as [| [k v] counts IH]; cbn [Py.upsert Py.lookup].
  - destruct (opt_eqb x c); reflexivity.
  - destruct (opt_eqb c k) eqn:Hck; cbn [Py.lookup].
    + apply opt_eqb_eq in Hck. subst k.
      destruct (opt_eqb x c); reflexivity.
    + destruct (opt_eqb x k) eqn:Hxk.
      * apply opt_eqb_eq in Hxk. subst k.
        destruct (opt_eqb x c) eqn:Hxc; [| reflexivity].
        apply opt_eqb_eq in Hxc. subst x. rewrite Hrefl in Hck. discriminate.
      * exact IH.
Qed.

Lemma first_pass_invariant (limit : Z) (l : list (Z * entry)) :
  forall st, pass_invariant st -> pass_invariant (first_pass limit l st).
Proof.
  induction l as [| [k d] l IH]; intros st [Hc Hs]; cbn [first_pass].
  - split; assumption.
  - destruct (len (recommendations st) >=? limit)%Z; [split; assumption |].
    cbv zeta.
    destruct (count_of (category_key d) (category_counts st)
              >=? Settings.diversity_max_per_category)%Z eqn:Hfull.
    + apply IH. split; cbn [category_counts selected_categories skipped_for_diversity].
      * exact Hc.
      * apply Forall_app. split; [exact Hs |].
        constructor; [| constructor]. cbn [snd]. apply Hc.
        apply Z.geb_le in Hfull. unfold Settings.diversity_max_per_category in Hfull. lia.
    + apply IH. split; cbn [category_counts selected_categories skipped_for_diversity].
      * intros c Hcount. apply set_add_In.
        rewrite count_of_increment in Hcount.
        destruct (opt_eqb c (category_key d)) eqn:Heq.
        -- left. now apply opt_eqb_eq.
        -- right. now apply Hc.
      * eapply Forall_impl; [| exact Hs].
        intros kd Hkd. apply set_add_In. now right.
Qed.

Lemma second_pass_idle (limit : Z) (skipped : list (Z * entry)) (st : selection) :
  Forall (fun kd => In (category_key (snd kd)) (selected_categories st)) skipped ->
  second_pass limit skipped st = st.
Proof.
  induction 1 as [| [k d] skipped Hk Hs IH]; cbn [second_pass]; [reflexivity |].
  destruct (len (recommendations st) >=? limit)%Z; [reflexivity |].
  cbv zeta. cbn [snd] in Hk. apply opt_mem_In in Hk. rewrite Hk. cbn [negb].
  exact IH.
Qed.

(** The second pass never adds a recommendation: the output of the selector
    is the output of its first pass. *)
Lemma apply_diversity_first_pass (l : list (Z * entry)) (limit : Z) :
  _apply_diversity l limit
  = recommendations
      (first_pass limit l
         {| category_counts := []; recommendations := [];
            selected_categories := []; skipped_for_diversity := [] |}).
Proof.
  unfold _apply_diversity. cbv zeta.
  match goal with |- context [if ?b then _ else _] => destruct b end;
    [| reflexivity].
  rewrite second_pass_idle; [reflexivity |].
  apply first_pass_invariant. split; [| constructor].
  intros c Hc. cbn in Hc. lia.
Qed.

Lemma subsequence_refl {A : Type} (l : list A) : subsequence l l.
Proof. induction l; constructor; assumption. Qed.

Lemma subsequence_app_head {A : Type} (pre s l : list A) :
  subsequence s l -> subsequence (pre ++ s) (pre ++ l).
Proof. intros H. induction pre; cbn; [assumption | now constructor]. Qed.

Lemma first_pass_subsequence (limit : Z) (l : list (Z * entry)) :
  forall st, exists kept,
    recommendations (first_pass limit l st) = recommendations st ++ kept
    /\ subsequence kept (map (fun kd => make_item (fst kd) (snd kd)) l).
Proof.
  induction l as [| [k d] l IH]; intros st; cbn [first_pass map].
  - exists []. rewrite app_nil_r. split; [reflexivity | constructor].
  - destruct (len (recommendations st) >=? limit)%Z.
    + exists []. rewrite app_nil_r. split; [reflexivity |].
      clear. induction (_ :: _) as [| x xs IHx]; constructor; assumption.
    + cbv zeta.
      destruct (count_of (category_key d) (category_counts st)
                >=? Settings.diversity_max_per_category)%Z.
      * destruct (IH {| category_counts := category_counts st;
                        recommendations := recommendations st;
                        selected_categories := selected_categories st;
                        skipped_for_diversity :=
                          skipped_for_diversity st ++ [(k, d)] |})
          as (kept & Heq & Hsub).
        exists kept. split; [exact Heq | now constructor].
      * destruct (IH {| category_counts :=
                          increment (category_key d) (category_counts st);
                        recommendations := recommendations st ++ [make_item k d];
                        selected_categories :=
                          set_add (category_key d) (selected_categories st);
                        skipped_for_diversity := skipped_for_diversity st |})
          as (kept & Heq & Hsub).
        exists (make_item k d :: kept). split.
        -- rewrite Heq. cbn [recommendations]. now rewrite <- app_assoc.
        -- cbn [fst snd]. now constructor.
Qed.

(** The selector keeps candidates in the order it receives them. *)
Lemma apply_diversity_subsequence (l : list (Z * entry)) (limit : Z) :
  subsequence (_apply_diversity l limit)
    (map (fun kd => make_item (fst kd) (snd kd)) l).
Proof.
  rewrite apply_diversity_first_pass.
  destruct (first_pass_subsequence limit l
              {| category_counts := []; recommendations := [];
                 selected_categories := []; skipped_for_diversity := [] |})
    as (kept & Heq & Hsub).
  rewrite Heq. exact Hsub.
Qed.

Lemma in_category_make_item (c k : Z) (d : entry) :
  c <> 0%Z ->
  in_category c (make_item k d) = opt_eqb (category_key d) (Some c).
Proof.
  intros Hc. unfold in_category, make_item. cbn [category_id].
  destruct (category_key d) as [x |]; cbn [Py.truthy_opt_int]; [| reflexivity].
  unfold Py.truthy_int. destruct (Z.eqb_spec x 0) as [-> | Hx]; cbn [negb opt_eqb].
  - symmetry. apply Z.eqb_neq. congruence.
  - reflexivity.
Qed.

Lemma first_pass_cap (limit c : Z) (l : list (Z * entry)) :
  c <> 0%Z ->
  forall st,
    Z.of_nat (length (filter (in_category c) (recommendations st)))
    = count_of (Some c) (category_counts st) ->
    (count_of (Some c) (category_counts st) <= Settings.diversity_max_per_category)%Z ->
    (Z.of_nat (length (filter (in_category c)
                         (recommendations (first_pass limit l st))))
     <= Settings.diversity_max_per_category)%Z.
Proof.
  intros Hc. induction l as [| [k d] l IH]; intros st Heq Hle; cbn [first_pass].
  - lia.
  - destruct (len (recommendations st) >=? limit)%Z; [lia |].
    cbv zeta.
    destruct (count_of (category_key d) (category_counts st)
              >=? Settings.diversity_max_per_category)%Z eqn:Hfull.
    + apply IH; cbn [recommendations category_counts]; assumption.
    + rewrite Z.geb_leb in Hfull. apply Z.leb_gt in Hfull.
      assert (Hcc : opt_eqb (Some c) (Some c) = true) by now apply opt_eqb_eq.
      assert (Hsym : opt_eqb (category_key d) (Some c)
                     = opt_eqb (Some c) (category_key d)).
      { destruct (opt_eqb (Some c) (category_key d)) eqn:Hk.
        - apply opt_eqb_eq in Hk. now rewrite <- Hk.
        - destruct (opt_eqb (category_key d) (Some c)) eqn:H; [| reflexivity].
          apply opt_eqb_eq in H. rewrite H in Hk. congruence. }
      apply IH; cbn [recommendations category_counts]; rewrite count_of_increment.
      * rewrite filter_app, length_app. cbn [filter].
        rewrite in_category_make_item by exact Hc. rewrite Hsym.
        destruct (opt_eqb (Some c) (category_key d)) eqn:Hk; cbn [length].
        -- apply opt_eqb_eq in Hk. rewrite <- Hk.
           rewrite Nat2Z.inj_add, Heq. reflexivity.
        -- rewrite Nat.add_0_r. exact Heq.
      * destruct (opt_eqb (Some c) (category_key d)) eqn:Hk; [| exact Hle].
        apply opt_eqb_eq in Hk. rewrite <- Hk in Hfull |- *. lia.
Qed.

(** The cap of the selector: no category id is carried by more than
    [diversity_max_per_category] recommendations. *)
Lemma apply_diversity_category_cap (l : list (Z * entry)) (limit c : Z) :
  c <> 0%Z ->
  (Z.of_nat (length (filter (in_category c) (_apply_diversity l limit)))
   <= Settings.diversity_max_per_category)%Z.
Proof.
  intros Hc. rewrite apply_diversity_first_pass.
  apply first_pass_cap; [exact Hc | reflexivity |].
  cbn. unfold Settings.diversity_max_per_category. lia.
Qed.

End SecondPass.

(** ** Cold start *)

Section ColdStart.

Lemma upsert_fresh {V : Type} (k : Z) (f : option V -> V) (d : list (Z * V)) :
  ~ In k (map fst d) -> Py.upsert Z.eqb k f d = d ++ [(k, f None)].
Proof.
  induction d as [| [k' v] d IH]; cbn; intros Hk; [reflexivity |].
  destruct (Z.eqb_spec k k') as [-> | Hne]; [tauto |].
  f_equal. apply IH. tauto.
Qed.

Lemma ranked_from_cons (negative_ids : list Z) (n : nat)
  (x : option product_row) (l : list (option product_row)) :
  ranked_from negative_ids n (x :: l)
  = ranked_from negative_ids n [x] ++ ranked_from negative_ids (S n) l.
Proof.
  unfold ranked_from. cbn [Py.enumerate_from flat_map]. now rewrite app_nil_r.
Qed.

Lemma ranked_from_single (negative_ids : list Z) (n : nat) (x : option product_row) :
  ranked_from negative_ids n [x]
  = match x with
    | Some p =>
        match id_first p with
        | Some k =>
            if eligible [] negative_ids k then [(k, popular_entry n p)] else []
        | None => []
        end
    | None => []
    end.
Proof.
  unfold ranked_from. cbn [Py.enumerate_from flat_map fst snd].
  now rewrite app_nil_r.
Qed.

(** With pairwise distinct ids the cold-start loop appends the ranked
    products to the table in input order. *)
Lemma score_popular_ranked (negative_ids : list Z)
  (l : list (option product_row)) :
  forall n acc,
    NoDup (map fst (acc ++ ranked_from negative_ids n l)) ->
    fold_left (popular_step [] negative_ids) (Py.enumerate_from n l) acc
    = acc ++ ranked_from negative_ids n l.
Proof.
  induction l as [| x l IH]; intros n acc Hnd.
  - cbn. now rewrite app_nil_r.
  - cbn [Py.enumerate_from fold_left]. rewrite ranked_from_cons in Hnd |- *.
    rewrite app_assoc in Hnd |- *.
    assert (Hstep : popular_step [] negative_ids acc (n, x)
                    = acc ++ ranked_from negative_ids n [x]).
    { rewrite map_app, map_app in Hnd. apply NoDup_app_remove_r in Hnd.
      rewrite ranked_from_single in Hnd |- *.
      unfold popular_step. cbn [fst snd].
      destruct x as [p |]; [| now rewrite app_nil_r].
      destruct (id_first p) as [k |]; [| now rewrite app_nil_r].
      destruct (eligible [] negative_ids k); [| now rewrite app_nil_r].
      cbn [app map fst] in Hnd. apply upsert_fresh.
      apply NoDup_remove_2 in Hnd. now rewrite app_nil_r in Hnd. }
    rewrite Hstep. apply IH. exact Hnd.
Qed.

Lemma ranked_from_products (negative_ids : list Z) (n : nat)
  (l : list (option product_row)) :
  Forall (fun kd => product (snd kd) <> None) (ranked_from negative_ids n l).
Proof.
  unfold ranked_from. apply Forall_flat_map. apply Forall_forall.
  intros [i x] _. cbn [fst snd].
  destruct x as [p |]; [| constructor].
  destruct (id_first p); [| constructor].
  destruct (eligible [] negative_ids z); constructor; [discriminate | constructor].
Qed.

Lemma merge_product_data_idle (all_products : list (option product_row))
  (scores : table) :
  Forall (fun kd => product (snd kd) <> None) scores ->
  merge_product_data all_products scores = scores.
Proof.
  intros H. unfold merge_product_data.
  destruct (nonempty all_products); [| reflexivity].
  induction H as [| [k e] scores Hk Hs IH]; cbn [map]; [reflexivity |].
  rewrite IH. f_equal. cbn [fst snd] in *.
  destruct (product e); [reflexivity | contradiction].
Qed.

Lemma insert_desc_head {A : Type} (key : A -> R) (x : A) (l : list A) :
  Forall (fun y => key y <= key x) l -> Py.insert_desc key x l = x :: l.
Proof.
  intros H. destruct H as [| y l Hy Hl]; cbn; [reflexivity |].
  now rewrite ltb_false.
Qed.

(** The ranked table is already in descending score order. *)
Lemma ranked_from_sorted (negative_ids : list Z) (l : list (option product_row)) :
  forall n,
    Py.sorted_desc (fun pd => e_score (snd pd)) (ranked_from negative_ids n l)
    = ranked_from negative_ids n l
    /\ Forall (fun kd => e_score (snd kd) <= 1 - INR n * (5 / 100))
         (ranked_from negative_ids n l).
Proof.
  induction l as [| x l IH]; intros n.
  - split; [reflexivity | constructor].
  - rewrite ranked_from_cons.
    destruct (IH (S n)) as [Hsort Hle].
    assert (Hle' : Forall (fun kd => e_score (snd kd) <= 1 - INR n * (5 / 100))
                     (ranked_from negative_ids (S n) l)).
    { eapply Forall_impl; [| exact Hle]. cbn beta. intros kd Hkd.
      rewrite S_INR in Hkd. lra. }
    rewrite ranked_from_single.
    destruct x as [p |]; [| cbn [app]; split; assumption].
    destruct (id_first p) as [k |]; [| cbn [app]; split; assumption].
    destruct (eligible [] negative_ids k); [| cbn [app]; split; assumption].
    cbn [app]. split.
    + unfold Py.sorted_desc in *. cbn [fold_right]. rewrite Hsort.
      apply insert_desc_head. exact Hle'.
    + constructor; [cbn; lra | exact Hle'].
Qed.

Lemma ranked_from_rank (negative_ids : list Z) (l : list (option product_row)) :
  forall n,
    Forall (fun kd => exists i p,
                nth_error l i = Some (Some p)
                /\ id_first p = Some (fst kd)
                /\ snd kd = popular_entry (n + i) p)
      (ranked_from negative_ids n l).
Proof.
  induction l as [| x l IH]; intros n.
  - constructor.
  - rewrite ranked_from_cons. apply Forall_app. split.
    + rewrite ranked_from_single.
      destruct x as [p |]; [| constructor].
      destruct (id_first p) as [k |] eqn:Hk; [| constructor].
      destruct (eligible [] negative_ids k); [| constructor].
      constructor; [| constructor].
      exists 0%nat, p. cbn [nth_error fst snd]. now rewrite Nat.add_0_r.
    + eapply Forall_impl; [| exact (IH (S n))].
      intros kd (i & p & Hn & Hid & He).
      exists (S i), p. cbn [nth_error]. now rewrite Nat.add_succ_r.
Qed.

(** The item the selector builds for a ranked popular product. *)
Lemma make_item_popular (k : Z) (i : nat) (p : product_row) :
  make_item k (popular_entry i p) = popular_item (k, popular_entry i p).
Proof.
  unfold make_item, popular_item, category_key.
  cbn [popular_entry product e_score reasons fst snd].
  assert (Hscore : Rmin (Rmax (1 - INR i * (5 / 100)) 0) 1
                   = Rmax 0 (1 - INR i * (5 / 100))).
  { pose proof (pos_INR i). rewrite Rmax_comm.
    apply Rmin_left. apply Rmax_lub; lra. }
  rewrite Hscore.
  destruct (p_category_id p) as [| | c]; cbn [Py.truthy_opt_int Py.truthy_int];
    reflexivity.
Qed.

Lemma cold_start_table (now : Z) (rq : request) :
  collaborative_scores rq = [] ->
  content_similar rq = [] ->
  purchased_product_ids rq = [] ->
  wishlist_ids rq = [] ->
  viewed_ids rq = [] ->
  NoDup (map fst (ranked_popular (negative_feedback_ids rq) (popular_products rq))) ->
  cold_start rq = true
  /\ product_scores_of now rq
     = ranked_popular (negative_feedback_ids rq) (popular_products rq).
Proof.
  intros Hc Hs Hp Hw Hv Hnd.
  assert (Hcold : cold_start rq = true).
  { unfold cold_start. now rewrite Hc, Hs, Hp, Hw, Hv. }
  split; [exact Hcold |].
  unfold product_scores_of. rewrite Hcold, Hp. cbv zeta.
  unfold score_popular, Py.enumerate.
  rewrite (score_popular_ranked _ _ 0 []) by exact Hnd.
  cbn [app]. apply merge_product_data_idle, ranked_from_products.
Qed.

Lemma cold_start_output (now : Z) (rq : request) :
  collaborative_scores rq = [] ->
  content_similar rq = [] ->
  purchased_product_ids rq = [] ->
  wishlist_ids rq = [] ->
  viewed_ids rq = [] ->
  NoDup (map fst (ranked_popular (negative_feedback_ids rq) (popular_products rq))) ->
  fst (fst (get_recommendations now rq))
  = (_apply_diversity
       (ranked_popular (negative_feedback_ids rq) (popular_products rq)) (limit rq),
     "popular"%string).
Proof.
  intros Hc Hs Hp Hw Hv Hnd.
  destruct (cold_start_table now rq Hc Hs Hp Hw Hv Hnd) as [Hcold Htable].
  cbn [get_recommendations fst]. rewrite Hcold, Htable.
  unfold ranked_popular.
  now rewrite (proj1 (ranked_from_sorted (negative_feedback_ids rq)
                        (popular_products rq) 0)).
Qed.

Lemma opt_eqb_sym (a b : option Z) : opt_eqb a b = opt_eqb b a.
Proof.
  destruct (opt_eqb b a) eqn:Hba.
  - apply opt_eqb_eq in Hba. subst. now apply opt_eqb_eq.
  - destruct (opt_eqb a b) eqn:Hab; [| reflexivity].
    apply opt_eqb_eq in Hab. subst. rewrite (proj2 (opt_eqb_eq b b) eq_refl) in Hba.
    discriminate.
Qed.

Lemma occurrences_snoc (c : option Z) (l : list (Z * entry)) (kd : Z * entry) :
  occurrences c (l ++ [kd])
  = (occurrences c l + if opt_eqb (category_key (snd kd)) c then 1 else 0)%nat.
Proof.
  unfold occurrences. rewrite filter_app, length_app. cbn [filter].
  destruct (opt_eqb (category_key (snd kd)) c); reflexivity.
Qed.

(** The first pass of the selector computes the capped selection: its
    dictionary of counts stands for the number of listed candidates of each
    category. *)
Lemma first_pass_capped (limit : Z) (l : list (Z * entry)) :
  forall st listed,
    recommendations st = map (fun kd => make_item (fst kd) (snd kd)) listed ->
    (forall c, count_of c (category_counts st) = Z.of_nat (occurrences c listed)) ->
    recommendations (first_pass limit l st)
    = map (fun kd => make_item (fst kd) (snd kd))
        (capped_selection Settings.diversity_max_per_category limit listed l).
Proof.
  induction l as [| [k d] l IH]; intros st listed Hrec Hcount;
    cbn [first_pass capped_selection]; [exact Hrec |].
  assert (Hlen : len (recommendations st) = Z.of_nat (length listed)).
  { unfold len. now rewrite Hrec, length_map. }
  rewrite Z.geb_leb, Hlen.
  destruct (limit <=? Z.of_nat (length listed))%Z; [exact Hrec |].
  cbv zeta. cbn [snd]. rewrite Z.geb_leb, Hcount.
  destruct (Settings.diversity_max_per_category
            <=? Z.of_nat (occurrences (category_key d) listed))%Z.
  - apply IH; cbn [recommendations category_counts]; assumption.
  - apply IH; cbn [recommendations category_counts].
    + rewrite Hrec, map_app. reflexivity.
    + intros c. rewrite count_of_increment, occurrences_snoc. cbn [snd].
      rewrite (opt_eqb_sym (category_key d) c).
      destruct (opt_eqb c (category_key d)) eqn:Hc.
      * apply opt_eqb_eq in Hc. subst c. rewrite Hcount. lia.
      * rewrite Hcount. lia.
Qed.

Lemma apply_diversity_capped (l : list (Z * entry)) (limit : Z) :
  _apply_diversity l limit
  = map (fun kd => make_item (fst kd) (snd kd))
      (capped_selection Settings.diversity_max_per_category limit [] l).
Proof.
  rewrite apply_diversity_first_pass. apply first_pass_capped; [reflexivity |].
  intros c. reflexivity.
Qed.

Lemma capped_selection_In (cap limit : Z) (l : list (Z * entry)) :
  forall listed kd,
    In kd (capped_selection cap limit listed l) -> In kd listed \/ In kd l.
Proof.
  induction l as [| x l IH]; intros listed kd; cbn [capped_selection]; [auto |].
  destruct (limit <=? Z.of_nat (length listed))%Z; [auto |].
  destruct (cap <=? Z.of_nat (occurrences (category_key (snd x)) listed))%Z;
    intros Hin; apply IH in Hin.
  - destruct Hin; [now left | right; now right].
  - destruct Hin as [Hin | Hin]; [| right; now right].
    apply in_app_or in Hin. destruct Hin as [Hin | [<- | []]];
      [now left | right; now left].
Qed.

(** When neither the limit nor the cap binds, every candidate is listed. *)
Lemma capped_selection_all (cap limit : Z) (l : list (Z * entry)) :
  forall listed,
    (Z.of_nat (length listed) + Z.of_nat (length l) <= limit)%Z ->
    (forall c, (Z.of_nat (occurrences c listed) + Z.of_nat (occurrences c l) <= cap)%Z) ->
    capped_selection cap limit listed l = listed ++ l.
Proof.
  induction l as [| kd l IH]; intros listed Hroom Hcap; cbn [capped_selection].
  - now rewrite app_nil_r.
  - cbn [length] in Hroom.
    rewrite (proj2 (Z.leb_gt limit (Z.of_nat (length listed)))) by lia.
    assert (Hrefl : opt_eqb (category_key (snd kd)) (category_key (snd kd)) = true)
      by now apply opt_eqb_eq.
    assert (Hhead : forall c,
              occurrences c (kd :: l)
              = ((if opt_eqb (category_key (snd kd)) c then 1 else 0)
                 + occurrences c l)%nat).
    { intros c. unfold occurrences. cbn [filter].
      destruct (opt_eqb (category_key (snd kd)) c); reflexivity. }
    pose proof (Hcap (category_key (snd kd))) as Hown.
    rewrite Hhead, Hrefl in Hown.
    rewrite (proj2 (Z.leb_gt cap
                      (Z.of_nat (occurrences (category_key (snd kd)) listed))))
      by lia.
    rewrite IH.
    + now rewrite <- app_assoc.
    + rewrite length_app. cbn [length]. lia.
    + intros c. specialize (Hcap c). rewrite Hhead in Hcap.
      rewrite occurrences_snoc. destruct (opt_eqb (category_key (snd kd)) c); lia.
Qed.

Lemma map_make_item_popular (negative_ids : list Z) (n : nat)
  (l : list (option product_row)) (kept : list (Z * entry)) :
  (forall kd, In kd kept -> In kd (ranked_from negative_ids n l)) ->
  map (fun kd => make_item (fst kd) (snd kd)) kept = map popular_item kept.
Proof.
  intros Hsub. apply map_ext_in. intros [k e] Hin.
  pose proof (ranked_from_rank negative_ids l n) as Hr.
  rewrite Forall_forall in Hr. destruct (Hr _ (Hsub _ Hin)) as (i & p & _ & _ & He).
  cbn [fst snd] in *. subst e. apply make_item_popular.
Qed.

Lemma upsert_entry {V : Type} (P : Z -> V -> Prop) (k : Z) (v : V) (d : list (Z * V)) :
  Forall (fun kv => P (fst kv) (snd kv)) d -> P k v ->
  Forall (fun kv => P (fst kv) (snd kv)) (Py.upsert Z.eqb k (fun _ => v) d).
Proof.
  intros Hd Hv. induction Hd as [| [k' v'] d Hkv Hd IH]; cbn [Py.upsert].
  - constructor; [exact Hv | constructor].
  - destruct (Z.eqb_spec k k') as [<- | Hne]; constructor; auto.
Qed.

(** Whatever the ids, every entry the cold-start loop leaves in the table
    carries a product and the score of a rank at which its id is listed. *)
Lemma score_popular_entries (purchased_ids negative_ids : list Z)
  (popular_products l : list (option product_row)) :
  forall n acc,
    (forall j, nth_error l j = nth_error popular_products (n + j)) ->
    Forall (fun kd => product (snd kd) <> None
                      /\ exists i p,
                           nth_error popular_products i = Some (Some p)
                           /\ id_first p = Some (fst kd)
                           /\ e_score (snd kd) = 1 - INR i * (5 / 100)) acc ->
    Forall (fun kd => product (snd kd) <> None
                      /\ exists i p,
                           nth_error popular_products i = Some (Some p)
                           /\ id_first p = Some (fst kd)
                           /\ e_score (snd kd) = 1 - INR i * (5 / 100))
      (fold_left (popular_step purchased_ids negative_ids) (Py.enumerate_from n l) acc).
Proof.
  induction l as [| x l IH]; intros n acc Hnth Hacc;
    cbn [Py.enumerate_from fold_left]; [exact Hacc |].
  apply IH.
  - intros j. rewrite Nat.add_succ_l, <- Nat.add_succ_r. exact (Hnth (S j)).
  - unfold popular_step. cbn [fst snd].
    destruct x as [p |]; [| exact Hacc].
    destruct (id_first p) as [k |] eqn:Hk; [| exact Hacc].
    destruct (eligible purchased_ids negative_ids k); [| exact Hacc].
    cbv zeta.
    apply (upsert_entry
             (fun k e => product e <> None
                         /\ exists i p,
                              nth_error popular_products i = Some (Some p)
                              /\ id_first p = Some k
                              /\ e_score e = 1 - INR i * (5 / 100)));
      [exact Hacc |].
    cbn [product e_score]. split; [discriminate |].
    exists n, p. split; [| split; [exact Hk | reflexivity]].
    specialize (Hnth 0%nat). rewrite Nat.add_0_r in Hnth. now rewrite <- Hnth.
Qed.

Lemma cold_start_holds (rq : request) :
  collaborative_scores rq = [] ->
  content_similar rq = [] ->
  purchased_product_ids rq = [] ->
  wishlist_ids rq = [] ->
  viewed_ids rq = [] ->
  cold_start rq = true.
Proof.
  intros Hc Hs Hp Hw Hv. unfold cold_start. now rewrite Hc, Hs, Hp, Hw, Hv.
Qed.

(** C5 (amended): for a user without collaborative scores, content
    similarity or history the strategy is "popular" and every scored
    candidate carries the score [1 - 0.05 * i] of a 0-based rank [i] at which
    its id is listed; with pairwise distinct ids the candidates are the
    popular products with a non-zero, non-excluded id, in input order, and
    the output is exactly the list obtained by going through them in that
    order, stopping once [limit] are listed and leaving out a candidate when
    [diversity_max_per_category] listed ones already share its category, each
    reported with the score [max(0, 1 - 0.05 * i)]; when neither the limit nor
    the cap binds, that is every candidate in input order. *)
Theorem cold_start_popular_ranking (now : Z) (rq : request)
  (Hcollab : collaborative_scores rq = [])
  (Hcontent : content_similar rq = [])
  (Hpurchased : purchased_product_ids rq = [])
  (Hwishlist : wishlist_ids rq = [])
  (Hviewed : viewed_ids rq = []) :
  snd (fst (fst (get_recommendations now rq))) = "popular"%string
  /\ Forall (fun kd => exists i p,
                 nth_error (popular_products rq) i = Some (Some p)
                 /\ id_first p = Some (fst kd)
                 /\ e_score (snd kd) = 1 - INR i * (5 / 100))
       (product_scores_of now rq)
  /\ (NoDup (map fst (ranked_popular (negative_feedback_ids rq)
                        (popular_products rq))) ->
      product_scores_of now rq
      = ranked_popular (negative_feedback_ids rq) (popular_products rq)
      /\ fst (fst (fst (get_recommendations now rq))) = expected_cold_start_output rq
      /\ ((Z.of_nat (length (ranked_popular (negative_feedback_ids rq)
                               (popular_products rq))) <= limit rq)%Z ->
          (forall c,
             (Z.of_nat (occurrences c (ranked_popular (negative_feedback_ids rq)
                                         (popular_products rq)))
              <= Settings.diversity_max_per_category)%Z) ->
          fst (fst (fst (get_recommendations now rq)))
          = map popular_item
              (ranked_popular (negative_feedback_ids rq) (popular_products rq)))).
Proof.
  pose proof (cold_start_holds rq Hcollab Hcontent Hpurchased Hwishlist Hviewed)
    as Hcold.
  split; [cbn [get_recommendations fst snd]; now rewrite Hcold |].
  split.
  - unfold product_scores_of. rewrite Hcold. cbv zeta.
    pose proof (score_popular_entries (purchased_product_ids rq)
                  (negative_feedback_ids rq) (popular_products rq)
                  (popular_products rq) 0 [] (fun j => eq_refl)
                  (Forall_nil _)) as Hentries.
    fold (Py.enumerate (popular_products rq)) in Hentries.
    fold (score_popular (purchased_product_ids rq) (negative_feedback_ids rq)
            (popular_products rq) []) in Hentries.
    rewrite merge_product_data_idle.
    + eapply Forall_impl; [| exact Hentries]. intros kd [_ H]. exact H.
    + eapply Forall_impl; [| exact Hentries]. intros kd [H _]. exact H.
  - intros Hdistinct.
    pose proof (cold_start_output now rq Hcollab Hcontent Hpurchased Hwishlist
                  Hviewed Hdistinct) as Hout.
    destruct (cold_start_table now rq Hcollab Hcontent Hpurchased Hwishlist
                Hviewed Hdistinct) as [_ Htable].
    assert (Hexact : fst (fst (fst (get_recommendations now rq)))
                     = expected_cold_start_output rq).
    { rewrite Hout. cbn [fst]. rewrite apply_diversity_capped.
      unfold expected_cold_start_output, ranked_popular.
      apply (map_make_item_popular (negative_feedback_ids rq) 0 (popular_products rq)).
      intros kd Hin. apply capped_selection_In in Hin. destruct Hin as [[] | Hin].
      exact Hin. }
    split; [exact Htable |]. split; [exact Hexact |].
    intros Hroom Hcap. rewrite Hexact. unfold expected_cold_start_output.
    rewrite capped_selection_all; [reflexivity | cbn [length]; lia |].
    intros c. specialize (Hcap c). unfold occurrences at 1. cbn [filter length]. lia.
Qed.

End ColdStart.

Section ColdStartExample.

Lemma nodup_fixed_NoDup (l : list Z) : nodup Z.eq_dec l = l -> NoDup l.
Proof. intros H. rewrite <- H. apply NoDup_nodup. Qed.

Lemma popular_22_distinct :
  NoDup (map fst (ranked_popular (negative_feedback_ids cold_request)
                    (popular_products cold_request))).
Proof. apply nodup_fixed_NoDup. run_engine. reflexivity. Qed.

Lemma cold_request_output :
  fst (fst (fst (get_recommendations 0 cold_request)))
  = _apply_diversity (ranked_popular [] popular_22) 22.
Proof.
  now rewrite (cold_start_output 0 cold_request eq_refl eq_refl eq_refl eq_refl
                 eq_refl popular_22_distinct).
Qed.

Lemma repeated_popular_output :
  map product_id (fst (fst (fst (get_recommendations 0 repeated_popular_request))))
  = [2; 1]%Z.
Proof.
  lazy -[Rplus Rminus Rmult Rdiv Rinv Ropp IZR INR Rmin Rmax Rpower sqrt Rabs
         Py.ltb Py.leb Py.eqb Rlt Rle Rge Rgt].
  simpl INR. repeat (progress (settle_cmp; cbv iota)). reflexivity.
Qed.

(** C5 (counterexample): with the 22 popular products the output is not the
    stated one: the fourth product, the fourth of its category, is left out,
    and the product at rank 21 is reported with score 0 where
    [1 - 0.05 * 21] is -0.05.  With a popular list that names product 1 at
    ranks 0 and 2, the output is not in input order either: product 1 is
    scored at its last rank and comes after product 2. *)
Lemma cold_start_output_not_as_stated :
  ~ stated_cold_start_output 0 cold_request
  /\ map product_id (fst (fst (fst (get_recommendations 0 cold_request))))
     = [1; 2; 3; 5; 6; 7; 8; 9; 10; 11; 12; 13; 14; 15; 16; 17; 18; 19; 20; 21; 22]%Z
  /\ score (last (fst (fst (fst (get_recommendations 0 cold_request)))) no_item) = 0
  /\ 1 - INR 21 * (5 / 100) = - (5 / 100)
  /\ ~ stated_cold_start_output 0 repeated_popular_request
  /\ map product_id (fst (fst (fst (get_recommendations 0 repeated_popular_request))))
     = [2; 1]%Z.
Proof.
  assert (H21 : INR 21 = 21) by (simpl; lra).
  split; [| split; [| split; [| split; [| split]]]].
  - unfold stated_cold_start_output. rewrite cold_request_output.
    intros H. apply (f_equal (@length _)) in H. revert H.
    run_engine. discriminate.
  - rewrite cold_request_output. run_engine. reflexivity.
  - rewrite cold_request_output. run_engine. reflexivity.
  - rewrite H21. lra.
  - unfold stated_cold_start_output. intros H.
    apply (f_equal (@length _)) in H. rewrite !length_map in H.
    pose proof (f_equal (@length _) repeated_popular_output) as Hlen.
    rewrite length_map in Hlen. rewrite Hlen in H. revert H.
    run_engine. discriminate.
  - exact repeated_popular_output.
Qed.

Lemma cold_start_popular_ranking_witness :
  snd (fst (fst (get_recommendations 0 cold_request))) = "popular"%string
  /\ fst (fst (fst (get_recommendations 0 cold_request)))
     = expected_cold_start_output cold_request.
Proof.
  destruct (cold_start_popular_ranking 0 cold_request eq_refl eq_refl eq_refl
              eq_refl eq_refl) as (Hs & _ & Hdistinct).
  destruct (Hdistinct popular_22_distinct) as (_ & Hexact & _).
  split; [exact Hs | exact Hexact].
Defined.

End ColdStartExample.

(** ** Dependence on the clock *)

Section Clock.

Lemma fold_left_ext_in {A B : Type} (f g : A -> B -> A) (l : list B) :
  (forall x, In x l -> forall a, f a x = g a x) ->
  forall a, fold_left f l a = fold_left g l a.
Proof.
  induction l as [| x l IH]; intros H a; cbn; [reflexivity |].
  rewrite (H x (or_introl eq_refl)). apply IH.
  intros y Hy. apply H. now right.
Qed.

Section SameElapsedDays.
Variables (now1 now2 : Z) (rq : request).
Hypothesis same_days :
  forall ts, In ts (timestamps_of rq) -> get_days_ago now1 ts = get_days_ago now2 ts.

Lemma same_days_purchase (p : purchase_row) :
  In (Some p) (purchases rq) ->
  get_days_ago now1 (Py.or_else (purchase_date p) (ordered_at p))
  = get_days_ago now2 (Py.or_else (purchase_date p) (ordered_at p)).
Proof.
  intros Hin. apply same_days. unfold timestamps_of.
  apply in_or_app. left. apply in_flat_map. exists (Some p). split; [assumption | now left].
Qed.

Lemma same_days_wishlist (w : wishlist_row) :
  In (Some w) (wishlist rq) ->
  get_days_ago now1 (added_at w) = get_days_ago now2 (added_at w).
Proof.
  intros Hin. apply same_days. unfold timestamps_of.
  apply in_or_app. right. apply in_or_app. left.
  apply in_flat_map. exists (Some w). split; [assumption | now left].
Qed.

Lemma same_days_view (v : view_row) :
  In (Some v) (views rq) ->
  get_days_ago now1 (Py.or_else (created_at v) (v_timestamp v))
  = get_days_ago now2 (Py.or_else (created_at v) (v_timestamp v)).
Proof.
  intros Hin. apply same_days. unfold timestamps_of.
  apply in_or_app. right. apply in_or_app. right.
  apply in_flat_map. exists (Some v). split; [assumption | now left].
Qed.

Lemma history_step_same (base half_life : R) (cat_id : option Z)
  (ts : option timestamp) (acc : list (Z * R) * R) :
  get_days_ago now1 ts = get_days_ago now2 ts ->
  history_step now1 base half_life cat_id ts acc
  = history_step now2 base half_life cat_id ts acc.
Proof. intros H. unfold history_step. now rewrite H. Qed.

Lemma affinity_same : affinity_of now1 rq = affinity_of now2 rq.
Proof.
  unfold affinity_of, calculate_category_affinity. cbv zeta.
  assert (Hp : forall acc, add_purchases now1 (purchases rq) acc
                           = add_purchases now2 (purchases rq) acc).
  { apply fold_left_ext_in. intros [p |] Hin a; [| reflexivity].
    apply history_step_same, same_days_purchase, Hin. }
  assert (Hw : forall acc, add_wishlist now1 (wishlist rq) acc
                           = add_wishlist now2 (wishlist rq) acc).
  { apply fold_left_ext_in. intros [w |] Hin a; [| reflexivity].
    apply history_step_same, same_days_wishlist, Hin. }
  assert (Hv : forall acc, add_views now1 (views rq) acc
                           = add_views now2 (views rq) acc).
  { apply fold_left_ext_in. intros [v |] Hin a; [| reflexivity].
    apply history_step_same, same_days_view, Hin. }
  now rewrite Hp, Hw, Hv.
Qed.

Lemma boost_wishlist_same (purchased_ids negative_ids wishlist_set : list Z)
  (scores : table) :
  boost_wishlist now1 purchased_ids negative_ids wishlist_set (wishlist rq)
    (all_products rq) scores
  = boost_wishlist now2 purchased_ids negative_ids wishlist_set (wishlist rq)
      (all_products rq) scores.
Proof.
  unfold boost_wishlist. destruct (nonempty (wishlist rq)); [| reflexivity].
  apply fold_left_ext_in. intros [w |] Hin a; [| reflexivity].
  now rewrite (same_days_wishlist w Hin).
Qed.

Lemma viewed_products_decay_same (purchased_ids negative_ids negative_reviewed : list Z) :
  viewed_products_decay now1 purchased_ids negative_ids negative_reviewed (views rq)
  = viewed_products_decay now2 purchased_ids negative_ids negative_reviewed (views rq).
Proof.
  unfold viewed_products_decay.
  apply fold_left_ext_in. intros [v |] Hin a; [| reflexivity].
  now rewrite (same_days_view v Hin).
Qed.

Lemma boost_views_same (purchased_ids negative_ids negative_reviewed viewed_set : list Z)
  (scores : table) :
  boost_views now1 purchased_ids negative_ids negative_reviewed viewed_set
    (views rq) (all_products rq) scores
  = boost_views now2 purchased_ids negative_ids negative_reviewed viewed_set
      (views rq) (all_products rq) scores.
Proof.
  unfold boost_views. now rewrite viewed_products_decay_same.
Qed.

Lemma product_scores_same : product_scores_of now1 rq = product_scores_of now2 rq.
Proof.
  unfold product_scores_of, hybrid_scores. cbv zeta.
  rewrite affinity_same.
  destruct (cold_start rq); [reflexivity |].
  now rewrite boost_wishlist_same, boost_views_same.
Qed.

End SameElapsedDays.

(** C6 (amended): the recommendations are a function of the explicit
    arguments and of the clock reading, which enters only through the days
    elapsed since the timestamps of the purchase, wishlist and view rows: two
    invocations on identical arguments whose clock readings give every such
    timestamp the same number of elapsed days return identical results. *)
Theorem recommendations_depend_on_elapsed_days (now1 now2 : Z) (rq : request)
  (Hdays : forall ts, In ts (timestamps_of rq) ->
             get_days_ago now1 ts = get_days_ago now2 ts) :
  get_recommendations now1 rq = get_recommendations now2 rq.
Proof.
  unfold get_recommendations. cbv zeta.
  now rewrite (product_scores_same now1 now2 rq Hdays).
Qed.

Lemma recommendations_depend_on_elapsed_days_witness :
  get_recommendations 0 undated_wishlist_request
  = get_recommendations fourteen_days undated_wishlist_request.
Proof.
  apply recommendations_depend_on_elapsed_days.
  intros ts Hin. cbn in Hin. destruct Hin as [<- | []]. reflexivity.
Defined.

Lemma wishlist_score_at_epoch :
  map score (fst (fst (fst (get_recommendations 0 wishlist_request)))) = [4 / 10].
Proof.
  run_engine.
  match goal with
  | |- context [Rpower (1 / 2) ?x] => replace x with 0 by lra
  end.
  rewrite pow_half_0. settle_cmp. f_equal. lra.
Qed.

Lemma wishlist_score_two_weeks_later :
  map score (fst (fst (fst (get_recommendations fourteen_days wishlist_request))))
  = [2 / 10].
Proof.
  run_engine.
  match goal with
  | |- context [Rpower (1 / 2) ?x] => replace x with 1 by lra
  end.
  rewrite pow_half_1. settle_cmp. f_equal. lra.
Qed.

(** C6 (counterexample): the same arguments give different results at
    different clock readings: a wishlist item added at the epoch scores 0.4
    when the clock reads the epoch and 0.2 when it reads fourteen days later. *)
Lemma recommendations_change_with_clock :
  get_recommendations 0 wishlist_request
  <> get_recommendations fourteen_days wishlist_request.
Proof.
  intros H.
  pose proof wishlist_score_at_epoch as H0.
  rewrite H, wishlist_score_two_weeks_later in H0.
  injection H0. lra.
Qed.

End Clock.

(** * Further properties of the engine *)

(** ** The score table is a dictionary over non-zero ids *)

Section WellKeyed.

Lemma upsert_keys_eq {V : Type} (k : Z) (f : option V -> V) (d : list (Z * V)) :
  map fst (Py.upsert Z.eqb k f d)
  = if Py.mem k (map fst d) then map fst d else map fst d ++ [k].
Proof.
  unfold Py.mem. induction d as [| [k' v] d IH]; cbn; [reflexivity |].
  destruct (Z.eqb k k'); cbn; [reflexivity |].
  rewrite IH. destruct (existsb (Z.eqb k) (map fst d)); reflexivity.
Qed.

Lemma upsert_well_keyed {V : Type} (k : Z) (f : option V -> V) (d : list (Z * V)) :
  well_keyed d -> k <> 0%Z -> well_keyed (Py.upsert Z.eqb k f d).
Proof.
  intros [Hnd Hnz] Hk. split; [| now apply upsert_keys].
  rewrite upsert_keys_eq. destruct (Py.mem k (map fst d)) eqn:Hm; [exact Hnd |].
  apply NoDup_app; [exact Hnd | constructor; [intros [] | constructor] |].
  intros x Hx [<- | []]. apply mem_In in Hx. congruence.
Qed.

Lemma touch_well_keyed (k : Z) (f : entry -> entry) (scores : table) :
  well_keyed scores -> k <> 0%Z -> well_keyed (touch k f scores).
Proof. unfold touch. apply upsert_well_keyed. Qed.

Lemma adjust_keys_eq {V : Type} (k : Z) (f : V -> V) (d : list (Z * V)) :
  map fst (Py.adjust Z.eqb k f d) = map fst d.
Proof.
  induction d as [| [k' v] d IH]; cbn; [reflexivity |].
  destruct (Z.eqb k k'); cbn; [reflexivity | now rewrite IH].
Qed.

Lemma adjust_well_keyed {V : Type} (k : Z) (f : V -> V) (d : list (Z * V)) :
  well_keyed d -> well_keyed (Py.adjust Z.eqb k f d).
Proof.
  intros [Hnd Hnz]. split; [now rewrite adjust_keys_eq | now apply adjust_keys].
Qed.

Lemma map_well_keyed {V : Type} (f : Z * V -> Z * V) (d : list (Z * V)) :
  (forall kv, fst (f kv) = fst kv) -> well_keyed d -> well_keyed (map f d).
Proof.
  intros Hf [Hnd Hnz]. split; [| now apply map_keys].
  rewrite map_map. erewrite map_ext; [exact Hnd | exact Hf].
Qed.

Lemma insert_desc_perm {A : Type} (key : A -> R) (x : A) (l : list A) :
  Permutation (Py.insert_desc key x l) (x :: l).
Proof.
  induction l as [| y l IH]; cbn; [reflexivity |].
  destruct (Py.ltb (key x) (key y)); [| reflexivity].
  rewrite IH. apply perm_swap.
Qed.

Lemma sorted_desc_perm {A : Type} (key : A -> R) (l : list A) :
  Permutation (Py.sorted_desc key l) l.
Proof.
  unfold Py.sorted_desc. induction l as [| x l IH]; cbn; [reflexivity |].
  rewrite insert_desc_perm. now constructor.
Qed.

Lemma sorted_desc_well_keyed {V : Type} (key : Z * V -> R) (d : list (Z * V)) :
  well_keyed d -> well_keyed (Py.sorted_desc key d).
Proof.
  intros [Hnd Hnz]. split; [| now apply sorted_desc_keys].
  eapply Permutation_NoDup; [| exact Hnd].
  apply Permutation_map, Permutation_sym, sorted_desc_perm.
Qed.

Lemma eligible_nonzero (purchased_ids negative_ids : list Z) (k : Z) :
  eligible purchased_ids negative_ids k = true -> k <> 0%Z.
Proof.
  unfold eligible, Py.truthy_int. rewrite !andb_true_iff, negb_true_iff.
  intros [[Hk _] _]. now apply Z.eqb_neq.
Qed.

Lemma truthy_nonzero (k : Z) : Py.truthy_int k = true -> k <> 0%Z.
Proof. unfold Py.truthy_int. rewrite negb_true_iff. apply Z.eqb_neq. Qed.

Ltac split_conj :=
  repeat match goal with
  | H : _ && _ = true |- _ => apply andb_true_iff in H; destruct H
  end.

Ltac step_well_keyed :=
  cbv zeta;
  repeat match goal with
  | |- well_keyed (match ?x with _ => _ end) => destruct x eqn:?
  end;
  try assumption;
  first [ apply touch_well_keyed | apply upsert_well_keyed ];
  try assumption;
  split_conj;
  first [ eapply eligible_nonzero; eassumption
        | apply truthy_nonzero; assumption ].

Lemma fold_touch_well_keyed {B : Type} (key : B -> Z) (change : B -> entry -> entry)
  (l : list B) :
  Forall (fun x => key x <> 0%Z) l ->
  forall scores : table,
    well_keyed scores ->
    well_keyed (fold_left (fun scores x => touch (key x) (change x) scores) l scores).
Proof.
  induction 1 as [| x l Hx Hl IH]; intros scores Hs; cbn [fold_left]; auto.
  apply IH. now apply touch_well_keyed.
Qed.

Lemma personality_boost_well_keyed (t : PersonalityType)
  (products : list (option product_row)) :
  well_keyed (_get_personality_product_boost t products).
Proof.
  unfold _get_personality_product_boost.
  apply fold_left_invariant; [| split; constructor].
  intros acc0 row Hacc. step_well_keyed.
Qed.

Lemma viewed_products_decay_well_keyed (now : Z)
  (purchased_ids negative_ids negative_reviewed : list Z)
  (views : list (option view_row)) :
  well_keyed
    (viewed_products_decay now purchased_ids negative_ids negative_reviewed views).
Proof.
  unfold viewed_products_decay.
  apply fold_left_invariant; [| split; constructor].
  intros acc0 row Hacc. step_well_keyed.
Qed.

Section Stages.
Variables purchased_ids negative_ids : list Z.

Lemma score_popular_well_keyed (popular_products : list (option product_row))
  (scores : table) :
  well_keyed scores ->
  well_keyed (score_popular purchased_ids negative_ids popular_products scores).
Proof.
  unfold score_popular. apply fold_left_invariant.
  intros acc0 [i p] Hacc. unfold popular_step. cbn [fst snd]. step_well_keyed.
Qed.

Lemma score_collaborative_well_keyed (collaborative_scores : list (Z * R))
  (scores : table) :
  well_keyed scores ->
  well_keyed (score_collaborative purchased_ids negative_ids collaborative_scores scores).
Proof.
  unfold score_collaborative. apply fold_left_invariant.
  intros acc0 [k c] Hacc. cbn [fst snd]. step_well_keyed.
Qed.

Lemma score_content_well_keyed (content_similar : list (option product_row))
  (scores : table) :
  well_keyed scores ->
  well_keyed (score_content purchased_ids negative_ids content_similar scores).
Proof.
  unfold score_content. apply fold_left_invariant.
  intros acc0 [i p] Hacc. cbn [fst snd]. step_well_keyed.
Qed.

Lemma score_personality_well_keyed (t : PersonalityType)
  (all_products : list (option product_row)) (scores : table) :
  well_keyed scores ->
  well_keyed (score_personality purchased_ids negative_ids t all_products scores).
Proof.
  unfold score_personality. cbv zeta.
  destruct (personality_boost_well_keyed t all_products) as [_ Hnz].
  revert scores.
  induction Hnz as [| [k b] l Hk Hl IH]; intros scores Hs; cbn [fold_left]; auto.
  apply IH. cbn [fst snd] in *.
  destruct (negb (Py.mem k purchased_ids) && negb (Py.mem k negative_ids));
    [now apply touch_well_keyed | exact Hs].
Qed.

Lemma boost_wishlist_well_keyed (now : Z) (wishlist_set : list Z)
  (wishlist : list (option wishlist_row)) (all_products : list (option product_row))
  (scores : table) :
  well_keyed scores ->
  well_keyed (boost_wishlist now purchased_ids negative_ids wishlist_set wishlist
                all_products scores).
Proof.
  intros Hs. unfold boost_wishlist.
  destruct (nonempty wishlist);
    [| destruct (nonempty wishlist_set && nonempty all_products); [| exact Hs]];
    (apply fold_left_invariant; [| exact Hs]); intros acc0 row Hacc; step_well_keyed.
Qed.

Lemma boost_views_well_keyed (now : Z) (negative_reviewed viewed_set : list Z)
  (views : list (option view_row)) (all_products : list (option product_row))
  (scores : table) :
  well_keyed scores ->
  well_keyed (boost_views now purchased_ids negative_ids negative_reviewed viewed_set
                views all_products scores).
Proof.
  intros Hs. unfold boost_views.
  destruct (nonempty views).
  - destruct (viewed_products_decay_well_keyed now purchased_ids negative_ids
                negative_reviewed views) as [_ Hnz].
    revert scores Hs.
    induction Hnz as [| [k d] l Hk Hl IH]; intros scores Hs; cbn [fold_left]; auto.
    apply IH. now apply touch_well_keyed.
  - destruct (nonempty viewed_set && nonempty all_products); [| exact Hs].
    apply fold_left_invariant; [| exact Hs]. intros acc0 row Hacc. step_well_keyed.
Qed.

Lemma boost_session_well_keyed (session_ids : list Z)
  (session_products all_products : list (option product_row)) (scores : table) :
  well_keyed scores ->
  well_keyed (boost_session purchased_ids negative_ids session_ids session_products
                all_products scores).
Proof.
  intros Hs. unfold boost_session.
  destruct (nonempty session_ids && nonempty all_products); [| exact Hs].
  apply fold_left_invariant; [| exact Hs]. intros acc0 row Hacc. step_well_keyed.
Qed.

Lemma boost_category_affinity_well_keyed (category_affinity : list (Z * R))
  (top_category_ids : list Z) (top_category_id : option Z)
  (all_products : list (option product_row)) (scores : table) :
  well_keyed scores ->
  well_keyed (boost_category_affinity purchased_ids negative_ids category_affinity
                top_category_ids top_category_id all_products scores).
Proof.
  intros Hs. unfold boost_category_affinity.
  destruct (nonempty category_affinity && nonempty all_products); [| exact Hs].
  apply fold_left_invariant; [| exact Hs]. intros acc0 row Hacc. step_well_keyed.
Qed.

Lemma boost_price_well_keyed (price_min : R) (price_max : bound)
  (all_products : list (option product_row)) (scores : table) :
  well_keyed scores ->
  well_keyed (boost_price purchased_ids negative_ids price_min price_max
                all_products scores).
Proof.
  intros Hs. unfold boost_price.
  destruct price_max; [| exact Hs].
  destruct (nonempty all_products); [| exact Hs].
  apply fold_left_invariant; [| exact Hs]. intros acc0 row Hacc. step_well_keyed.
Qed.

Lemma penalize_well_keyed (negative_reviewed : list Z) (scores : table) :
  well_keyed scores -> well_keyed (penalize_negative_reviews negative_reviewed scores).
Proof.
  unfold penalize_negative_reviews. apply fold_left_invariant.
  intros acc0 k Hacc. now apply adjust_well_keyed.
Qed.

Lemma merge_well_keyed (all_products : list (option product_row)) (scores : table) :
  well_keyed scores -> well_keyed (merge_product_data all_products scores).
Proof.
  intros Hs. unfold merge_product_data.
  destruct (nonempty all_products); [| exact Hs].
  apply map_well_keyed; [| exact Hs].
  intros [k e]. cbn [fst snd].
  destruct (product e); [reflexivity |].
  destruct (Py.lookup Z.eqb k _); reflexivity.
Qed.

End Stages.

Lemma hybrid_scores_well_keyed (now : Z) (rq : request) (alpha_used : R) :
  well_keyed (hybrid_scores now rq alpha_used).
Proof.
  unfold hybrid_scores. cbv zeta.
  apply penalize_well_keyed, boost_price_well_keyed,
    boost_category_affinity_well_keyed, boost_session_well_keyed,
    boost_views_well_keyed, boost_wishlist_well_keyed.
  apply map_well_keyed; [intros [k e]; reflexivity |].
  destruct (profile_type rq) as [t |].
  1: destruct (Py.ltb 0 alpha_used); [apply score_personality_well_keyed |].
  all: destruct (nonempty (content_similar rq) && Py.ltb alpha_used 1);
    [apply score_content_well_keyed |];
    (destruct (nonempty (collaborative_scores rq) && Py.ltb alpha_used 1);
     [apply score_collaborative_well_keyed |]);
    split; constructor.
Qed.

Lemma sorted_table_well_keyed (now : Z) (rq : request) :
  well_keyed (Py.sorted_desc (fun pd => e_score (snd pd)) (product_scores_of now rq)).
Proof.
  apply sorted_desc_well_keyed. unfold product_scores_of. cbv zeta.
  apply merge_well_keyed.
  destruct (cold_start rq).
  - apply score_popular_well_keyed. split; constructor.
  - apply hybrid_scores_well_keyed.
Qed.

End WellKeyed.

(** ** What every returned list satisfies *)

Section ReturnedList.

Lemma subsequence_In {A : Type} (s l : list A) (x : A) :
  subsequence s l -> In x s -> In x l.
Proof.
  induction 1 as [| y s l H IH | y s l H IH]; cbn; intros Hin; auto.
  destruct Hin as [-> | Hin]; auto.
Qed.

Lemma subsequence_map {A B : Type} (f : A -> B) (s l : list A) :
  subsequence s l -> subsequence (map f s) (map f l).
Proof. induction 1; cbn; constructor; assumption. Qed.

Lemma subsequence_NoDup {A : Type} (s l : list A) :
  subsequence s l -> NoDup l -> NoDup s.
Proof.
  induction 1 as [| y s l H IH | y s l H IH]; intros Hnd.
  - constructor.
  - inversion Hnd; subst. auto.
  - inversion Hnd as [| ? ? Hy Hl]; subst. constructor; [| auto].
    intros Hin. apply Hy. eapply subsequence_In; eassumption.
Qed.

Lemma map_product_id_make_item (l : list (Z * entry)) :
  map product_id (map (fun kd => make_item (fst kd) (snd kd)) l) = map fst l.
Proof. rewrite map_map. apply map_ext. intros [k d]. reflexivity. Qed.

Lemma first_pass_length (limit : Z) (l : list (Z * entry)) :
  forall st,
    (len (recommendations (first_pass limit l st))
     <= Z.max limit (len (recommendations st)))%Z.
Proof.
  induction l as [| [k d] l IH]; intros st; cbn [first_pass]; [lia |].
  destruct (len (recommendations st) >=? limit)%Z eqn:Hfull; [lia |].
  rewrite Z.geb_leb in Hfull. apply Z.leb_gt in Hfull.
  cbv zeta.
  destruct (count_of (category_key d) (category_counts st)
            >=? Settings.diversity_max_per_category)%Z.
  - etransitivity; [apply IH |]. cbn [recommendations]. lia.
  - etransitivity; [apply IH |]. cbn [recommendations].
    unfold len in *. rewrite length_app. cbn [length]. lia.
Qed.

(** The list returned by [get_recommendations] never holds more than [limit]
    items, and holds none when [limit] is zero or negative. *)
Theorem recommendations_within_limit (now : Z) (rq : request) :
  (Z.of_nat (length (fst (fst (fst (get_recommendations now rq)))))
   <= Z.max 0 (limit rq))%Z.
Proof.
  cbn [get_recommendations fst]. rewrite apply_diversity_first_pass.
  etransitivity; [apply first_pass_length |]. cbn. lia.
Qed.

(** Every returned recommendation passes the checks of its model: its
    product id is a non-zero integer and its score lies between 0 and 1,
    whatever boosts and penalties the product collected. *)
Theorem recommendations_are_valid (now : Z) (rq : request)
  (item : RecommendationItem)
  (Hitem : In item (fst (fst (fst (get_recommendations now rq))))) :
  product_id item <> 0%Z /\ 0 <= score item <= 1.
Proof.
  cbn [get_recommendations fst] in Hitem.
  eapply subsequence_In in Hitem; [| apply apply_diversity_subsequence].
  apply in_map_iff in Hitem. destruct Hitem as ([k d] & <- & Hin).
  cbn [fst snd make_item product_id score]. split.
  - destruct (sorted_table_well_keyed now rq) as [_ Hnz].
    unfold keys_satisfy in Hnz. rewrite Forall_forall in Hnz.
    exact (Hnz _ Hin).
  - unfold Rmin, Rmax.
    destruct (Rle_dec (e_score d) 0); destruct (Rle_dec _ 1); lra.
Qed.

(** No product is recommended twice: the product ids of the returned list
    are pairwise distinct. *)
Theorem recommendations_are_distinct (now : Z) (rq : request) :
  NoDup (map product_id (fst (fst (fst (get_recommendations now rq))))).
Proof.
  cbn [get_recommendations fst].
  eapply subsequence_NoDup.
  - apply subsequence_map, apply_diversity_subsequence.
  - rewrite map_product_id_make_item.
    exact (proj1 (sorted_table_well_keyed now rq)).
Qed.

Lemma recommendations_are_valid_witness :
  product_id
    (hd no_item (fst (fst (fst (get_recommendations 0 purchased_favourite_request)))))
  <> 0%Z
  /\ 0 <= score
            (hd no_item
               (fst (fst (fst (get_recommendations 0 purchased_favourite_request)))))
       <= 1.
Proof.
  apply (recommendations_are_valid 0 purchased_favourite_request).
  pose proof purchased_favourite_output as Hout.
  destruct (fst (fst (fst (get_recommendations 0 purchased_favourite_request))));
    [discriminate | left; reflexivity].
Defined.

End ReturnedList.

(** ** The diversity selector, for every input *)

Section SelectorFacts.

(** A candidate deferred by the per-category cap is never brought back: the
    second pass leaves the selection as the first pass built it, so the
    output is the output of the first pass and keeps the candidates in the
    order received. *)
Theorem deferred_candidates_never_return (l : list (Z * entry)) (limit : Z) :
  let first :=
    first_pass limit l
      {| category_counts := []; recommendations := [];
         selected_categories := []; skipped_for_diversity := [] |} in
  second_pass limit (skipped_for_diversity first) first = first
  /\ _apply_diversity l limit = recommendations first
  /\ subsequence (_apply_diversity l limit)
       (map (fun kd => make_item (fst kd) (snd kd)) l).
Proof.
  cbv zeta. split; [| split].
  - apply second_pass_idle. apply first_pass_invariant.
    split; [| constructor]. intros c Hc. cbn in Hc. lia.
  - apply apply_diversity_first_pass.
  - apply apply_diversity_subsequence.
Qed.

End SelectorFacts.

(** ** Elapsed days and decay *)

Section Aging.

Lemma pow_half_pos (x : R) : 0 < Rpower (1 / 2) x.
Proof. unfold Rpower. apply exp_pos. Qed.

(** For a positive half-life the decay factor is defined and lies in
    [0, 1]; with a zero half-life the computation fails exactly when
    [days_ago] is not negative. *)
Theorem time_decay_range :
  (forall days_ago half_life, 0 < half_life ->
     exists decay,
       calculate_time_decay days_ago half_life = Some decay /\ 0 <= decay <= 1)
  /\ (forall days_ago, calculate_time_decay days_ago 0 = None <-> 0 <= days_ago).
Proof.
  split.
  - intros d h Hh. rewrite calculate_time_decay_defined by lra.
    eexists. split; [reflexivity |].
    destruct (Rlt_dec d 0) as [Hd | Hd].
    + rewrite ltb_true by assumption. lra.
    + rewrite ltb_false by lra. split; [left; apply pow_half_pos |].
      apply pow_half_le_1. apply Rmult_le_pos; [lra |].
      left. now apply Rinv_0_lt_compat.
  - intros d. unfold calculate_time_decay.
    destruct (Rlt_dec d 0) as [Hd | Hd].
    + rewrite ltb_true by assumption. split; [discriminate | lra].
    + rewrite ltb_false by lra. rewrite eqb_true by reflexivity.
      split; [lra | reflexivity].
Qed.

Lemma time_decay_range_witness :
  0 < 7 /\ exists decay, calculate_time_decay 3 7 = Some decay /\ 0 <= decay <= 1.
Proof.
  assert (H7 : 0 < 7) by lra.
  split; [exact H7 |].
  exact (proj1 time_decay_range 3 7 H7).
Defined.

Lemma get_days_ago_nonneg (now : Z) (ts : option timestamp) :
  0 <= get_days_ago now ts.
Proof.
  unfold get_days_ago. destruct ts as [[t |] |]; try lra. apply Rmax_l.
Qed.

Lemma decay_factor_configured (d h : R) :
  0 <= d -> 0 < h -> decay_factor d h = Rpower (1 / 2) (d / h).
Proof.
  intros Hd Hh. unfold decay_factor.
  rewrite calculate_time_decay_defined by lra. now rewrite ltb_false.
Qed.

(** The age of a signal is never negative: a missing, unparsable or
    future-dated timestamp counts as zero days, so that the signal has full
    weight; and as the clock advances the age never decreases and the decay
    factor, for a positive half-life, never increases. *)
Theorem signals_only_age (now1 now2 : Z) (ts : option timestamp) (half_life : R)
  (Hclock : (now1 <= now2)%Z) (Hhalf : 0 < half_life) :
  0 <= get_days_ago now1 ts <= get_days_ago now2 ts
  /\ decay_factor (get_days_ago now2 ts) half_life
     <= decay_factor (get_days_ago now1 ts) half_life <= 1
  /\ ((ts = None \/ ts = Some Unparsable
       \/ exists t, ts = Some (Datetime t) /\ (now1 <= t)%Z) ->
      get_days_ago now1 ts = 0
      /\ decay_factor (get_days_ago now1 ts) half_life = 1).
Proof.
  assert (Hmono : get_days_ago now1 ts <= get_days_ago now2 ts).
  { unfold get_days_ago. destruct ts as [[t |] |]; try lra.
    apply Rmax_lub; [apply Rmax_l |].
    etransitivity; [| apply Rmax_r].
    assert (IZR (now1 - t) <= IZR (now2 - t)) by (apply IZR_le; lia). lra. }
  pose proof (get_days_ago_nonneg now1 ts) as H1.
  pose proof (get_days_ago_nonneg now2 ts) as H2.
  split; [split; assumption |]. split.
  - rewrite !decay_factor_configured by assumption. split.
    + apply pow_half_antitone. unfold Rdiv.
      apply Rmult_le_compat_r; [| assumption].
      left. now apply Rinv_0_lt_compat.
    + apply pow_half_le_1. apply Rmult_le_pos; [assumption |].
      left. now apply Rinv_0_lt_compat.
  - intros Hts.
    assert (H0 : get_days_ago now1 ts = 0).
    { unfold get_days_ago.
      destruct Hts as [-> | [-> | (t & -> & Ht)]]; try reflexivity.
      apply Rmax_left.
      assert (IZR (now1 - t) <= 0) by (apply IZR_le; lia). lra. }
    split; [exact H0 |].
    rewrite H0, decay_factor_configured by lra.
    replace (0 / half_life) with 0 by (field; lra). apply pow_half_0.
Qed.

Lemma signals_only_age_witness :
  0 <= get_days_ago 0 (Some (Datetime 5))
     <= get_days_ago fourteen_days (Some (Datetime 5))
  /\ decay_factor (get_days_ago 0 (Some (Datetime 5))) 14 = 1.
Proof.
  assert (Hclock : (0 <= fourteen_days)%Z) by (unfold fourteen_days; lia).
  assert (Hhalf : 0 < 14) by lra.
  destruct (signals_only_age 0 fourteen_days (Some (Datetime 5)) 14 Hclock Hhalf)
    as (Hage & _ & Hfresh).
  split; [exact Hage |].
  apply Hfresh. right. right. exists 5%Z. split; [reflexivity | lia].
Defined.

End Aging.

(** * Further properties of the filter analyzer *)

Section FilterFacts.
Import FilterAnalyzer.

Lemma upsert_values {V : Type} (P : V -> Prop) (k : Z) (f : option V -> V)
  (d : list (Z * V)) :
  (forall o, (forall v, o = Some v -> P v) -> P (f o)) ->
  Forall (fun kv => P (snd kv)) d ->
  Forall (fun kv => P (snd kv)) (Py.upsert Z.eqb k f d).
Proof.
  intros Hf Hd. induction Hd as [| [k' v] d Hv Hd IH]; cbn.
  - constructor; [| constructor]. apply Hf. discriminate.
  - destruct (Z.eqb k k'); constructor; auto.
    cbn [snd] in *. apply Hf. intros v' [= <-]. exact Hv.
Qed.















End FilterFacts.

Section FilterPrices.
Import FilterAnalyzer.

Lemma blend_monotone (w p p' f f' : R) :
  0 <= w <= 1 -> p <= p' -> f <= f' ->
  (1 - w) * p + w * f <= (1 - w) * p' + w * f'.
Proof. intros Hw Hp Hf. nra. Qed.

(** With a filter weight between 0 and 1 (the default is 0.3), a blended
    bound never decreases when the purchase-derived or the filter-derived
    bound is raised, so that, when both filter bounds are given, two ordered
    ranges blend into an ordered range; a bound without a filter value is
    the purchase-derived bound unchanged. *)
Theorem blended_range_keeps_order (purchase_min purchase_max filter_lo filter_hi : R)
  (filter_weight : option R)
  (Hweight : forall w, filter_weight = Some w -> 0 <= w <= 1)
  (Hpurchase : purchase_min <= purchase_max)
  (Hfilter : filter_lo <= filter_hi) :
  fst (blend_price_ranges purchase_min purchase_max (Some filter_lo) (Some filter_hi)
         filter_weight)
  <= snd (blend_price_ranges purchase_min purchase_max (Some filter_lo) (Some filter_hi)
            filter_weight)
  /\ (forall other_bound other_filter,
        fst (blend_price_ranges purchase_min other_bound (Some filter_lo) other_filter
               filter_weight)
        <= fst (blend_price_ranges purchase_max other_bound (Some filter_hi) other_filter
                  filter_weight)
        /\ snd (blend_price_ranges other_bound purchase_min other_filter (Some filter_lo)
                  filter_weight)
           <= snd (blend_price_ranges other_bound purchase_max other_filter
                     (Some filter_hi) filter_weight))
  /\ (forall other_filter,
        fst (blend_price_ranges purchase_min purchase_max None other_filter
               filter_weight) = purchase_min
        /\ snd (blend_price_ranges purchase_min purchase_max other_filter None
                  filter_weight) = purchase_max).
Proof.
  unfold blend_price_ranges.
  set (w := match filter_weight with
            | Some w => w
            | None => Settings.filter_signal_weight
            end).
  assert (Hw : 0 <= w <= 1).
  { unfold w. destruct filter_weight as [w' |]; [now apply Hweight |].
    unfold Settings.filter_signal_weight. lra. }
  cbv zeta. split; [| split].
  - cbn [fst snd]. now apply blend_monotone.
  - intros other_bound other_filter.
    destruct other_filter as [x |]; cbn [fst snd]; split; now apply blend_monotone.
  - intros other_filter. destruct other_filter as [x |]; cbn [fst snd]; split; reflexivity.
Qed.

Lemma blended_range_keeps_order_witness :
  fst (blend_price_ranges 19 57 (Some 10) (Some 80) (Some (1 / 2)))
  <= snd (blend_price_ranges 19 57 (Some 10) (Some 80) (Some (1 / 2))).
Proof.
  assert (Hweight : forall w, Some (1 / 2) = Some w -> 0 <= w <= 1)
    by (intros w [= <-]; lra).
  assert (Hpurchase : 19 <= 57) by lra.
  assert (Hfilter : 10 <= 80) by lra.
  exact (proj1 (blended_range_keeps_order 19 57 10 80 (Some (1 / 2))
                  Hweight Hpurchase Hfilter)).
Defined.

Lemma sum_from_bounds (lo hi : R) (xs : list R) :
  Forall (fun x => lo <= x <= hi) xs ->
  forall acc,
    acc + INR (length xs) * lo <= fold_left Rplus xs acc
                               <= acc + INR (length xs) * hi.
Proof.
  induction 1 as [| x xs Hx Hxs IH]; intros acc; cbn [fold_left length].
  - cbn. lra.
  - specialize (IH (acc + x)). rewrite S_INR. lra.
Qed.

Lemma mean_bounds (lo hi : R) (xs : list R) :
  xs <> [] -> Forall (fun x => lo <= x <= hi) xs -> lo <= Py.mean xs <= hi.
Proof.
  intros Hne Hxs. unfold Py.mean, Py.sum.
  pose proof (sum_from_bounds lo hi xs Hxs 0) as Hsum.
  assert (Hn : 0 < INR (length xs)).
  { apply lt_0_INR. destruct xs; [congruence | cbn; lia]. }
  split.
  - apply Rmult_le_reg_r with (INR (length xs)); [exact Hn |].
    unfold Rdiv. rewrite Rmult_assoc, Rinv_l by lra. lra.
  - apply Rmult_le_reg_r with (INR (length xs)); [exact Hn |].
    unfold Rdiv. rewrite Rmult_assoc, Rinv_l by lra. lra.
Qed.

Lemma sum_from_lower (lo : R) (xs : list R) :
  Forall (fun x => lo <= x) xs ->
  forall acc, acc + INR (length xs) * lo <= fold_left Rplus xs acc.
Proof.
  induction 1 as [| x xs Hx Hxs IH]; intros acc; cbn [fold_left length].
  - cbn. lra.
  - specialize (IH (acc + x)). rewrite S_INR. lra.
Qed.

Lemma mean_lower (lo : R) (xs : list R) :
  xs <> [] -> Forall (fun x => lo <= x) xs -> lo <= Py.mean xs.
Proof.
  intros Hne Hxs. unfold Py.mean, Py.sum.
  pose proof (sum_from_lower lo xs Hxs 0) as Hsum.
  assert (Hn : 0 < INR (length xs)).
  { apply lt_0_INR. destruct xs; [congruence | cbn; lia]. }
  apply Rmult_le_reg_r with (INR (length xs)); [exact Hn |].
  unfold Rdiv. rewrite Rmult_assoc, Rinv_l by lra. lra.
Qed.

Lemma average_or_none_bounds (lo hi : R) (xs : list R) (avg : R) :
  Forall (fun x => lo <= x <= hi) xs ->
  average_or_none xs = Some avg -> lo <= avg <= hi.
Proof.
  intros Hxs. unfold average_or_none.
  destruct xs as [| x xs']; [discriminate |]. intros [= <-].
  apply mean_bounds; [discriminate | exact Hxs].
Qed.

Lemma context_sensitivity_lower (ctx : filter_context) (s : R) :
  context_sensitivity ctx = Some s -> 0 <= s.
Proof.
  unfold context_sensitivity.
  destruct (fc_min_price ctx) as [lo |], (fc_max_price ctx) as [hi |];
    intros [= <-]; try lra.
  - pose proof (Rmin_r ((hi - lo) / platform_max) 1). lra.
  - pose proof (Rmin_r (hi / platform_max) 1).
    apply Rmin_glb; lra.
Qed.

Lemma context_sensitivity_upper (item : interaction * filter_context) (s : R) :
  ordered_bounds item -> context_sensitivity (snd item) = Some s -> s <= 1.
Proof.
  unfold ordered_bounds, context_sensitivity.
  destruct (fc_min_price (snd item)) as [lo |], (fc_max_price (snd item)) as [hi |];
    intros Hord [= <-]; try lra.
  - assert (0 <= Rmin ((hi - lo) / platform_max) 1).
    { apply Rmin_glb; [| lra]. unfold platform_max, Rdiv.
      apply Rmult_le_pos; lra. }
    lra.
  - pose proof (Rmin_l (8 / 10) (1 - Rmin (hi / platform_max) 1 + 2 / 10)). lra.
Qed.

Lemma price_signal_nonneg (interactions : list (option interaction)) (signal : R) :
  calculate_price_sensitivity_signal interactions = Some signal -> 0 <= signal.
Proof.
  intros Hsignal.
  unfold calculate_price_sensitivity_signal in Hsignal. cbv zeta in Hsignal.
  destruct (Nat.ltb _ _); [discriminate |].
  remember (extract_filter_interactions interactions) as data eqn:Hdata.
  clear Hdata.
  assert (Hpos : Forall (fun x => 0 <= x) (collect context_sensitivity data)).
  { unfold collect. apply Forall_flat_map. apply Forall_forall.
    intros item _. destruct (context_sensitivity (snd item)) as [s |] eqn:Hs;
      constructor; [| constructor]. eapply context_sensitivity_lower, Hs. }
  unfold average_or_none in Hsignal.
  destruct (collect context_sensitivity data) as [| x xs] eqn:Hxs;
    [discriminate |].
  injection Hsignal as <-. apply mean_lower; [discriminate | exact Hpos].
Qed.

Lemma price_signal_at_most_one (interactions : list (option interaction))
  (signal : R) :
  calculate_price_sensitivity_signal interactions = Some signal ->
  Forall ordered_bounds (extract_filter_interactions interactions) ->
  signal <= 1.
Proof.
  intros Hsignal Hord.
  unfold calculate_price_sensitivity_signal in Hsignal. cbv zeta in Hsignal.
  destruct (Nat.ltb _ _); [discriminate |].
  remember (extract_filter_interactions interactions) as data eqn:Hdata.
  clear Hdata.
  assert (Hup : Forall (fun x => 0 <= x <= 1) (collect context_sensitivity data)).
  { unfold collect. apply Forall_flat_map.
    eapply Forall_impl; [| exact Hord]. cbn beta. intros item Hitem.
    destruct (context_sensitivity (snd item)) as [s |] eqn:Hs;
      constructor; [| constructor].
    split; [eapply context_sensitivity_lower, Hs
           | eapply context_sensitivity_upper; eassumption]. }
  apply (average_or_none_bounds _ _ _ _ Hup Hsignal).
Qed.

(** The price-sensitivity signal is never negative, and it is at most 1 as
    long as no filter event has its two price bounds in the wrong order (a
    range with [min_price > max_price] contributes more than 1). *)
Theorem price_sensitivity_signal_bounds (interactions : list (option interaction))
  (signal : R)
  (Hsignal : calculate_price_sensitivity_signal interactions = Some signal) :
  0 <= signal
  /\ (Forall ordered_bounds (extract_filter_interactions interactions) ->
      signal <= 1).
Proof.
  split.
  - eapply price_signal_nonneg, Hsignal.
  - intros Hord. eapply price_signal_at_most_one; eassumption.
Qed.

Lemma ranged_events_signal :
  calculate_price_sensitivity_signal ranged_events = Some (9 / 10).
Proof.
  unfold calculate_price_sensitivity_signal, ranged_events.
  cbn [extract_filter_interactions i_metadata md_filter_context truthy_context
       fc_min_price fc_max_price fc_category_id length].
  change (Nat.ltb 3 Settings.filter_min_samples) with false. cbv iota zeta.
  unfold collect, average_or_none, Py.mean, Py.sum, context_sensitivity, platform_max.
  cbn [flat_map snd fc_min_price fc_max_price app fold_left length].
  settle_cmp. f_equal. simpl INR. lra.
Qed.

Lemma price_sensitivity_signal_bounds_witness :
  calculate_price_sensitivity_signal ranged_events = Some (9 / 10)
  /\ 0 <= 9 / 10.
Proof.
  split; [exact ranged_events_signal |].
  exact (proj1 (price_sensitivity_signal_bounds ranged_events (9 / 10)
                  ranged_events_signal)).
Defined.

End FilterPrices.

(** * Further properties of the scoring signals *)

Section CategoryAffinity.











End CategoryAffinity.

Section PersonalityBoost.

Lemma personality_score_lower (t : PersonalityType) (p : product_row) :
  1 / 2 <= personality_score_of t p.
Proof.
  unfold personality_score_of, bonus. cbv zeta.
  destruct t;
    repeat match goal with
           | |- context [if ?b then _ else _] => destruct b
           end; lra.
Qed.

(** The personality boost is a dictionary over non-zero product ids whose
    values all lie between the base score 0.5 and the cap 1. *)
Theorem personality_boost_range (t : PersonalityType)
  (products : list (option product_row)) :
  NoDup (map fst (_get_personality_product_boost t products))
  /\ Forall (fun kb => fst kb <> 0%Z /\ 1 / 2 <= snd kb <= 1)
       (_get_personality_product_boost t products).
Proof.
  destruct (personality_boost_well_keyed t products) as [Hnd Hnz].
  split; [exact Hnd |].
  assert (Hv : Forall (fun kb => 1 / 2 <= snd kb <= 1)
                 (_get_personality_product_boost t products)).
  { unfold _get_personality_product_boost.
    apply fold_left_invariant; [| constructor].
    intros acc [p |] Hacc; [| exact Hacc].
    destruct (id_first p) as [k |]; [| exact Hacc].
    destruct (Py.truthy_int k); [| exact Hacc].
    apply (upsert_values (fun v => 1 / 2 <= v <= 1)); [| exact Hacc].
    intros _ _. pose proof (personality_score_lower t p).
    unfold Rmin. destruct (Rle_dec (personality_score_of t p) 1); lra. }
  unfold keys_satisfy in Hnz. rewrite Forall_forall in *.
  intros kb Hin. split; [exact (Hnz kb Hin) | exact (Hv kb Hin)].
Qed.

End PersonalityBoost.

Section SimilarProducts.

Lemma similar_item_facts (product : product_row) (item : SimilarItem) :
  similar_item_of product = Some item ->
  product_id_first product = Some (similar_product_id item)
  /\ 0 <= similar_score item <= 1.
Proof.
  unfold similar_item_of. destruct (product_id_first product) as [k |]; [| discriminate].
  cbv zeta.
  destruct (Py.leb 0 _) eqn:Hlo; [| discriminate].
  destruct (Py.leb _ 1) eqn:Hhi; [| discriminate].
  cbn [andb]. intros [= <-]. cbn [similar_product_id similar_score].
  apply leb_spec in Hlo, Hhi. auto.
Qed.

Lemma collect_similar_facts (pid : Z) (window : list product_row) :
  forall items,
    collect_similar pid window = Some items ->
    Forall (fun it => similar_product_id it <> pid /\ 0 <= similar_score it <= 1) items
    /\ (length items <= length window)%nat.
Proof.
  induction window as [| product rest IH]; cbn [collect_similar]; intros items Hitems.
  - injection Hitems as <-. split; [constructor | reflexivity].
  - destruct (opt_eqb (product_id_first product) (Some pid)) eqn:Heq.
    + destruct (IH items Hitems) as [Hall Hlen]. split; [exact Hall | cbn; lia].
    + destruct (similar_item_of product) as [item |] eqn:Hitem; [| discriminate].
      destruct (collect_similar pid rest) as [items' |]; [| discriminate].
      injection Hitems as <-. destruct (IH items' eq_refl) as [Hall Hlen].
      destruct (similar_item_facts product item Hitem) as [Hid Hscore].
      split; [| cbn; lia].
      constructor; [| exact Hall]. split; [| exact Hscore].
      intros Hpid. rewrite Hid, Hpid in Heq.
      cbn in Heq. rewrite Z.eqb_refl in Heq. discriminate.
Qed.

Lemma take_length {A : Type} (k : Z) (xs : list A) :
  (length (Py.take k xs) <= length xs)%nat
  /\ ((0 <= k)%Z -> (Z.of_nat (length (Py.take k xs)) <= k)%Z).
Proof.
  unfold Py.take. destruct (Z.leb_spec 0 k) as [Hk | Hk].
  - rewrite length_firstn. split; lia.
  - rewrite length_firstn. split; lia.
Qed.

(** When [get_similar_products] returns, no returned item is the source
    product, every score lies in [0, 1], and the list is no longer than the
    search result, nor than a non-negative [limit]. *)
Theorem similar_products_valid (product_id : Z) (similar_products : list product_row)
  (limit : Z) (items : list SimilarItem)
  (Hitems : get_similar_products product_id similar_products limit = Some items) :
  Forall (fun it => similar_product_id it <> product_id /\ 0 <= similar_score it <= 1)
    items
  /\ (length items <= length similar_products)%nat
  /\ ((0 <= limit)%Z -> (Z.of_nat (length items) <= limit)%Z).
Proof.
  unfold get_similar_products in Hitems.
  destruct (collect_similar_facts _ _ _ Hitems) as [Hall Hlen].
  destruct (take_length limit similar_products) as [Hle Hlim].
  split; [exact Hall |]. split; [lia |]. intros Hl. specialize (Hlim Hl). lia.
Qed.

Lemma similar_rows_result :
  get_similar_products 1 [similar_row 1 1; similar_row 2 (8 / 10); similar_row 3 (6 / 10)] 2
  = Some [ {| similar_product_id := 2; similar_score := 8 / 10;
              similar_category_id := None; similar_price := None |} ].
Proof.
  run_engine. reflexivity.
Qed.

Lemma similar_products_valid_witness :
  Forall (fun it => similar_product_id it <> 1%Z /\ 0 <= similar_score it <= 1)
    [ {| similar_product_id := 2; similar_score := 8 / 10;
         similar_category_id := None; similar_price := None |} ].
Proof.
  exact (proj1 (similar_products_valid 1
                  [similar_row 1 1; similar_row 2 (8 / 10); similar_row 3 (6 / 10)] 2
                  _ similar_rows_result)).
Defined.

End SimilarProducts.

Section Collaborative.

Lemma product_set_In (purchases : list (option bought_row)) (k : Z) :
  In (Some k) (product_set purchases) <-> bought purchases k.
Proof.
  unfold product_set, bought. rewrite nodup_In, in_flat_map. split.
  - intros ([p |] & Hin & Hk); [| destruct Hk].
    destruct Hk as [Hk | []]. eauto.
  - intros (p & Hin & Hk). exists (Some p). split; [exact Hin |]. left. exact Hk.
Qed.

Lemma product_set_empty (purchases : list (option bought_row)) :
  (forall p, ~ In (Some p) purchases) -> product_set purchases = [].
Proof.
  intros Hnone. unfold product_set.
  assert (H : flat_map (fun p => match p with Some p => [bought_id p] | None => [] end)
                purchases = []).
  { induction purchases as [| [p |] rest IH]; cbn; [reflexivity | |].
    - exfalso. apply (Hnone p). now left.
    - apply IH. intros p Hin. apply (Hnone p). now right. }
  rewrite H. reflexivity.
Qed.

Lemma jaccard_empty (other_products : list (option Z)) :
  jaccard [] other_products = 0.
Proof.
  unfold jaccard. cbn [filter length INR]. destruct (Nat.ltb _ _); [| reflexivity].
  unfold Rdiv. apply Rmult_0_l.
Qed.

(** What the loops of [calculate_collaborative_scores] maintain. *)
Lemma collaborative_invariant (user_products : list (option Z))
  (similar_users_purchases : list (Z * list (option bought_row))) :
  let acc := fold_left (collaborative_step user_products) similar_users_purchases ([], 0) in
  well_keyed (fst acc)
  /\ Forall (fun ps => ~ In (Some (fst ps)) user_products /\ 0 < snd ps) (fst acc)
  /\ 0 <= snd acc.
Proof.
  cbv zeta. apply fold_left_invariant.
  2: { split; [split; constructor | split; [constructor | cbn; lra]]. }
  intros acc [uid purchases] (Hk & Hv & Hw). unfold collaborative_step. cbv zeta.
  cbn [snd]. destruct (Py.ltb (1 / 10) _) eqn:Hsim; [| auto].
  apply ltb_spec in Hsim. cbn [fst snd].
  split; [| split; [| lra]].
  - apply fold_left_invariant; [| exact Hk].
    intros counts [p |] Hc; [| exact Hc].
    destruct (bought_id p) as [k |]; [| exact Hc].
    destruct (Py.truthy_int k) eqn:Hkz; [| exact Hc].
    destruct (negb _); [| exact Hc]. cbn [andb].
    apply upsert_well_keyed; [exact Hc | now apply truthy_nonzero].
  - apply fold_left_invariant; [| exact Hv].
    intros counts [p |] Hc; [| exact Hc].
    destruct (bought_id p) as [k |]; [| exact Hc].
    destruct (Py.truthy_int k) eqn:Hkz; [| exact Hc].
    destruct (opt_mem (Some k) user_products) eqn:Hmem; [exact Hc |]. cbn [negb andb].
    assert (Hnot : ~ In (Some k) user_products).
    { intros Hin. apply opt_mem_In in Hin. congruence. }
    clear Hv. induction Hc as [| [k' v] counts [Hk' Hv'] Hc IH]; cbn [Py.upsert].
    + constructor; [| constructor]. cbn [fst snd default]. split; [exact Hnot | lra].
    + destruct (Z.eqb k k') eqn:Hkk; constructor; auto.
      cbn [fst snd default] in *. split; [exact Hk' | lra].
Qed.

(** The collaborative scores form a dictionary over non-zero product ids;
    no scored product is one the user bought, every score is positive, and a
    user without purchase rows gets no collaborative score at all. *)
Theorem collaborative_scores_unowned (user_id : Z)
  (user_purchases : list (option bought_row))
  (similar_users_purchases : list (Z * list (option bought_row))) :
  NoDup (map fst (calculate_collaborative_scores user_id user_purchases
                    similar_users_purchases))
  /\ Forall (fun ps => fst ps <> 0%Z /\ ~ bought user_purchases (fst ps) /\ 0 < snd ps)
       (calculate_collaborative_scores user_id user_purchases similar_users_purchases)
  /\ ((forall p, ~ In (Some p) user_purchases) ->
      calculate_collaborative_scores user_id user_purchases similar_users_purchases = []).
Proof.
  unfold calculate_collaborative_scores. cbv zeta.
  destruct (collaborative_invariant (product_set user_purchases) similar_users_purchases)
    as ([Hnd Hnz] & Hv & Hw).
  cbv zeta in Hnd, Hnz, Hv, Hw.
  set (acc := fold_left _ similar_users_purchases ([], 0)) in *.
  split; [| split].
  - destruct (Py.ltb 0 (snd acc)); [| constructor].
    rewrite map_map. cbn [fst]. exact Hnd.
  - destruct (Py.ltb 0 (snd acc)) eqn:Htotal; [| constructor].
    apply ltb_spec in Htotal. unfold keys_satisfy in Hnz.
    rewrite Forall_forall in *. intros ps Hin.
    apply in_map_iff in Hin. destruct Hin as (kv & <- & Hin). cbn [fst snd].
    destruct (Hv kv Hin) as [Hown Hpos].
    split; [exact (Hnz kv Hin) |]. split.
    + intros Hb. apply Hown. now apply product_set_In.
    + apply Rdiv_lt_0_compat; assumption.
  - intros Hnone. subst acc. rewrite (product_set_empty _ Hnone).
    assert (H : fold_left (collaborative_step []) similar_users_purchases ([], 0)
                = ([], 0)).
    { apply fold_left_invariant; [| reflexivity].
      intros acc other ->. unfold collaborative_step. cbv zeta.
      rewrite jaccard_empty. rewrite ltb_false by lra. reflexivity. }
    rewrite H. cbn [snd]. rewrite ltb_false by lra. reflexivity.
Qed.

End Collaborative.

Section CollaborativeBound.

Lemma upsert_entries {V : Type} (P P' : Z -> V -> Prop) (k : Z) (f : option V -> V)
  (d : list (Z * V)) :
  (forall k' v, P k' v -> P' k' v) ->
  (forall o, (forall v, o = Some v -> P k v) -> P' k (f o)) ->
  Forall (fun kv => P (fst kv) (snd kv)) d ->
  Forall (fun kv => P' (fst kv) (snd kv)) (Py.upsert Z.eqb k f d).
Proof.
  intros Hkeep Hnew Hd. induction Hd as [| [k' v] d Hv Hd IH]; cbn [Py.upsert].
  - constructor; [| constructor]. apply Hnew. discriminate.
  - cbn [fst snd] in Hv. destruct (Z.eqb k k') eqn:Hk.
    + apply Z.eqb_eq in Hk. subst k'. constructor.
      * cbn [fst snd]. apply Hnew. intros v' [= <-]. exact Hv.
      * eapply Forall_impl; [| exact Hd]. intros kv. apply Hkeep.
    + constructor; [cbn [fst snd]; now apply Hkeep | exact IH].
Qed.

(** One similar user with pairwise distinct purchases raises a count by at
    most that user's similarity. *)
Lemma collaborative_counts_bound (user_products : list (option Z)) (similarity total : R)
  (purchases : list (option bought_row)) :
  0 <= total -> 0 <= similarity ->
  NoDup (bought_ids purchases) ->
  forall counts : list (Z * R),
    Forall (fun kv => snd kv <= total + similarity
                      /\ (In (fst kv) (bought_ids purchases) -> snd kv <= total))
      counts ->
    Forall (fun kv => snd kv <= total + similarity)
      (fold_left
         (fun counts purchase =>
            match purchase with
            | Some purchase =>
                match bought_id purchase with
                | Some product_id =>
                    if Py.truthy_int product_id
                       && negb (opt_mem (Some product_id) user_products)
                    then Py.upsert Z.eqb product_id
                           (fun o => default 0 o + similarity) counts
                    else counts
                | None => counts
                end
            | None => counts
            end)
         purchases counts).
Proof.
  intros Ht Hs. induction purchases as [| p rest IH]; intros Hnd counts Hc;
    cbn [fold_left].
  - eapply Forall_impl; [| exact Hc]. intros kv [H _]. exact H.
  - assert (Hsplit : exists front, bought_ids (p :: rest) = front ++ bought_ids rest
                                   /\ front = bought_ids [p]).
    { eexists. split; [reflexivity |]. unfold bought_ids. cbn [flat_map].
      now rewrite app_nil_r. }
    destruct Hsplit as (front & Hsplit & Hfront).
    assert (Hnd' : NoDup (bought_ids rest)).
    { rewrite Hsplit in Hnd. now apply NoDup_app_remove_l in Hnd. }
    assert (Hweak : Forall (fun kv => snd kv <= total + similarity
                                      /\ (In (fst kv) (bought_ids rest) ->
                                          snd kv <= total)) counts).
    { eapply Forall_impl; [| exact Hc]. intros kv [H1 H2]. split; [exact H1 |].
      intros Hin. apply H2. rewrite Hsplit. apply in_or_app. now right. }
    destruct p as [p |]; [| now apply IH].
    destruct (bought_id p) as [k |] eqn:Hk; [| now apply IH].
    destruct (Py.truthy_int k && negb (opt_mem (Some k) user_products));
      [| now apply IH].
    assert (Hfront' : front = [k]).
    { rewrite Hfront. unfold bought_ids. cbn [flat_map]. now rewrite Hk. }
    subst front. rewrite Hfront' in Hsplit. cbn [app] in Hsplit.
    rewrite Hsplit in Hnd, Hc.
    apply NoDup_cons_iff in Hnd. destruct Hnd as [Hfresh _].
    apply IH; [exact Hnd' |].
    apply (upsert_entries
             (fun k' v => v <= total + similarity
                          /\ (In k' (k :: bought_ids rest) -> v <= total))
             (fun k' v => v <= total + similarity
                          /\ (In k' (bought_ids rest) -> v <= total)));
      [| | exact Hc].
    + intros k' v [H1 H2]. split; [exact H1 |]. intros Hin. apply H2. now right.
    + intros o Ho. split; [| intros Hin; contradiction].
      destruct o as [v |]; cbn [default]; [| lra].
      destruct (Ho v eq_refl) as [_ Hv].
      assert (v <= total); [| lra].
      apply Hv. now left.
Qed.

Lemma jaccard_nonneg (a b : list (option Z)) : 0 <= jaccard a b.
Proof.
  unfold jaccard. destruct (Nat.ltb _ _) eqn:Hu; [| lra].
  apply Nat.ltb_lt in Hu. apply Rmult_le_pos; [apply pos_INR |].
  left. apply Rinv_0_lt_compat. now apply lt_0_INR.
Qed.

(** When no similar user's purchase list names a product twice, no
    collaborative score exceeds 1: each user adds at most their similarity
    to a product, and the scores are divided by the sum of the
    similarities. *)
Theorem collaborative_scores_at_most_one (user_id : Z)
  (user_purchases : list (option bought_row))
  (similar_users_purchases : list (Z * list (option bought_row)))
  (Hdistinct : Forall (fun other => NoDup (bought_ids (snd other)))
                 similar_users_purchases) :
  Forall (fun ps => snd ps <= 1)
    (calculate_collaborative_scores user_id user_purchases similar_users_purchases).
Proof.
  unfold calculate_collaborative_scores. cbv zeta.
  assert (Hinv : forall acc : list (Z * R) * R,
             0 <= snd acc /\ Forall (fun kv => snd kv <= snd acc) (fst acc) ->
             let acc' := fold_left (collaborative_step (product_set user_purchases))
                           similar_users_purchases acc in
             0 <= snd acc' /\ Forall (fun kv => snd kv <= snd acc') (fst acc')).
  { induction Hdistinct as [| [uid purchases] others Hnd Hothers IH];
      intros acc Hacc; cbn [fold_left]; [exact Hacc |].
    apply IH. destruct Hacc as [Ht Hc]. unfold collaborative_step. cbv zeta.
    cbn [snd] in *.
    pose proof (jaccard_nonneg (product_set user_purchases) (product_set purchases))
      as Hj.
    destruct (Py.ltb (1 / 10) _); [| now split]. cbn [fst snd].
    split; [lra |].
    apply collaborative_counts_bound; [exact Ht | exact Hj | exact Hnd |].
    eapply Forall_impl; [| exact Hc]. cbn beta. intros kv Hkv. split; [lra | auto]. }
  destruct (Hinv ([], 0)) as [Ht Hc]; [split; [cbn; lra | constructor] |].
  cbv zeta in Ht, Hc.
  set (acc := fold_left _ similar_users_purchases ([], 0)) in *.
  destruct (Py.ltb 0 (snd acc)) eqn:Htotal; [| constructor].
  apply ltb_spec in Htotal. rewrite Forall_forall in *. intros ps Hin.
  apply in_map_iff in Hin. destruct Hin as (kv & <- & Hin). cbn [snd].
  specialize (Hc kv Hin). cbn beta in Hc.
  apply Rmult_le_reg_r with (snd acc); [exact Htotal |].
  unfold Rdiv. rewrite Rmult_assoc, Rinv_l by lra. lra.
Qed.

Lemma collaborative_scores_at_most_one_witness :
  Forall (fun ps => snd ps <= 1)
    (calculate_collaborative_scores 1 [bought_of 1; bought_of 2]
       [(2%Z, [bought_of 1; bought_of 3]); (3%Z, [bought_of 2; bought_of 3; bought_of 4])]).
Proof.
  apply (collaborative_scores_at_most_one 1 [bought_of 1; bought_of 2]
           [(2%Z, [bought_of 1; bought_of 3]);
            (3%Z, [bought_of 2; bought_of 3; bought_of 4])]).
  repeat constructor; cbn; intuition lia.
Defined.

End CollaborativeBound.

Section AlphaZero.

Lemma hybrid_scores_without_personality (now : Z) (rq : request)
  (up : option profile) :
  hybrid_scores now (with_profile up rq) 0 = hybrid_scores now rq 0.
Proof.
  unfold hybrid_scores, affinity_of, profile_type. cbv zeta.
  cbn [with_profile user_id limit user_profile purchased_product_ids wishlist_ids
       viewed_ids reviews collaborative_scores content_similar popular_products
       all_products purchases wishlist views negative_feedback_ids
       session_product_ids session_products alpha all_interactions].
  rewrite (ltb_false 0 0) by lra.
  destruct up as [[[t |]] |], (user_profile rq) as [[[t' |]] |]; reflexivity.
Qed.

(** With a supplied [alpha] of 0 or less, the personality profile has no
    influence: whatever profile document is passed, the recommendations,
    the strategy and the reported alpha are the same. *)
Theorem profile_ignored_at_alpha_zero (now : Z) (rq : request)
  (up : option profile) (a : R)
  (Halpha : alpha rq = Some a) (Ha : a <= 0) :
  get_recommendations now (with_profile up rq) = get_recommendations now rq.
Proof.
  assert (Hc : forall r, alpha r = Some a -> choose_alpha r = (0, false)).
  { intros r Hr. unfold choose_alpha. rewrite Hr. f_equal.
    rewrite (Rmin_right 1 a) by lra. now rewrite Rmax_left by lra. }
  unfold get_recommendations, product_scores_of. cbv zeta.
  rewrite (Hc rq Halpha), (Hc (with_profile up rq) Halpha). cbn [fst snd].
  rewrite hybrid_scores_without_personality.
  reflexivity.
Qed.

Lemma profile_ignored_at_alpha_zero_witness :
  get_recommendations 0
    (with_profile (Some {| personality_type := Some BARGAIN_HUNTER |})
       (with_alpha (Some 0) purchased_favourite_request))
  = get_recommendations 0 (with_alpha (Some 0) purchased_favourite_request).
Proof.
  apply (profile_ignored_at_alpha_zero 0
           (with_alpha (Some 0) purchased_favourite_request) _ 0);
    [reflexivity | lra].
Defined.

End AlphaZero.

(** * The offline evaluation *)

Section Evaluation.
Import Evaluator.

Lemma unit_fraction (x y : R) : 0 <= x <= y -> 0 < y -> 0 <= x / y <= 1.
Proof.
  intros [Hx Hxy] Hy. unfold Rdiv. split.
  - apply Rmult_le_pos; [exact Hx |]. left. now apply Rinv_0_lt_compat.
  - apply Rmult_le_reg_r with y; [exact Hy |].
    rewrite Rmult_assoc, Rinv_l by lra. lra.
Qed.

Lemma nodup_length_le (l : list Z) : (length (nodup Z.eq_dec l) <= length l)%nat.
Proof.
  apply NoDup_incl_length; [apply NoDup_nodup |].
  intros x Hx. now apply nodup_In in Hx.
Qed.

Lemma filter_length_bound {A : Type} (f : A -> bool) (l : list A) :
  (length (filter f l) <= length l)%nat.
Proof.
  induction l as [| x l IH]; cbn; [lia |]. destruct (f x); cbn; lia.
Qed.

Lemma hits_within_k (rec_ids holdout_ids : list Z) (k : Z) :
  (0 < k)%Z -> INR (hits_at rec_ids holdout_ids k) <= IZR k.
Proof.
  intros Hk. unfold hits_at. rewrite INR_IZR_INZ. apply IZR_le.
  pose proof (filter_length_bound (fun x => Py.mem x holdout_ids)
                (nodup Z.eq_dec (Py.take k rec_ids))).
  pose proof (nodup_length_le (Py.take k rec_ids)).
  destruct (take_length k rec_ids) as [_ Htake]. specialize (Htake ltac:(lia)). lia.
Qed.

Lemma hits_within_holdout (rec_ids holdout_ids : list Z) (k : Z) :
  (hits_at rec_ids holdout_ids k <= length (nodup Z.eq_dec holdout_ids))%nat.
Proof.
  unfold hits_at. apply NoDup_incl_length.
  - apply NoDup_filter, NoDup_nodup.
  - intros x Hx. apply filter_In in Hx. destruct Hx as [_ Hx].
    apply nodup_In. now apply mem_In.
Qed.

(** Whatever the recommendations, the held-out products and [k], the
    precision, the recall and the F1 score all lie in [0, 1]; for [k] of 0 or
    less the precision and F1 are 0, and without held-out products the recall
    and F1 are 0. *)
Theorem metrics_in_unit_interval (rec_ids holdout_ids : list Z) (k : Z) :
  0 <= precision (metrics_at rec_ids holdout_ids k) <= 1
  /\ 0 <= recall (metrics_at rec_ids holdout_ids k) <= 1
  /\ 0 <= f1 (metrics_at rec_ids holdout_ids k) <= 1
  /\ ((k <= 0)%Z ->
      precision (metrics_at rec_ids holdout_ids k) = 0
      /\ f1 (metrics_at rec_ids holdout_ids k) = 0)
  /\ (holdout_ids = [] ->
      recall (metrics_at rec_ids holdout_ids k) = 0
      /\ f1 (metrics_at rec_ids holdout_ids k) = 0).
Proof.
  unfold metrics_at. cbv zeta. cbn [precision recall f1].
  set (p := if (0 <? k)%Z then _ else 0).
  set (r := if Nat.ltb 0 _ then _ else 0).
  assert (Hp : 0 <= p <= 1).
  { subst p. destruct (Z.ltb_spec 0 k) as [Hk | Hk]; [| lra].
    apply unit_fraction; [| now apply IZR_lt].
    split; [apply pos_INR | now apply hits_within_k]. }
  assert (Hr : 0 <= r <= 1).
  { subst r. destruct (Nat.ltb_spec 0 (length (nodup Z.eq_dec holdout_ids)))
      as [Hn | Hn]; [| lra].
    apply unit_fraction; [| now apply lt_0_INR].
    split; [apply pos_INR | apply le_INR, hits_within_holdout]. }
  assert (Hzero : p = 0 \/ r = 0 ->
                  (if Py.ltb 0 (p + r) then 2 * p * r / (p + r) else 0) = 0).
  { intros Hpr. destruct (Py.ltb 0 (p + r)); [| reflexivity].
    destruct Hpr as [-> | ->]; unfold Rdiv; ring. }
  split; [exact Hp |]. split; [exact Hr |]. split; [| split].
  - destruct (Py.ltb 0 (p + r)) eqn:Hs; [| lra].
    apply ltb_spec in Hs. apply unit_fraction; [nra | exact Hs].
  - intros Hk.
    assert (Hp0 : p = 0).
    { subst p. now rewrite (proj2 (Z.ltb_ge 0 k)) by lia. }
    split; [exact Hp0 | apply Hzero; now left].
  - intros ->.
    assert (Hr0 : r = 0) by (subst r; reflexivity).
    split; [exact Hr0 | apply Hzero; now right].
Qed.







End Evaluation.

(** * The personality dimensions *)

Section Dimensions.
Import PersonalityClassifier.

Lemma clamp_unit (x : R) : 0 <= Rmax 0 (Rmin 1 x) <= 1.
Proof. unfold Rmax, Rmin. repeat destruct (Rle_dec _ _); lra. Qed.

Lemma price_sensitivity_range (purchases : list purchase) (stats : stats_row) :
  0 <= _calculate_price_sensitivity purchases stats <= 1.
Proof.
  unfold _calculate_price_sensitivity.
  destruct purchases; [lra |].
  destruct (avg_item_price stats); [| lra].
  destruct (Py.truthy_float r); [| lra]. cbv zeta. apply clamp_unit.
Qed.

Lemma blend_range (p : R) (interactions : list interaction_row) :
  0 <= p <= 1 -> 0 <= _blend_price_sensitivity_with_filters p interactions <= 1.
Proof.
  intros Hp. unfold _blend_price_sensitivity_with_filters. cbv zeta.
  destruct (FilterAnalyzer.calculate_price_sensitivity_signal _);
    [apply clamp_unit | exact Hp].
Qed.

Lemma exploration_range (purchases : list purchase) (stats : stats_row) :
  (forall n, unique_categories stats = Some n -> (0 <= n)%Z) ->
  0 <= _calculate_exploration_tendency purchases stats <= 1.
Proof.
  intros Hcats. unfold _calculate_exploration_tendency.
  destruct purchases as [| p ps]; [lra |]. cbv zeta.
  set (uc := match unique_categories stats with Some n => n | None => 1%Z end).
  assert (Huc : 0 <= IZR uc).
  { apply IZR_le. subst uc. destruct (unique_categories stats) as [n |]; [auto | lia]. }
  assert (Hd : 0 <= Rmin (IZR uc / 10) 1 <= 1).
  { unfold Rmin. destruct (Rle_dec _ _); lra. }
  set (ids := map bought_product (p :: ps)).
  assert (Hn : 0 <= INR (length (nodup option_Z_eq_dec ids)) / INR (length (p :: ps)) <= 1).
  { apply unit_fraction; [| apply lt_0_INR; cbn; lia].
    split; [apply pos_INR |]. apply le_INR.
    replace (length (p :: ps)) with (length ids) by apply length_map.
    apply NoDup_incl_length; [apply NoDup_nodup |].
    intros x Hx. now apply nodup_In in Hx. }
  lra.
Qed.

Lemma sentiment_range (reviews : list review) :
  Forall (fun r => forall x, review_rating r = Some x -> 1 <= x <= 5) reviews ->
  0 <= _calculate_sentiment_tendency reviews <= 1.
Proof.
  intros Hratings. unfold _calculate_sentiment_tendency.
  destruct reviews as [| r rs] eqn:Hreviews; [lra |]. rewrite <- Hreviews in *.
  cbv zeta.
  set (ratings := map (fun r => match review_rating r with Some x => x | None => 3 end)
                      reviews).
  assert (Hmean : 1 <= Py.mean ratings <= 5).
  { apply mean_bounds.
    - subst ratings. rewrite Hreviews. discriminate.
    - subst ratings. apply Forall_map. eapply Forall_impl; [| exact Hratings].
      cbn beta. intros r' Hr'. destruct (review_rating r') as [x |]; [auto | lra]. }
  unfold Py.mean in Hmean. subst ratings. rewrite length_map in Hmean. lra.
Qed.

Lemma frequency_bucket_range (x : R) : 1 / 10 <= frequency_bucket x <= 1.
Proof.
  unfold frequency_bucket.
  repeat match goal with |- context [Py.leb ?a ?b] => destruct (Py.leb a b) end; lra.
Qed.

Lemma frequency_bucket_antitone (x y : R) :
  x <= y -> frequency_bucket y <= frequency_bucket x.
Proof.
  intros Hxy. unfold frequency_bucket, Py.leb.
  repeat destruct (Rle_dec _ _); lra.
Qed.

Lemma purchase_frequency_range (stats : purchase_stats) (f : R) :
  _calculate_purchase_frequency stats = Some f -> 1 / 10 <= f <= 1.
Proof.
  unfold _calculate_purchase_frequency.
  destruct (first_purchase stats) as [first |]; [| intros [= <-]; lra].
  destruct (last_purchase stats) as [last |]; [| intros [= <-]; lra].
  destruct (total_orders stats <? 2)%Z; [intros [= <-]; lra |].
  destruct first as [f0 |]; [| discriminate].
  destruct last as [l0 |]; [| discriminate]. cbv zeta.
  destruct (_ <=? 0)%Z; intros [= <-]; [lra | apply frequency_bucket_range].
Qed.

Lemma decision_speed_range (interactions : list interaction_row)
  (purchases : list purchase) :
  1 / 10 <= _calculate_decision_speed interactions purchases <= 1.
Proof.
  unfold _calculate_decision_speed.
  destruct interactions; [lra |].
  destruct (view_times _); [lra |]. unfold speed_bucket.
  repeat match goal with |- context [Py.leb ?a ?b] => destruct (Py.leb a b) end; lra.
Qed.

(** When the reviews carry ratings between 1 and 5 and the number of
    distinct categories is not negative, every dimension that
    [calculate_dimensions] returns is present and lies in [0, 1]. *)
Theorem dimensions_in_unit_range (user_id : Z) (purchases : list purchase)
  (reviews : list review) (interactions : list interaction_row) (stats : stats_row)
  (dims : dimensions)
  (Hdims : calculate_dimensions user_id purchases reviews interactions stats
           = Some dims)
  (Hratings : Forall (fun r => forall x, review_rating r = Some x -> 1 <= x <= 5)
                reviews)
  (Hcats : forall n, unique_categories stats = Some n -> (0 <= n)%Z) :
  forall d, exists v, dims d = Some v /\ 0 <= v <= 1.
Proof.
  unfold calculate_dimensions in Hdims. cbv zeta in Hdims.
  destruct (_calculate_purchase_frequency (frequency_stats stats)) as [f |] eqn:Hf;
    [| discriminate].
  injection Hdims as <-. intros d. eexists. split; [reflexivity |].
  pose proof (blend_range _ interactions (price_sensitivity_range purchases stats)).
  pose proof (exploration_range purchases stats Hcats).
  pose proof (sentiment_range reviews Hratings).
  pose proof (purchase_frequency_range _ _ Hf).
  pose proof (decision_speed_range interactions purchases).
  destruct d; cbn [mk_profile]; lra.
Qed.

Lemma dimensions_in_unit_range_witness :
  exists v, example_user_dimensions sentiment_tendency = Some v /\ 0 <= v <= 1.
Proof.
  apply (dimensions_in_unit_range 1 [example_purchase] [example_review] []
           example_stats example_user_dimensions).
  - reflexivity.
  - constructor; [| constructor]. intros x [= <-]. lra.
  - intros n [= <-]. lia.
Defined.

(** Between the same two parsed dates, a user with more orders (at least
    two) never gets a lower purchase-frequency score. *)
Theorem more_orders_never_less_frequent (first last n1 n2 : Z)
  (Hn1 : (2 <= n1)%Z) (Hn : (n1 <= n2)%Z) :
  exists f1 f2,
    _calculate_purchase_frequency (orders_between first last n1) = Some f1
    /\ _calculate_purchase_frequency (orders_between first last n2) = Some f2
    /\ f1 <= f2.
Proof.
  unfold _calculate_purchase_frequency, orders_between.
  cbn [first_purchase last_purchase total_orders].
  rewrite (proj2 (Z.ltb_ge n1 2)) by lia. rewrite (proj2 (Z.ltb_ge n2 2)) by lia.
  cbv zeta.
  destruct (Z.leb_spec ((last - first) / us_per_day) 0) as [Hd | Hd].
  - exists (5 / 10), (5 / 10). repeat split; lra.
  - eexists _, _. split; [reflexivity |]. split; [reflexivity |].
    apply frequency_bucket_antitone.
    assert (Hdays : 0 < IZR ((last - first) / us_per_day)) by now apply IZR_lt.
    assert (H1 : 0 < IZR (n1 - 1)) by (apply IZR_lt; lia).
    assert (H2 : IZR (n1 - 1) <= IZR (n2 - 1)) by (apply IZR_le; lia).
    unfold Rdiv. apply Rmult_le_compat_l; [lra |].
    apply Rinv_le_contravar; assumption.
Qed.

Lemma more_orders_never_less_frequent_witness :
  exists f1 f2,
    _calculate_purchase_frequency (orders_between 0 (60 * us_per_day) 3) = Some f1
    /\ _calculate_purchase_frequency (orders_between 0 (60 * us_per_day) 7) = Some f2
    /\ f1 <= f2.
Proof.
  apply (more_orders_never_less_frequent 0 (60 * us_per_day) 3 7); lia.
Defined.

Lemma profiles_in_unit_range (t : PersonalityType) (p : dimension -> R) (d : dimension) :
  In (t, p) PERSONALITY_PROFILES -> 0 <= p d <= 1.
Proof.
  unfold PERSONALITY_PROFILES. cbn [In]. intros H.
  repeat (destruct H as [H | H];
          [injection H as _ <-; destruct d; cbn [mk_profile]; lra |]).
  destruct H.
Qed.

Lemma square_of_unit_difference (u p : R) :
  0 <= u <= 1 -> 0 <= p <= 1 -> (u - p) ^ 2 <= 1.
Proof. intros Hu Hp. nra. Qed.

Lemma distance_to_practical_shopper (dims : dimensions) :
  (forall d, 0 <= get_dimension dims d <= 1) ->
  weighted_distance dims (mk_profile (6/10) (4/10) (5/10) (3/10) (5/10)) <= 59 / 100.
Proof.
  intros Hrange. unfold weighted_distance. cbn [mk_profile].
  pose proof (Hrange price_sensitivity) as H1.
  pose proof (Hrange exploration_tendency) as H2.
  pose proof (Hrange sentiment_tendency) as H3.
  pose proof (Hrange purchase_frequency) as H4.
  pose proof (Hrange decision_speed) as H5.
  set (u1 := get_dimension dims price_sensitivity) in *.
  set (u2 := get_dimension dims exploration_tendency) in *.
  set (u3 := get_dimension dims sentiment_tendency) in *.
  set (u4 := get_dimension dims purchase_frequency) in *.
  set (u5 := get_dimension dims decision_speed) in *.
  assert (S1 : (u1 - 6 / 10) ^ 2 <= 36 / 100) by nra.
  assert (S2 : (u2 - 4 / 10) ^ 2 <= 36 / 100) by nra.
  assert (S3 : (u3 - 5 / 10) ^ 2 <= 25 / 100) by nra.
  assert (S4 : (u4 - 3 / 10) ^ 2 <= 49 / 100) by nra.
  assert (S5 : (u5 - 5 / 10) ^ 2 <= 25 / 100) by nra.
  apply Rle_trans with (sqrt ((59 / 100) ^ 2)).
  - apply sqrt_le_1_alt. lra.
  - rewrite sqrt_pow2 by lra. lra.
Qed.

(** For dimension values in [0, 1] the clamp of the confidence never acts:
    the confidence is exactly 1 minus the distance to the chosen archetype,
    and it is never below 0.41, the value guaranteed by the distance to the
    practical-shopper vector. *)
Theorem confidence_floor (dims : dimensions)
  (Hrange : forall d, 0 <= get_dimension dims d <= 1) :
  exists profile,
    In (fst (classify dims), profile) PERSONALITY_PROFILES
    /\ snd (classify dims) = 1 - profile_distance dims profile
    /\ 41 / 100 <= snd (classify dims) <= 1.
Proof.
  destruct (classify_min dims) as (p & Hin & Hmin & Hconf).
  exists p. split; [exact Hin |].
  pose proof (weighted_distance_nonneg dims p) as Hpos.
  assert (Hle : weighted_distance dims p <= 59 / 100).
  { eapply Rle_trans; [| apply (distance_to_practical_shopper dims Hrange)].
    apply (Hmin PRACTICAL_SHOPPER). unfold PERSONALITY_PROFILES. cbn [In].
    do 6 right. left. reflexivity. }
  rewrite Rmax_right in Hconf by lra.
  rewrite profile_distance_weighted. split; [exact Hconf | lra].
Qed.

Lemma confidence_floor_witness :
  exists profile,
    In (fst (classify example_dimensions), profile) PERSONALITY_PROFILES
    /\ snd (classify example_dimensions) = 1 - profile_distance example_dimensions profile
    /\ 41 / 100 <= snd (classify example_dimensions) <= 1.
Proof.
  apply (confidence_floor example_dimensions).
  intros d. unfold get_dimension, example_dimensions.
  destruct d; cbn [mk_profile]; lra.
Defined.

(** The filter signal changes the price sensitivity only when at least
    [filter_min_samples] filter events were logged; whatever the log, a
    higher purchase-based value never gives a lower blended value; and when
    there is a filter signal the blended value lies in [0, 1]. *)
Theorem blended_sensitivity_monotone (lower higher : R)
  (interactions : list interaction_row)
  (Hle : lower <= higher) :
  let log := map (fun i => Some (filter_view i)) interactions in
  _blend_price_sensitivity_with_filters lower interactions
  <= _blend_price_sensitivity_with_filters higher interactions
  /\ ((length (FilterAnalyzer.extract_filter_interactions log)
       < Settings.filter_min_samples)%nat ->
      _blend_price_sensitivity_with_filters lower interactions = lower)
  /\ (forall signal,
        FilterAnalyzer.calculate_price_sensitivity_signal log = Some signal ->
        0 <= _blend_price_sensitivity_with_filters lower interactions <= 1).
Proof.
  cbv zeta. unfold _blend_price_sensitivity_with_filters. cbv zeta.
  split; [| split].
  - destruct (FilterAnalyzer.calculate_price_sensitivity_signal _) as [s |];
      [| exact Hle].
    unfold Settings.filter_signal_weight, Rmax, Rmin.
    repeat destruct (Rle_dec _ _); lra.
  - intros Hlen. now rewrite (proj2 (price_signals_need_samples _ Hlen)).
  - intros signal ->. apply clamp_unit.
Qed.

Lemma blended_sensitivity_monotone_witness :
  _blend_price_sensitivity_with_filters (2 / 10) (flat_map filter_row ranged_events)
  <= _blend_price_sensitivity_with_filters (5 / 10) (flat_map filter_row ranged_events).
Proof.
  assert (Hle : 2 / 10 <= 5 / 10) by lra.
  exact (proj1 (blended_sensitivity_monotone (2 / 10) (5 / 10)
                  (flat_map filter_row ranged_events) Hle)).
Defined.

End Dimensions.

(** * The preferred price range *)

Section PriceRange.

Lemma insert_asc_In (x y : R) (l : list R) :
  In y (insert_asc x l) <-> y = x \/ In y l.
Proof.
  induction l as [| z l IH]; cbn [insert_asc].
  - cbn. intuition congruence.
  - destruct (Py.leb x z); cbn [In]; [intuition congruence |].
    rewrite IH. intuition congruence.
Qed.

Lemma sort_asc_In (y : R) (l : list R) : In y (sort_asc l) <-> In y l.
Proof.
  unfold sort_asc. induction l as [| x l IH]; cbn [fold_right]; [reflexivity |].
  rewrite insert_asc_In, IH. cbn. intuition congruence.
Qed.

Lemma insert_asc_length (x : R) (l : list R) :
  length (insert_asc x l) = S (length l).
Proof.
  induction l as [| z l IH]; cbn [insert_asc]; [reflexivity |].
  destruct (Py.leb x z); cbn [length]; [reflexivity | now rewrite IH].
Qed.

Lemma sort_asc_length (l : list R) : length (sort_asc l) = length l.
Proof.
  unfold sort_asc. induction l as [| x l IH]; cbn [fold_right]; [reflexivity |].
  rewrite insert_asc_length. cbn [length]. now rewrite IH.
Qed.

Lemma insert_asc_sorted (x : R) (l : list R) :
  StronglySorted Rle l -> StronglySorted Rle (insert_asc x l).
Proof.
  induction 1 as [| z l Hl IH Hz]; cbn [insert_asc].
  - constructor; constructor.
  - destruct (Py.leb x z) eqn:Hxz.
    + apply leb_spec in Hxz. constructor; [now constructor |].
      constructor; [exact Hxz |].
      eapply Forall_impl; [| exact Hz]. intros y Hy. cbn beta in Hy. lra.
    + assert (Hzx : z <= x).
      { destruct (Rle_dec x z) as [H | H]; [apply leb_true in H; congruence | lra]. }
      constructor; [exact IH |].
      apply Forall_forall. intros y Hy. apply insert_asc_In in Hy.
      destruct Hy as [-> | Hy]; [exact Hzx |].
      rewrite Forall_forall in Hz. now apply Hz.
Qed.

Lemma sort_asc_sorted (l : list R) : StronglySorted Rle (sort_asc l).
Proof.
  unfold sort_asc. induction l as [| x l IH]; cbn [fold_right]; [constructor |].
  now apply insert_asc_sorted.
Qed.

Lemma sorted_nth_le (l : list R) :
  StronglySorted Rle l ->
  forall i j, (i <= j)%nat -> (j < length l)%nat -> nth i l 0 <= nth j l 0.
Proof.
  induction 1 as [| z l Hl IH Hz]; intros i j Hij Hj; [cbn in Hj; lia |].
  destruct i as [| i], j as [| j]; cbn [nth length] in *; try lia; [lra | |].
  - rewrite Forall_forall in Hz. apply Hz. apply nth_In. lia.
  - apply IH; lia.
Qed.

(** The interpolated percentile lies between the two order statistics it
    interpolates. *)
Lemma percentile_between (prices : list R) (q : Z) :
  prices <> [] -> (0 <= q)%Z ->
  let sorted := sort_asc prices in
  let position := ((Z.of_nat (length sorted) - 1) * q)%Z in
  let lower := Z.to_nat (position / 100) in
  let upper := Nat.min (S lower) (length sorted - 1) in
  ((lower <= length sorted - 1)%nat ->
   nth lower sorted 0 <= percentile prices q <= nth upper sorted 0).
Proof.
  intros Hne Hq. cbv zeta. intros Hlower. unfold percentile. cbv zeta.
  set (sorted := sort_asc prices) in *.
  set (position := ((Z.of_nat (length sorted) - 1) * q)%Z) in *.
  set (lower := Z.to_nat (position / 100)) in *.
  set (upper := Nat.min (S lower) (length sorted - 1)) in *.
  assert (Hlen : (0 < length sorted)%nat).
  { subst sorted. rewrite sort_asc_length. destruct prices; [congruence | cbn; lia]. }
  assert (Hab : nth lower sorted 0 <= nth upper sorted 0).
  { apply sorted_nth_le; [apply sort_asc_sorted | subst upper; lia | subst upper; lia]. }
  assert (Hf : 0 <= IZR (position mod 100) / 100 < 1).
  { pose proof (Z.mod_pos_bound position 100 ltac:(lia)) as [H0 H1].
    apply IZR_le in H0. apply IZR_lt in H1. lra. }
  nra.
Qed.

Lemma quartile_positions (m : Z) :
  (2 <= m)%Z -> (m * 25 / 100 + 1 <= m * 75 / 100)%Z.
Proof.
  intros Hm.
  pose proof (Z.div_mod (m * 25) 100 ltac:(lia)).
  pose proof (Z.mod_pos_bound (m * 25) 100 ltac:(lia)).
  pose proof (Z.div_mod (m * 75) 100 ltac:(lia)).
  pose proof (Z.mod_pos_bound (m * 75) 100 ltac:(lia)).
  lia.
Qed.

Lemma purchase_prices_positive (purchases : list (option purchase_row)) :
  Forall (fun x => 0 < x) (purchase_prices purchases).
Proof.
  unfold purchase_prices. apply Forall_flat_map. apply Forall_forall.
  intros [p |] _; [| constructor]. cbv zeta.
  match goal with
  | |- Forall _ (match ?price with _ => _ end) =>
      destruct price as [x |]; [| constructor]
  end.
  destruct (Py.truthy_float x); [| constructor].
  destruct (Py.ltb 0 x) eqn:Hx; constructor; [| constructor].
  now apply ltb_spec.
Qed.

(** From purchases alone, a restricted price range is never empty: its
    lower bound is positive and below its upper bound, and the range
    contains one of the user's own purchase prices, which therefore earns the
    price boost. *)
Theorem price_range_holds_a_purchase (purchases : list (option purchase_row))
  (lo hi : R)
  (Hrange : calculate_price_preference purchases [] = (lo, Finite hi)) :
  0 < lo < hi
  /\ exists price,
       In price (purchase_prices purchases)
       /\ lo <= price <= hi
       /\ score_price_preference price lo (Finite hi)
          = Settings.price_preference_boost.
Proof.
  unfold calculate_price_preference in Hrange. cbv zeta in Hrange.
  destruct (Nat.ltb_spec (length (purchase_prices purchases)) 3) as [Hn | Hn];
    [discriminate |].
  pose proof (purchase_prices_positive purchases) as Hpos.
  set (prices := purchase_prices purchases) in *.
  injection Hrange as <- <-.
  assert (Hne : prices <> []) by (destruct prices; [cbn in Hn; lia | discriminate]).
  pose proof (percentile_between prices 25 Hne ltac:(lia)) as H25.
  pose proof (percentile_between prices 75 Hne ltac:(lia)) as H75.
  cbv zeta in H25, H75. rewrite !sort_asc_length in H25, H75.
  set (n := length prices) in *.
  set (sorted := sort_asc prices) in *.
  assert (Hsorted : length sorted = n) by apply sort_asc_length.
  assert (Hl25 : (Z.to_nat ((Z.of_nat n - 1) * 25 / 100) <= n - 1)%nat).
  { apply Nat2Z.inj_le. rewrite Z2Nat.id by (apply Z.div_pos; lia).
    rewrite Nat2Z.inj_sub by lia.
    apply Z.div_le_upper_bound; lia. }
  assert (Hl75 : (Z.to_nat ((Z.of_nat n - 1) * 75 / 100) <= n - 1)%nat).
  { apply Nat2Z.inj_le. rewrite Z2Nat.id by (apply Z.div_pos; lia).
    rewrite Nat2Z.inj_sub by lia.
    apply Z.div_le_upper_bound; lia. }
  specialize (H25 Hl25). specialize (H75 Hl75).
  set (lower25 := Z.to_nat ((Z.of_nat n - 1) * 25 / 100)) in *.
  set (lower75 := Z.to_nat ((Z.of_nat n - 1) * 75 / 100)) in *.
  assert (Hcross : (Nat.min (S lower25) (n - 1) <= lower75)%nat).
  { assert (Hz : ((Z.of_nat n - 1) * 25 / 100 + 1 <= (Z.of_nat n - 1) * 75 / 100)%Z).
    { apply quartile_positions. lia. }
    subst lower25 lower75.
    assert (H0 : (0 <= (Z.of_nat n - 1) * 25 / 100)%Z) by (apply Z.div_pos; lia).
    lia. }
  set (price := nth (Nat.min (S lower25) (n - 1)) sorted 0) in *.
  assert (Hin : In price prices).
  { apply sort_asc_In. fold sorted. subst price. apply nth_In. rewrite Hsorted. lia. }
  assert (Hmid : price <= nth lower75 sorted 0).
  { subst price. apply sorted_nth_le; [apply sort_asc_sorted | exact Hcross |].
    fold sorted. rewrite Hsorted. lia. }
  assert (Hfirst : 0 < nth lower25 sorted 0).
  { rewrite Forall_forall in Hpos. apply Hpos. apply sort_asc_In. fold sorted.
    apply nth_In. rewrite Hsorted. lia. }
  assert (Hbounds : percentile prices 25 * (8 / 10) <= price
                    <= percentile prices 75 * (12 / 10)) by lra.
  split; [lra |]. exists price. split; [exact Hin |]. split; [exact Hbounds |].
  unfold score_price_preference.
  rewrite !leb_true by lra. reflexivity.
Qed.

Lemma price_range_holds_a_purchase_witness :
  0 < 19 < 57
  /\ exists price,
       In price (purchase_prices example_purchases)
       /\ 19 <= price <= 57
       /\ score_price_preference price 19 (Finite 57)
          = Settings.price_preference_boost.
Proof.
  apply (price_range_holds_a_purchase example_purchases 19 57).
  exact example_range.
Defined.

End PriceRange.

(** * Filter price signals *)

Section PriceSignals.
Import FilterAnalyzer.

Lemma collect_empty (f : filter_context -> option R)
  (data : list (interaction * filter_context)) :
  collect f data = [] <-> Forall (fun item => f (snd item) = None) data.
Proof.
  unfold collect. induction data as [| item data IH]; cbn [flat_map].
  - split; [constructor | reflexivity].
  - destruct (f (snd item)) as [x |] eqn:Hx; cbn [app].
    + split; [discriminate |]. intros H. inversion H; subst. congruence.
    + rewrite IH. split; [now constructor | intros H; now inversion H].
Qed.

Lemma average_or_none_empty (xs : list R) : average_or_none xs = None <-> xs = [].
Proof. destruct xs; cbn; split; congruence. Qed.

Lemma collect_lower (f : filter_context -> option R) (lo : R)
  (data : list (interaction * filter_context)) :
  Forall (fun item => forall x, f (snd item) = Some x -> lo <= x) data ->
  Forall (fun x => lo <= x) (collect f data).
Proof.
  intros Hdata. unfold collect. apply Forall_flat_map.
  eapply Forall_impl; [| exact Hdata]. cbn beta. intros item Hitem.
  destruct (f (snd item)) as [x |]; constructor; [auto | constructor].
Qed.

Lemma average_or_none_lower (lo : R) (xs : list R) (avg : R) :
  Forall (fun x => lo <= x) xs -> average_or_none xs = Some avg -> lo <= avg.
Proof.
  intros Hxs. unfold average_or_none.
  destruct xs as [| x xs']; [discriminate |]. intros [= <-].
  apply mean_lower; [discriminate | exact Hxs].
Qed.

(** Below [filter_min_samples] filter events no price signal is reported;
    from there on, each of the two signals is missing exactly when no filter
    event sets the bound it averages; and a reported signal is not negative
    when none of the bounds it averages is. *)
Theorem price_signals_reported_when_set (interactions : list (option interaction)) :
  ((length (extract_filter_interactions interactions) < Settings.filter_min_samples)%nat ->
   extract_price_signals interactions = (None, None))
  /\ ((Settings.filter_min_samples <= length (extract_filter_interactions interactions))%nat ->
      (fst (extract_price_signals interactions) = None
       <-> Forall (fun item => fc_min_price (snd item) = None)
             (extract_filter_interactions interactions))
      /\ (snd (extract_price_signals interactions) = None
          <-> Forall (fun item => fc_max_price (snd item) = None)
                (extract_filter_interactions interactions)))
  /\ (forall m,
        fst (extract_price_signals interactions) = Some m ->
        Forall (fun item => forall x, fc_min_price (snd item) = Some x -> 0 <= x)
          (extract_filter_interactions interactions) ->
        0 <= m)
  /\ (forall m,
        snd (extract_price_signals interactions) = Some m ->
        Forall (fun item => forall x, fc_max_price (snd item) = Some x -> 0 <= x)
          (extract_filter_interactions interactions) ->
        0 <= m).
Proof.
  split; [intros Hlen; exact (proj1 (price_signals_need_samples _ Hlen)) |].
  unfold extract_price_signals. cbv zeta.
  split; [| split].
  - intros Hlen. apply Nat.ltb_ge in Hlen. rewrite Hlen. cbn [fst snd].
    now rewrite !average_or_none_empty, !collect_empty.
  - intros m. destruct (Nat.ltb _ _); [discriminate |]. cbn [fst].
    intros Hm Hpos. eapply average_or_none_lower; [| exact Hm].
    now apply collect_lower.
  - intros m. destruct (Nat.ltb _ _); [discriminate |]. cbn [snd].
    intros Hm Hpos. eapply average_or_none_lower; [| exact Hm].
    now apply collect_lower.
Qed.

End PriceSignals.

(** * The two ends of the blend *)

Section AlphaOne.





End AlphaOne.

Section CategoryCap.

(** No category id is carried by more than [diversity_max_per_category]
    (three) of the recommendations returned for a request. *)
Theorem recommendations_respect_category_cap (now : Z) (rq : request) (c : Z)
  (Hc : c <> 0%Z) :
  (Z.of_nat (length (filter (in_category c)
                       (fst (fst (fst (get_recommendations now rq))))))
   <= Settings.diversity_max_per_category)%Z.
Proof.
  cbn [get_recommendations fst]. now apply apply_diversity_category_cap.
Qed.

Lemma recommendations_respect_category_cap_witness :
  (Z.of_nat (length (filter (in_category 1)
                       (fst (fst (fst (get_recommendations 0 cold_request))))))
   <= Settings.diversity_max_per_category)%Z.
Proof.
  apply (recommendations_respect_category_cap 0 cold_request 1). discriminate.
Defined.

End CategoryCap.

(** * Order and completeness of the returned list *)

Section ReturnedOrder.

Lemma insert_desc_sorted {A : Type} (key : A -> R) (x : A) (l : list A) :
  StronglySorted (fun a b => key b <= key a) l ->
  StronglySorted (fun a b => key b <= key a) (Py.insert_desc key x l).
Proof.
  induction 1 as [| y l Hl IH Hy]; cbn [Py.insert_desc].
  - constructor; constructor.
  - destruct (Py.ltb (key x) (key y)) eqn:Hxy.
    + apply ltb_spec in Hxy. constructor; [exact IH |].
      apply Forall_forall. intros b Hb.
      eapply Permutation_in in Hb; [| apply insert_desc_perm].
      destruct Hb as [<- | Hb]; [lra |].
      rewrite Forall_forall in Hy. now apply Hy.
    + assert (Hyx : key y <= key x).
      { destruct (Rlt_dec (key x) (key y)) as [H | H];
          [apply ltb_true in H; congruence | lra]. }
      constructor; [now constructor |].
      constructor; [exact Hyx |].
      eapply Forall_impl; [| exact Hy]. cbn beta. intros b Hb. lra.
Qed.

Lemma sorted_desc_sorted {A : Type} (key : A -> R) (l : list A) :
  StronglySorted (fun a b => key b <= key a) (Py.sorted_desc key l).
Proof.
  unfold Py.sorted_desc. induction l as [| x l IH]; cbn [fold_right]; [constructor |].
  now apply insert_desc_sorted.
Qed.

Lemma subsequence_Forall {A : Type} (P : A -> Prop) (s l : list A) :
  subsequence s l -> Forall P l -> Forall P s.
Proof.
  intros Hsub Hl. apply Forall_forall. intros x Hx.
  rewrite Forall_forall in Hl. apply Hl. eapply subsequence_In; eassumption.
Qed.

Lemma subsequence_sorted {A : Type} (R : A -> A -> Prop) (s l : list A) :
  subsequence s l -> StronglySorted R l -> StronglySorted R s.
Proof.
  induction 1 as [| y s l H IH | y s l H IH]; intros Hl.
  - constructor.
  - inversion Hl; subst. auto.
  - inversion Hl as [| ? ? Hs Hy]; subst. constructor; [auto |].
    eapply subsequence_Forall; eassumption.
Qed.

Lemma map_sorted {A B : Type} (R : A -> A -> Prop) (R' : B -> B -> Prop) (f : A -> B)
  (l : list A) :
  (forall a b, R a b -> R' (f a) (f b)) ->
  StronglySorted R l -> StronglySorted R' (map f l).
Proof.
  intros Hf. induction 1 as [| x l Hl IH Hx]; cbn [map]; constructor; [exact IH |].
  apply Forall_map. eapply Forall_impl; [| exact Hx]. intros b. apply Hf.
Qed.

(** The recommendations are returned best first: no item scores higher
    than an item listed before it. *)
Theorem recommendations_sorted_by_score (now : Z) (rq : request) :
  StronglySorted not_ranked_above (fst (fst (fst (get_recommendations now rq)))).
Proof.
  cbn [get_recommendations fst].
  eapply subsequence_sorted; [apply apply_diversity_subsequence |].
  eapply map_sorted; [| apply sorted_desc_sorted].
  intros [k1 d1] [k2 d2]. cbn [fst snd]. unfold not_ranked_above, make_item.
  cbn [score]. intros Hle. unfold Rmin, Rmax.
  repeat destruct (Rle_dec _ _); lra.
Qed.

Lemma first_pass_complete (limit : Z) (l : list (Z * entry)) :
  forall st,
    (len (recommendations st) + len l <= limit)%Z ->
    (forall c, (count_of c (category_counts st) + Z.of_nat (occurrences c l)
                <= Settings.diversity_max_per_category)%Z) ->
    recommendations (first_pass limit l st)
    = recommendations st ++ map (fun kd => make_item (fst kd) (snd kd)) l.
Proof.
  induction l as [| [k d] l IH]; intros st Hroom Hcap; cbn [first_pass map].
  - now rewrite app_nil_r.
  - unfold len in Hroom. cbn [length] in Hroom.
    assert (Hfree : (len (recommendations st) >=? limit)%Z = false).
    { rewrite Z.geb_leb. apply Z.leb_gt. unfold len. lia. }
    rewrite Hfree. cbv zeta.
    assert (Hrefl : forall a, opt_eqb a a = true) by (intros a; now apply opt_eqb_eq).
    assert (Hopen : (count_of (category_key d) (category_counts st)
                     >=? Settings.diversity_max_per_category)%Z = false).
    { rewrite Z.geb_leb. apply Z.leb_gt.
      specialize (Hcap (category_key d)). unfold occurrences in Hcap.
      cbn [filter snd] in Hcap. rewrite Hrefl in Hcap. cbn [length] in Hcap. lia. }
    rewrite Hopen. rewrite IH.
    + cbn [recommendations fst snd]. now rewrite <- app_assoc.
    + cbn [recommendations]. unfold len. rewrite length_app. cbn [length]. lia.
    + intros c. cbn [category_counts]. rewrite count_of_increment.
      specialize (Hcap c). unfold occurrences in Hcap |- *.
      cbn [filter snd] in Hcap.
      destruct (opt_eqb c (category_key d)) eqn:Hc.
      * apply opt_eqb_eq in Hc. subst c. rewrite Hrefl in Hcap.
        cbn [length] in Hcap. lia.
      * destruct (opt_eqb (category_key d) c) eqn:Hc'.
        -- apply opt_eqb_eq in Hc'. subst c. rewrite Hrefl in Hc. discriminate.
        -- exact Hcap.
Qed.

(** The selector drops nothing without need: when the limit leaves room
    for every candidate and no category key occurs more often than the cap,
    all the candidates are returned, in the order received. *)
Theorem diversity_keeps_all_when_possible (l : list (Z * entry)) (limit : Z)
  (Hroom : (len l <= limit)%Z)
  (Hcap : forall c, (Z.of_nat (occurrences c l)
                     <= Settings.diversity_max_per_category)%Z) :
  _apply_diversity l limit = map (fun kd => make_item (fst kd) (snd kd)) l.
Proof.
  rewrite apply_diversity_first_pass. rewrite first_pass_complete.
  - reflexivity.
  - cbn [recommendations]. unfold len in *. cbn [length]. lia.
  - intros c. cbn [category_counts]. unfold count_of. cbn [Py.lookup default].
    specialize (Hcap c). lia.
Qed.

Lemma diversity_keeps_all_when_possible_witness :
  _apply_diversity one_category_candidates 3
  = map (fun kd => make_item (fst kd) (snd kd)) one_category_candidates.
Proof.
  apply (diversity_keeps_all_when_possible one_category_candidates 3).
  - cbn. lia.
  - intros c. unfold occurrences.
    pose proof (filter_length_bound
                  (fun kd : Z * entry => opt_eqb (category_key (snd kd)) c)
                  one_category_candidates) as Hlen.
    cbn [one_category_candidates length] in Hlen.
    unfold Settings.diversity_max_per_category. lia.
Defined.

End ReturnedOrder.
